(** * Fraud-alert triage: resilience layer

    A shallow embedding of the orchestration and resilience core of the
    triage service:

    - [CircuitBreaker]   (agents/CircuitBreaker.ts)
    - [BaseTool]         (agents/tools/BaseTool.ts)
    - [RateLimiter]      (middleware/rateLimiter.ts)
    - [Orchestrator]     (agents/Orchestrator.ts)
    - [FraudAgent]       (agents/subagents/FraudAgent.ts)
    - the SSE route      (routes/triage.ts)

    Asynchronous TypeScript is read sequentially: one logical task runs at a
    time, every [await] is a call that may advance the clock, and a rejected
    promise is a thrown error.  State that the source keeps in objects, in
    the database or in Redis is threaded explicitly through a state-and-error
    monad.  [logger] calls are observers without influence on control flow
    and are left out; [metrics] counters are kept as an append-only log. *)

From Stdlib Require Import ZArith QArith Qminmax Qround String List Bool Lia Lqa.
From stdpp Require Import base option list gmap strings pretty.

Local Open Scope string_scope.
Local Open Scope list_scope.
Local Open Scope Z_scope.

(** ** Errors, outcomes and the monad *)

(** A JavaScript [Error]: the code only ever reads [error.message]. *)
Record JsError := Error { message : string }.

Inductive Outcome (A : Type) : Type :=
| Ok (a : A)
| Throw (e : JsError).
Arguments Ok {A} a.
Arguments Throw {A} e.

Definition isOk {A} (o : Outcome A) : bool :=
  match o with Ok _ => true | Throw _ => false end.

(** A computation over a store [S] that returns or throws. *)
Definition M (S A : Type) : Type := S -> Outcome A * S.

Section Monad.
Context {S : Type}.

Definition ret {A} (a : A) : M S A := fun s => (Ok a, s).

Definition throw {A} (e : JsError) : M S A := fun s => (Throw e, s).

Definition bind {A B} (m : M S A) (k : A -> M S B) : M S B :=
  fun s => match m s with
           | (Ok a, s') => k a s'
           | (Throw e, s') => (Throw e, s')
           end.

(** [try { m } catch (e) { h e }] *)
Definition tryCatch {A} (m : M S A) (h : JsError -> M S A) : M S A :=
  fun s => match m s with
           | (Ok a, s') => (Ok a, s')
           | (Throw e, s') => h e s'
           end.

Definition gets {A} (f : S -> A) : M S A := fun s => (Ok (f s), s).
Definition modify (f : S -> S) : M S unit := fun s => (Ok tt, f s).

Definition when (b : bool) (m : M S unit) : M S unit :=
  if b then m else ret tt.
End Monad.

#[global] Instance M_ret {S} : MRet (M S) := @ret S.
#[global] Instance M_bind {S} : MBind (M S) := fun A B k m => bind m k.

(** ** Data model of the agents (agents/types.ts) *)

Record CircuitBreakerState := mkState {
  failures : Z;
  lastFailureTime : Z;
  isOpen : bool
}.

Inductive RiskLevel := LOW | MEDIUM | HIGH.

Definition riskName (r : RiskLevel) : string :=
  match r with LOW => "low" | MEDIUM => "medium" | HIGH => "high" end.

#[global] Instance RiskLevel_eq_dec : EqDecision RiskLevel.
Proof. solve_decision. Defined.

(** Opaque JSON payloads (customer profiles, transactions, ...). *)
#[warnings="-register-all"]
Inductive Json :=
| JNull
| JBool (b : bool)
| JNum (q : Q)
| JStr (s : string)
| JArr (items : list Json)
| JObj (fields : list (string * Json)).

Record FraudSignals := mkSignals {
  velocityScore : Z;
  deviceChange : bool;
  mccRarity : Q;
  priorChargebacks : Z
}.

Record KbDoc := mkKbDoc {
  docId : string;
  title : string;
  anchor : string;
  extract : string
}.

(** What the [run] method of each registered tool class returns.  The
    orchestrator stores these values in untyped variables and reads single
    properties from them; the accessors below give [None] where JavaScript
    gives [undefined]. *)
Inductive ToolData :=
| DataAccessData (customer : Json) (transactions : list Json)
| InsightsData (spendPattern : string) (rest : Json)
| FraudData (risk : RiskLevel) (reasons : list string) (action : string)
            (scoring : option (FraudSignals * Z))
| KbData (docs : list KbDoc)
| ComplianceData (requiresOTP : bool) (rest : Json)
| RedactorData (piiFound : bool) (rest : Json)
| SummaryData (customerMessage internalNote tone : string)
| DecisionData (recommendedAction : string) (confidence : Q)
| ProposalData (action : string) (confidence : Q)
               (requiresApproval blockedByPolicy : bool).

Definition riskOf (d : ToolData) : option RiskLevel :=
  match d with FraudData r _ _ _ => Some r | _ => None end.

Definition reasonsOf (d : ToolData) : option (list string) :=
  match d with FraudData _ rs _ _ => Some rs | _ => None end.

Definition actionOf (d : ToolData) : option string :=
  match d with
  | FraudData _ _ a _ => Some a
  | ProposalData a _ _ _ => Some a
  | _ => None
  end.

Definition requiresOTPOf (d : ToolData) : option bool :=
  match d with ComplianceData b _ => Some b | _ => None end.

Definition piiFoundOf (d : ToolData) : option bool :=
  match d with RedactorData b _ => Some b | _ => None end.

Definition spendPatternOf (d : ToolData) : option string :=
  match d with InsightsData p _ => Some p | _ => None end.

Definition docsOf (d : ToolData) : option (list KbDoc) :=
  match d with KbData ds => Some ds | _ => None end.

(** JavaScript truthiness of an optional string / optional boolean. *)
Definition truthyStr (o : option string) : bool :=
  match o with
  | Some s => negb (String.eqb s "")
  | None => false
  end.

Definition truthyBool (o : option bool) : bool := default false o.

(** [a || b] on strings. *)
Definition orElse (a : option string) (b : string) : string :=
  if truthyStr a then default b a else b.

Record AlertRow := mkAlert {
  alertCustomerId : string;
  alertCustomer : Json;
  alertTransaction : Json;
  alertStatus : string
}.

Record AgentContext := mkContext {
  customerId : string;
  alertId : string;
  runId : string;
  transactions : list Json;
  customer : Json;
  alert : AlertRow;
  (* fields the orchestrator adds later with [(context as any).x = ...] *)
  riskResult : option ToolData;
  complianceResult : option ToolData
}.

Record ToolResult := mkResult {
  ok : bool;
  data : option ToolData;
  error : option string;
  duration : Z
}.

Inductive Detail :=
| DetailData (d : ToolData)
| DetailError (err : option string).

Record AgentStep := mkStep {
  step : string;
  stepOk : bool;
  stepDuration : Z;
  detail : Detail;
  stepFallbackUsed : bool
}.

Record TriageResult := mkTriage {
  risk : RiskLevel;
  reasons : list string;
  recommendedAction : string;
  plan : list string;
  steps : list AgentStep;
  fallbackUsed : bool;
  latencyMs : Z
}.

(** ** The world *)

(** How one invocation of a tool's [run] (or of a mocked function) behaves:
    it settles after [d] milliseconds with a value or an error, or it never
    settles. *)
Inductive Attempt (A : Type) :=
| Settles (o : Outcome A) (d : Z)
| Pending.
Arguments Settles {A} o d.
Arguments Pending {A}.

(** Calls to the persistence collaborator (prisma). *)
Inductive DbOp :=
| AlertFindUnique (id : string)
| TriageRunCreate (id : string)
| AgentTraceCreate (run : string) (seq : nat) (stepName : string)
| TriageRunUpdate (id : string).

Record TriageRunRow := mkRunRow {
  rowId : string;
  rowAlertId : string;
  startedAt : Z
}.

Record AgentTraceRow := mkTraceRow {
  traceRunId : string;
  seq : nat;
  traceStep : string;
  traceOk : bool;
  durationMs : Z;
  detailJson : Detail
}.

Record TriageRunUpdateRow := mkRunUpdate {
  updId : string;
  endedAt : Z;
  updRisk : RiskLevel;
  updReasons : list string;
  updFallbackUsed : bool;
  updLatencyMs : Z
}.

Inductive ToolStatus := Running | CompletedStatus.

(** Events of the progress stream. *)
Inductive Event :=
| Connected (run : string)
| PlanBuilt (planned : list string) (run : string)
| ToolUpdate (stepName : string) (status : ToolStatus) (dur : option Z)
             (run : string)
| FallbackTriggered (stepName : string) (reason : option string)
                    (run : string)
| DecisionFinalized (r : RiskLevel) (rs : list string) (act : string)
                    (latency : Z) (run : string)
| Completed
| ErrorEvent (msg : string).

Inductive Metric :=
| ToolCallTotal (tool : string) (okLabel : bool)
| AgentLatency (agent stepLabel : string) (value : Z)
| AgentFallbackTotal (tool : string).

(** Behaviour of everything outside the process, fixed for a scenario:
    what the [k]-th invocation of a database-backed tool's [run] does, the
    jitter drawn after it, the ids [nanoid] hands out, and which persistence
    calls reject and how long they take. *)
Record Oracle := mkOracle {
  toolRun : string -> nat -> AgentContext -> Attempt ToolData;
  jitter : string -> nat -> Z;
  nanoid : nat -> string;
  dbFault : DbOp -> option JsError;
  dbLatency : DbOp -> Z
}.

Record World := mkWorld {
  clock : Z;                                    (* Date.now() *)
  states : gmap string CircuitBreakerState;     (* circuitBreaker.states *)
  calls : gmap string nat;                      (* invocations per function *)
  metricLog : list Metric;
  alerts : gmap string AlertRow;                (* table alert *)
  triageRuns : list TriageRunRow;               (* rows created *)
  agentTraces : list AgentTraceRow;             (* rows created *)
  runUpdates : list TriageRunUpdateRow;         (* updates applied *)
  idsDrawn : nat;
  wire : list Event;                            (* res.write *)
  wireEnded : bool;                             (* res.end *)
  oracle : Oracle
}.

Definition setClock (t : Z) (w : World) : World :=
  mkWorld t (states w) (calls w) (metricLog w) (alerts w) (triageRuns w)
          (agentTraces w) (runUpdates w) (idsDrawn w) (wire w) (wireEnded w)
          (oracle w).

Definition setStates (s : gmap string CircuitBreakerState) (w : World) : World :=
  mkWorld (clock w) s (calls w) (metricLog w) (alerts w) (triageRuns w)
          (agentTraces w) (runUpdates w) (idsDrawn w) (wire w) (wireEnded w)
          (oracle w).

Definition setCalls (c : gmap string nat) (w : World) : World :=
  mkWorld (clock w) (states w) c (metricLog w) (alerts w) (triageRuns w)
          (agentTraces w) (runUpdates w) (idsDrawn w) (wire w) (wireEnded w)
          (oracle w).

Definition setMetricLog (l : list Metric) (w : World) : World :=
  mkWorld (clock w) (states w) (calls w) l (alerts w) (triageRuns w)
          (agentTraces w) (runUpdates w) (idsDrawn w) (wire w) (wireEnded w)
          (oracle w).

Definition setTriageRuns (l : list TriageRunRow) (w : World) : World :=
  mkWorld (clock w) (states w) (calls w) (metricLog w) (alerts w) l
          (agentTraces w) (runUpdates w) (idsDrawn w) (wire w) (wireEnded w)
          (oracle w).

Definition setAgentTraces (l : list AgentTraceRow) (w : World) : World :=
  mkWorld (clock w) (states w) (calls w) (metricLog w) (alerts w)
          (triageRuns w) l (runUpdates w) (idsDrawn w) (wire w) (wireEnded w)
          (oracle w).

Definition setRunUpdates (l : list TriageRunUpdateRow) (w : World) : World :=
  mkWorld (clock w) (states w) (calls w) (metricLog w) (alerts w)
          (triageRuns w) (agentTraces w) l (idsDrawn w) (wire w) (wireEnded w)
          (oracle w).

Definition setIdsDrawn (n : nat) (w : World) : World :=
  mkWorld (clock w) (states w) (calls w) (metricLog w) (alerts w)
          (triageRuns w) (agentTraces w) (runUpdates w) n (wire w)
          (wireEnded w) (oracle w).

Definition setWire (l : list Event) (w : World) : World :=
  mkWorld (clock w) (states w) (calls w) (metricLog w) (alerts w)
          (triageRuns w) (agentTraces w) (runUpdates w) (idsDrawn w) l
          (wireEnded w) (oracle w).

Definition setWireEnded (b : bool) (w : World) : World :=
  mkWorld (clock w) (states w) (calls w) (metricLog w) (alerts w)
          (triageRuns w) (agentTraces w) (runUpdates w) (idsDrawn w) (wire w)
          b (oracle w).

(** [Date.now()] *)
Definition DateNow : M World Z := gets clock.

(** Time passing while the task is suspended. *)
Definition elapse (d : Z) : M World unit := modify (fun w => setClock (clock w + d) w).

Definition callCount (name : string) (w : World) : nat :=
  default 0%nat (calls w !! name).

(** Record one more invocation of the function [name]; gives its index. *)
Definition countCall (name : string) : M World nat :=
  fun w => let k := callCount name w in
           (Ok k, setCalls (<[name := S k]> (calls w)) w).

Definition metricsInc (m : Metric) : M World unit :=
  modify (fun w => setMetricLog (metricLog w ++ [m]) w).

(** ** CircuitBreaker (agents/CircuitBreaker.ts) *)

Module CircuitBreaker.

Definition failureThreshold : Z := 3.
Definition openDuration : Z := 30000.

Definition initialState : CircuitBreakerState := mkState 0 0 false.

Definition getState (toolName : string) : M World CircuitBreakerState :=
  fun w =>
    match states w !! toolName with
    | Some st => (Ok st, w)
    | None => (Ok initialState,
               setStates (<[toolName := initialState]> (states w)) w)
    end.

Definition putState (toolName : string) (st : CircuitBreakerState)
  : M World unit :=
  modify (fun w => setStates (<[toolName := st]> (states w)) w).

Definition onSuccess (toolName : string) : M World unit :=
  st ← getState toolName;
  putState toolName (mkState 0 (lastFailureTime st) false).

Definition onFailure (toolName : string) : M World unit :=
  st ← getState toolName;
  now ← DateNow;
  let failures' := failures st + 1 in
  putState toolName
    (mkState failures' now
             (if failureThreshold <=? failures' then true else isOpen st)).

Definition resetCircuit (toolName : string) : M World unit :=
  putState toolName initialState.

Definition openError (toolName : string) : JsError :=
  Error ("Circuit breaker open for " +:+ toolName).

Definition execute {T} (toolName : string) (fn : M World T) : M World T :=
  st ← getState toolName;
  (if isOpen st then
     now ← DateNow;
     if now - lastFailureTime st <? openDuration
     then throw (openError toolName)
     else resetCircuit toolName
   else mret tt);;
  tryCatch
    (result ← fn; onSuccess toolName;; mret result)
    (fun error => onFailure toolName;; throw error).

(** [isOpen(toolName)] *)
Definition isOpenFor (toolName : string) : M World bool :=
  st ← getState toolName; mret (isOpen st).

End CircuitBreaker.

(** A promise-returning function under test whose [k]-th invocation follows
    the script [beh]: it is counted, takes its time, and resolves or
    rejects. *)
Definition scripted {T} (name : string) (beh : nat -> Outcome T * Z)
  : M World T :=
  k ← countCall name;
  elapse (snd (beh k));;
  match fst (beh k) with
  | Ok v => mret v
  | Throw e => throw e
  end.

(** ** BaseTool (agents/tools/BaseTool.ts) and the registered tools *)

Module BaseTool.

Definition timeout : Z := 1000.
Definition maxRetries : nat := 2.
Definition retryDelays : list Z := [150; 400].

(** The body of a subclass's [run]: either a function of the context alone
    (it settles at once), or code that queries the database, whose
    behaviour the oracle scripts. *)
Inductive RunBody :=
| Pure (f : AgentContext -> ToolData)
| External.

Record Tool := mkTool {
  className : string;        (* this.constructor.name *)
  body : RunBody
}.

(** [this.run(context)], counted per class. *)
Definition run (tool : Tool) (context : AgentContext)
  : M World (Attempt ToolData) :=
  k ← countCall (className tool);
  match body tool with
  | Pure f => mret (Settles (Ok (f context)) 0)
  | External =>
      o ← gets oracle;
      mret (toolRun o (className tool) k context)
  end.

Definition timeoutError : JsError := Error "Tool timeout exceeded".

(** [Promise.race([this.run(context), this.timeoutPromise()])]: whichever
    settles first wins.  The timer fires after [timeout] ms; [run] is
    started before the timer is set, so a [run] that settles at that very
    instant still wins the race. *)
Definition executeWithTimeout (tool : Tool) (context : AgentContext)
  : M World ToolData :=
  a ← run tool context;
  match a with
  | Settles o d =>
      if d <=? timeout then
        elapse d;;
        match o with
        | Ok v => mret v
        | Throw e => throw e
        end
      else elapse timeout;; throw timeoutError
  | Pending => elapse timeout;; throw timeoutError
  end.

(** [sleep(this.retryDelays[attempt] + Math.random() * 50)] *)
Definition backoff (tool : Tool) (attempt : nat) : M World unit :=
  o ← gets oracle;
  n ← gets (callCount (className tool));
  elapse (default 0 (retryDelays !! attempt) + jitter o (className tool) n).

(** The [for] loop of [executeWithRetry], entered at [attempt] with
    [remaining] iterations to go; after the loop, [throw lastError]. *)
Fixpoint retryLoop (tool : Tool) (context : AgentContext)
         (attempt remaining : nat) (lastError : option JsError)
  : M World ToolData :=
  match remaining with
  | O => throw (default (Error "null") lastError)
  | S remaining' =>
      tryCatch
        (executeWithTimeout tool context)
        (fun error =>
           when (attempt <? maxRetries)%nat (backoff tool attempt);;
           retryLoop tool context (S attempt) remaining' (Some error))
  end.

Definition executeWithRetry (tool : Tool) (context : AgentContext)
  : M World ToolData :=
  retryLoop tool context 0 (S maxRetries) None.

Definition execute (tool : Tool) (context : AgentContext)
  : M World ToolResult :=
  startTime ← DateNow;
  let toolName := className tool in
  tryCatch
    (result ← CircuitBreaker.execute toolName (executeWithRetry tool context);
     now ← DateNow;
     let duration := now - startTime in
     metricsInc (ToolCallTotal toolName true);;
     metricsInc (AgentLatency toolName "execute" duration);;
     mret (mkResult true (Some result) None duration))
    (fun error =>
       now ← DateNow;
       let duration := now - startTime in
       metricsInc (ToolCallTotal toolName false);;
       mret (mkResult false None (Some (message error)) duration)).

End BaseTool.

Import BaseTool.

(** DecisionTool.run: the context has no [action] property, so the
    [||] default is always taken. *)
Definition DecisionTool_run (context : AgentContext) : ToolData :=
  DecisionData (orElse None "mark_false_positive") (17 # 20).

Definition definedActions : list string :=
  ["freeze_card"; "open_dispute"; "contact_customer"; "mark_false_positive"].

Definition isDefinedAction (a : string) : bool :=
  existsb (String.eqb a) definedActions.

(** ProposeActionTool.run; the schema can only reject [action], the other
    three fields have the right types by construction. *)
Definition ProposeActionTool_run (context : AgentContext) : ToolData :=
  let riskResult := riskResult context in
  let complianceResult := complianceResult context in
  let action := orElse (riskResult ≫= actionOf) "mark_false_positive" in
  let requiresApproval :=
    String.eqb action "freeze_card"
    && truthyBool (complianceResult ≫= requiresOTPOf) in
  let blockedByPolicy := false in
  let confidence :=
    if bool_decide (riskResult ≫= riskOf = Some HIGH)
       && (2 <? Z.of_nat (length (default [] (riskResult ≫= reasonsOf))))
    then 23 # 25
    else if bool_decide (riskResult ≫= riskOf = Some LOW) then 17 # 20
    else 3 # 4 in
  if isDefinedAction action
  then ProposalData action confidence requiresApproval blockedByPolicy
  else ProposalData "contact_customer" (1 # 2) true false.

(** ** Orchestrator (agents/Orchestrator.ts) *)

Module Orchestrator.

Definition flowBudget : Z := 5000.

Definition defaultPlan : list string :=
  ["dataAccess"; "riskSignals"; "kbLookup"; "decide"; "proposeAction"].

(** [this.tools], as built by the constructor. *)
Definition tools : gmap string Tool :=
  list_to_map
    [ ("dataAccess", mkTool "DataAccessAgent" External);
      ("insights", mkTool "InsightsAgent" External);
      ("riskSignals", mkTool "FraudAgent" External);
      ("kbLookup", mkTool "KnowledgeBaseAgent" External);
      ("compliance", mkTool "ComplianceAgent" External);
      ("redactor", mkTool "RedactorAgent" External);
      ("summarizer", mkTool "SummarizerAgent" External);
      ("decide", mkTool "DecisionTool" (Pure DecisionTool_run));
      ("proposeAction", mkTool "ProposeActionTool" (Pure ProposeActionTool_run)) ].

Definition fallbackReason : string := "Risk assessment unavailable (fallback)".

Definition getFallbackRisk : ToolData :=
  FraudData MEDIUM [fallbackReason] "freeze_card" None.

(** The mutable local variables of [executeTriage]. *)
Record Locals := mkLocals {
  vContext : AgentContext;
  vSteps : list AgentStep;
  vFallbackUsed : bool;
  vInsightsResult : option ToolData;
  vRiskResult : option ToolData;
  vKbResults : option ToolData;
  vComplianceResult : option ToolData;
  vRedactorResult : option ToolData;
  vProposalResult : option ToolData;
  (* objects are shared, not copied: the index in [steps] of the step
     whose [detail] is the very object held in [riskResult], if any *)
  vRiskStep : option nat
}.

(** A call frame of [executeTriage]: assignments made before a [throw]
    are still there in the [catch] block. *)
Record Frame := mkFrame {
  world : World;
  vars : Locals
}.

Definition liftW {A} (m : M World A) : M Frame A :=
  fun f => let (o, w') := m (world f) in (o, mkFrame w' (vars f)).

Definition getsV {A} (g : Locals -> A) : M Frame A := gets (fun f => g (vars f)).

Definition assign (g : Locals -> Locals) : M Frame unit :=
  modify (fun f => mkFrame (world f) (g (vars f))).

Definition setContext (c : AgentContext) (v : Locals) : Locals :=
  mkLocals c (vSteps v) (vFallbackUsed v) (vInsightsResult v) (vRiskResult v)
           (vKbResults v) (vComplianceResult v) (vRedactorResult v)
           (vProposalResult v) (vRiskStep v).

Definition pushStep (s : AgentStep) (v : Locals) : Locals :=
  mkLocals (vContext v) (vSteps v ++ [s]) (vFallbackUsed v)
           (vInsightsResult v) (vRiskResult v) (vKbResults v)
           (vComplianceResult v) (vRedactorResult v) (vProposalResult v)
           (vRiskStep v).

Definition setFallbackUsed (b : bool) (v : Locals) : Locals :=
  mkLocals (vContext v) (vSteps v) b (vInsightsResult v) (vRiskResult v)
           (vKbResults v) (vComplianceResult v) (vRedactorResult v)
           (vProposalResult v) (vRiskStep v).

Definition setInsightsResult (d : option ToolData) (v : Locals) : Locals :=
  mkLocals (vContext v) (vSteps v) (vFallbackUsed v) d (vRiskResult v)
           (vKbResults v) (vComplianceResult v) (vRedactorResult v)
           (vProposalResult v) (vRiskStep v).

(** [riskResult = d], where [d] is a fresh object ([sharedWith = None])
    or the object that the step pushed at index [i] has as its detail
    ([sharedWith = Some i]). *)
Definition setRiskResult (d : option ToolData) (sharedWith : option nat)
           (v : Locals) : Locals :=
  mkLocals (vContext v) (vSteps v) (vFallbackUsed v) (vInsightsResult v) d
           (vKbResults v) (vComplianceResult v) (vRedactorResult v)
           (vProposalResult v) sharedWith.

Definition setKbResults (d : option ToolData) (v : Locals) : Locals :=
  mkLocals (vContext v) (vSteps v) (vFallbackUsed v) (vInsightsResult v)
           (vRiskResult v) d (vComplianceResult v) (vRedactorResult v)
           (vProposalResult v) (vRiskStep v).

Definition setComplianceResult (d : option ToolData) (v : Locals) : Locals :=
  mkLocals (vContext v) (vSteps v) (vFallbackUsed v) (vInsightsResult v)
           (vRiskResult v) (vKbResults v) d (vRedactorResult v)
           (vProposalResult v) (vRiskStep v).

Definition setRedactorResult (d : option ToolData) (v : Locals) : Locals :=
  mkLocals (vContext v) (vSteps v) (vFallbackUsed v) (vInsightsResult v)
           (vRiskResult v) (vKbResults v) (vComplianceResult v) d
           (vProposalResult v) (vRiskStep v).

Definition setProposalResult (d : option ToolData) (v : Locals) : Locals :=
  mkLocals (vContext v) (vSteps v) (vFallbackUsed v) (vInsightsResult v)
           (vRiskResult v) (vKbResults v) (vComplianceResult v)
           (vRedactorResult v) d (vRiskStep v).

(** *** The persistence collaborator *)

(** A prisma call takes its time and rejects when the oracle says so. *)
Definition dbCall (op : DbOp) : M World unit :=
  o ← gets oracle;
  elapse (dbLatency o op);;
  match dbFault o op with
  | Some e => throw e
  | None => mret tt
  end.

Definition alertFindUnique (id : string) : M World (option AlertRow) :=
  dbCall (AlertFindUnique id);;
  gets (fun w => alerts w !! id).

Definition triageRunCreate (row : TriageRunRow) : M World unit :=
  dbCall (TriageRunCreate (rowId row));;
  modify (fun w => setTriageRuns (triageRuns w ++ [row]) w).

Definition agentTraceCreate (row : AgentTraceRow) : M World unit :=
  dbCall (AgentTraceCreate (traceRunId row) (seq row) (traceStep row));;
  modify (fun w => setAgentTraces (agentTraces w ++ [row]) w).

Definition triageRunUpdate (row : TriageRunUpdateRow) : M World unit :=
  dbCall (TriageRunUpdate (updId row));;
  modify (fun w => setRunUpdates (runUpdates w ++ [row]) w).

Definition newRunId : M World string :=
  fun w => (Ok (nanoid (oracle w) (idsDrawn w)),
            setIdsDrawn (S (idsDrawn w)) w).

(** *** executeTriage *)

Definition Callback : Type := option (Event -> M World unit).

Definition streamEvent (callback : Callback) (event : Event) : M World unit :=
  match callback with
  | Some cb => cb event
  | None => mret tt
  end.

(** Lines 160-179: keep the step's data for the final decision and for
    later tools.  Data of another class than the step's own (which the
    registry rules out) has none of the properties read here, and reading
    a property of missing data throws.  The risk result is the object
    that also becomes the detail of the step recorded next (line 186). *)
Definition storeResult (stepName : string) (result : ToolResult)
  : M Frame unit :=
  if String.eqb stepName "dataAccess" && ok result then
    match data result with
    | Some (DataAccessData c ts) =>
        assign (fun v => setContext
          (let x := vContext v in
           mkContext (customerId x) (alertId x) (runId x) ts c (alert x)
                     (riskResult x) (complianceResult x)) v)
    | Some _ =>
        assign (fun v => setContext
          (let x := vContext v in
           mkContext (customerId x) (alertId x) (runId x) [] JNull (alert x)
                     (riskResult x) (complianceResult x)) v)
    | None =>
        throw (Error "Cannot read properties of undefined (reading 'customer')")
    end
  else if String.eqb stepName "insights" && ok result then
    assign (setInsightsResult (data result))
  else if String.eqb stepName "riskSignals" && ok result then
    assign (fun v => setRiskResult (data result) (Some (length (vSteps v))) v);;
    assign (fun v => setContext
      (let x := vContext v in
       mkContext (customerId x) (alertId x) (runId x) (transactions x)
                 (customer x) (alert x) (data result) (complianceResult x)) v)
  else if String.eqb stepName "kbLookup" && ok result then
    assign (setKbResults (data result))
  else if String.eqb stepName "compliance" && ok result then
    assign (setComplianceResult (data result));;
    assign (fun v => setContext
      (let x := vContext v in
       mkContext (customerId x) (alertId x) (runId x) (transactions x)
                 (customer x) (alert x) (riskResult x) (data result)) v)
  else if String.eqb stepName "redactor" && ok result then
    assign (setRedactorResult (data result))
  else if String.eqb stepName "proposeAction" && ok result then
    assign (setProposalResult (data result))
  else mret tt.

(** [result.data || { error: result.error }] *)
Definition detailOf (result : ToolResult) : Detail :=
  match data result with
  | Some d => DetailData d
  | None => DetailError (error result)
  end.

(** The [try]/[catch] of one loop iteration (lines 142-254); the result
    is [true] when the loop is left with [break]. *)
Definition stepBody (startTime : Z) (run : string) (callback : Callback)
           (stepName : string) (tool : Tool) (stepStartTime : Z)
  : M Frame bool :=
  tryCatch
    (now ← liftW DateNow;
     if flowBudget <? now - startTime then mret true
     else
       liftW (streamEvent callback (ToolUpdate stepName Running None run));;
       context ← getsV vContext;
       result ← liftW (BaseTool.execute tool context);
       now' ← liftW DateNow;
       let duration := now' - stepStartTime in
       storeResult stepName result;;
       let agentStep :=
         mkStep stepName (ok result) duration (detailOf result)
                (negb (ok result)) in
       assign (pushStep agentStep);;
       n ← getsV (fun v => length (vSteps v));
       liftW (agentTraceCreate
                (mkTraceRow run n stepName (ok result) duration
                            (detail agentStep)));;
       (if negb (ok result) then
          assign (setFallbackUsed true);;
          liftW (metricsInc (AgentFallbackTotal stepName));;
          liftW (streamEvent callback
                   (FallbackTriggered stepName (error result) run));;
          if String.eqb stepName "riskSignals"
          then assign (setRiskResult (Some getFallbackRisk) None)
          else mret tt
        else
          liftW (streamEvent callback
                   (ToolUpdate stepName CompletedStatus (Some duration) run)));;
       mret false)
    (fun error =>
       assign (setFallbackUsed true);;
       now ← liftW DateNow;
       assign (pushStep (mkStep stepName false (now - stepStartTime)
                                (DetailError (Some (message error))) true));;
       mret false).

(** [for (const step of plan) { ... }] *)
Fixpoint forEachStep (startTime : Z) (run : string) (callback : Callback)
         (remaining : list string) : M Frame unit :=
  match remaining with
  | [] => mret tt
  | stepName :: rest =>
      stepStartTime ← liftW DateNow;
      match tools !! stepName with
      | None => forEachStep startTime run callback rest
      | Some tool =>
          stop ← stepBody startTime run callback stepName tool stepStartTime;
          if (stop : bool) then mret tt
          else forEachStep startTime run callback rest
      end
  end.

Definition finalRisk (v : Locals) : RiskLevel :=
  default MEDIUM (vRiskResult v ≫= riskOf).

Definition finalAction (v : Locals) : string :=
  orElse (vProposalResult v ≫= actionOf)
         (orElse (vRiskResult v ≫= actionOf) "contact_customer").

(** Lines 259-280: the reasons list with its annotations.  [reasons] is
    the array of the risk result when it has one, and [push] extends it
    in place (see [finalSteps]). *)
Definition finalReasons (v : Locals) : list string :=
  let reasons := default [fallbackReason] (vRiskResult v ≫= reasonsOf) in
  let reasons :=
    if truthyBool (vComplianceResult v ≫= requiresOTPOf)
    then reasons ++ ["OTP verification required"] else reasons in
  let reasons :=
    match vKbResults v ≫= docsOf with
    | Some (d :: ds) =>
        reasons ++ ["KB refs: " +:+ String.concat ", " (map title (d :: ds))]
    | _ => reasons
    end in
  let reasons :=
    match vInsightsResult v with
    | Some i =>
        reasons ++ ["Spend pattern: " +:+ default "undefined" (spendPatternOf i)]
    | None => reasons
    end in
  if truthyBool (vRedactorResult v ≫= piiFoundOf)
  then reasons ++ ["PII redacted from logs"] else reasons.

(** The steps as the caller receives them.  The annotations were pushed
    onto the [reasons] array of the risk result; when that object is also
    the detail of a recorded step, the step shows them too. *)
Definition finalSteps (v : Locals) : list AgentStep :=
  match vRiskStep v, vRiskResult v with
  | Some i, Some (FraudData r _ a scoring) =>
      alter (fun s => mkStep (step s) (stepOk s) (stepDuration s)
                             (DetailData (FraudData r (finalReasons v) a scoring))
                             (stepFallbackUsed s))
            i (vSteps v)
  | _, _ => vSteps v
  end.

(** Lines 257-321: assemble, persist and announce the decision. *)
Definition finalize (startTime : Z) (run : string) (callback : Callback)
           (planned : list string) (v : Locals) : M World TriageResult :=
  let risk := finalRisk v in
  let recommendedAction := finalAction v in
  let reasons := finalReasons v in
  now ← DateNow;
  let latencyMs := now - startTime in
  triageRunUpdate
    (mkRunUpdate run now risk reasons (vFallbackUsed v) latencyMs);;
  streamEvent callback
    (DecisionFinalized risk reasons recommendedAction latencyMs run);;
  mret (mkTriage risk reasons recommendedAction planned (finalSteps v)
                 (vFallbackUsed v) latencyMs).

Definition initialLocals (context : AgentContext) : Locals :=
  mkLocals context [] false None None None None None None None.

(** Run a frame-level computation from the given locals and hand back the
    locals it ends with. *)
Definition withLocals (v : Locals) (m : M Frame unit) : M World Locals :=
  fun w => match m (mkFrame w v) with
           | (Ok _, f) => (Ok (vars f), world f)
           | (Throw e, f) => (Throw e, world f)
           end.

Definition executeTriage (alertIdArg : string) (streamCallback : Callback)
  : M World TriageResult :=
  startTime ← DateNow;
  run ← newRunId;
  found ← alertFindUnique alertIdArg;
  match found with
  | None => throw (Error "Alert not found")
  | Some alertRow =>
      startedAt ← DateNow;
      triageRunCreate (mkRunRow run alertIdArg startedAt);;
      let context :=
        mkContext (alertCustomerId alertRow) alertIdArg run []
                  (alertCustomer alertRow) alertRow None None in
      let planned := defaultPlan in
      streamEvent streamCallback (PlanBuilt planned run);;
      v ← withLocals (initialLocals context)
            (forEachStep startTime run streamCallback planned);
      finalize startTime run streamCallback planned v
  end.

End Orchestrator.

(** ** The SSE route (routes/triage.ts, GET /:runId/stream) *)

Module TriageRoute.

Definition resWrite (e : Event) : M World unit :=
  modify (fun w => setWire (wire w ++ [e]) w).

Definition resEnd : M World unit := modify (setWireEnded true).

Definition stream (runIdParam : string) (alertIdQuery : option string)
  : M World unit :=
  resWrite (Connected runIdParam);;
  if negb (truthyStr alertIdQuery) then
    resWrite (ErrorEvent "Missing alertId");;
    resEnd
  else
    tryCatch
      (Orchestrator.executeTriage (default "" alertIdQuery) (Some resWrite);;
       resWrite Completed;;
       resEnd)
      (fun error =>
         resWrite (ErrorEvent (message error));;
         resEnd).

End TriageRoute.

(** ** RateLimiter (middleware/rateLimiter.ts) *)

Module RateLimiter.

Local Open Scope Q_scope.

Record Bucket := mkBucket {
  tokens : Q;
  lastRefill : Z
}.

Inductive RedisOp :=
| RedisGet (key : string)
| RedisSetEx (key : string).

Record Rejection := mkRejection {
  errorText : string;
  retryAfter : Z;
  messageText : string
}.

(** What the middleware does with the request. *)
Inductive HttpEffect :=
| Next                                        (* next() *)
| Respond (status : Z) (body : Rejection).    (* res.status(..).json(..) *)

(** The store, the clock and the response side of one server instance.
    Buckets are kept as records; [JSON.stringify]/[JSON.parse] are taken
    to be inverse to each other on them. *)
Record Env := mkEnv {
  now : Z;                                    (* Date.now() *)
  redis : gmap string (Bucket * Z);           (* value, instant of expiry *)
  redisFault : RedisOp -> option JsError;     (* calls that reject *)
  effects : list HttpEffect;
  rateLimitBlockTotal : list string           (* metric, by client *)
}.

Definition setNow (t : Z) (e : Env) : Env :=
  mkEnv t (redis e) (redisFault e) (effects e) (rateLimitBlockTotal e).

Definition setRedis (r : gmap string (Bucket * Z)) (e : Env) : Env :=
  mkEnv (now e) r (redisFault e) (effects e) (rateLimitBlockTotal e).

Definition setEffects (l : list HttpEffect) (e : Env) : Env :=
  mkEnv (now e) (redis e) (redisFault e) l (rateLimitBlockTotal e).

Definition setBlockTotal (l : list string) (e : Env) : Env :=
  mkEnv (now e) (redis e) (redisFault e) (effects e) l.

(** Time passing between two requests. *)
Definition wait (ms : Z) (e : Env) : Env := setNow (now e + ms)%Z e.

(** What the store holds under [key] right now: an expired key reads as
    [null]. *)
Definition readBucket (key : string) (e : Env) : option Bucket :=
  match redis e !! key with
  | Some (b, expiry) => if (now e <? expiry)%Z then Some b else None
  | None => None
  end.

(** [redisClient.get(key)] *)
Definition redisGet (key : string) : M Env (option Bucket) :=
  fun e =>
    match redisFault e (RedisGet key) with
    | Some err => (Throw err, e)
    | None => (Ok (readBucket key e), e)
    end.

(** [redisClient.setEx(key, seconds, value)] *)
Definition redisSetEx (key : string) (seconds : Z) (b : Bucket)
  : M Env unit :=
  fun e =>
    match redisFault e (RedisSetEx key) with
    | Some err => (Throw err, e)
    | None =>
        (Ok tt, setRedis (<[key := (b, (now e + seconds * 1000)%Z)]> (redis e)) e)
    end.

Definition next : M Env unit :=
  modify (fun e => setEffects (effects e ++ [Next]) e).

Definition respond (status : Z) (body : Rejection) : M Env unit :=
  modify (fun e => setEffects (effects e ++ [Respond status body]) e).

Definition blockInc (client : string) : M Env unit :=
  modify (fun e => setBlockTotal (rateLimitBlockTotal e ++ [client]) e).

Inductive HeaderValue :=
| Single (s : string)
| Multiple (l : list string).

Record Request := mkRequest {
  xApiKey : option HeaderValue;          (* req.headers['x-api-key'] *)
  ip : option string;                    (* req.ip *)
  remoteAddress : option string          (* req.connection.remoteAddress *)
}.

Record Limiter := mkLimiter {
  maxTokens : Z;
  refillRate : Z;           (* tokens per second *)
  refillInterval : Z        (* milliseconds *)
}.

(** The constructor with the environment defaults ('5' and '5'). *)
Definition defaultLimiter : Limiter := mkLimiter 5 5 1000.

Definition getClientId (req : Request) : string :=
  match xApiKey req with
  | Some (Single apiKey) =>
      if negb (String.eqb apiKey "") then "key:" +:+ apiKey
      else "ip:" +:+ orElse (ip req) (orElse (remoteAddress req) "unknown")
  | _ => "ip:" +:+ orElse (ip req) (orElse (remoteAddress req) "unknown")
  end.

(** Decimal rendering of the integer in the template string. *)
Definition showZ (z : Z) : string := pretty.pretty z.

(** Lines 35-52: the tokens available to this request and the new
    refill instant. *)
Definition refill (self : Limiter) (bucketData : option Bucket) (t : Z)
  : Q * Z :=
  match bucketData with
  | Some bucket =>
      let timeElapsed := (t - lastRefill bucket)%Z in
      let tokensToAdd :=
        (inject_Z timeElapsed / inject_Z (refillInterval self))
        * inject_Z (refillRate self) in
      (Qmin (inject_Z (maxTokens self)) (tokens bucket + tokensToAdd), t)
  | None => (inject_Z (maxTokens self), t)
  end.

(** Lines 76-77: the two roundings behind [retryAfter]. *)
Definition retryAfterFor (self : Limiter) (tokens0 : Q) : Z :=
  let retryAfterMs :=
    Qceiling ((1 - tokens0) / inject_Z (refillRate self)
              * inject_Z (refillInterval self)) in
  Qceiling (inject_Z retryAfterMs / 1000).

Definition tooManyRequests (retryAfterSeconds : Z) : Rejection :=
  mkRejection "Too many requests" retryAfterSeconds
    ("Rate limit exceeded. Retry after "
     +:+ showZ retryAfterSeconds +:+ " seconds.").

Definition bucketKey (req : Request) : string :=
  "rate_limit:" +:+ getClientId req.

Definition checkLimit (self : Limiter) (req : Request) : M Env unit :=
  tryCatch
    (let clientId := getClientId req in
     let key := bucketKey req in
     bucketData ← redisGet key;
     t ← gets now;
     let '(tokens0, lastRefill0) := refill self bucketData t in
     if Qle_bool 1 tokens0 then
       redisSetEx key 60 (mkBucket (tokens0 - 1) lastRefill0);;
       next
     else
       blockInc clientId;;
       respond 429 (tooManyRequests (retryAfterFor self tokens0)))
    (fun error => next).

(** The exported middleware: the module-level instance. *)
Definition rateLimiter (req : Request) : M Env unit :=
  checkLimit defaultLimiter req.

(** [n] requests of the same client, one right after the other. *)
Fixpoint burst (n : nat) (req : Request) : M Env unit :=
  match n with
  | O => mret tt
  | S n' => rateLimiter req;; burst n' req
  end.

End RateLimiter.

(** ** FraudAgent (agents/subagents/FraudAgent.ts) *)

Module FraudAgent.

(** A transaction as the signal calculations read it: [deviceId] and
    [mcc] are strings, or missing. *)
Record Txn := mkTxn {
  deviceId : option string;
  mcc : option string
}.

(** The value of a property when it is truthy. *)
Definition present (o : option string) : option string :=
  match o with
  | Some s => if String.eqb s "" then None else Some s
  | None => None
  end.

(** Lines 86-94. *)
Definition detectDeviceChange (transactions : list Txn) : bool :=
  match transactions with
  | [] => false
  | _ =>
      let devices : gset string :=
        list_to_set (omap (fun txn => present (deviceId txn)) transactions) in
      (1 <? size devices)%nat
  end.

(** The [Map] filled by the loop of lines 106-110. *)
Definition countMccs (transactions : list Txn) : gmap string nat :=
  foldl (fun mccCounts txn =>
           let key := orElse (mcc txn) "unknown" in
           <[key := S (default 0%nat (mccCounts !! key))]> mccCounts)
        ∅ transactions.

(** Lines 99-119. *)
Definition calculateMccRarity (transactions : list Txn) : Q :=
  match transactions with
  | [] => 1
  | first :: _ =>
      let mccCounts := countMccs transactions in
      let totalCount := length transactions in
      match present (mcc first) with
      | None => 1
      | Some recentMcc =>
          let mccCount := default 0%nat (mccCounts !! recentMcc) in
          (inject_Z (Z.of_nat mccCount) / inject_Z (Z.of_nat totalCount))%Q
      end
  end.

(** [Math.round]: to the nearest integer, halves upwards. *)
Definition round (x : Q) : Z := Qfloor (x + (1 # 2)).

(** Lines 141-161. *)
Definition calculateOverallScore (signals : FraudSignals) : Z :=
  let score : Q := 0%Q in
  let score := (score + Qmin (inject_Z (velocityScore signals) * 4) 40)%Q in
  let score := if deviceChange signals then (score + 20)%Q else score in
  let score := (score + (1 - mccRarity signals) * 20)%Q in
  let score := if 0 <? priorChargebacks signals then (score + 20)%Q else score in
  Z.min (round score) 100.

(** Lines 25-68 of [run]: from the signals to the assessment. *)
Definition assess (signals : FraudSignals) : ToolData :=
  let velocity := velocityScore signals in
  let chargebacks := priorChargebacks signals in
  let rare := negb (Qle_bool (1 # 10) (mccRarity signals)) in
  let '(risk, reasons, action) :=
    if (10 <? velocity) || (0 <? chargebacks) then
      (HIGH,
       (if 10 <? velocity
        then ["High velocity: " +:+ pretty velocity +:+ " transactions in 24h"]
        else [])
       ++ (if 0 <? chargebacks
           then ["Prior chargebacks: " +:+ pretty chargebacks]
           else []),
       "freeze_card")
    else if (5 <? velocity) || deviceChange signals || rare then
      (MEDIUM,
       (if 5 <? velocity
        then ["Elevated velocity: " +:+ pretty velocity +:+ " transactions in 24h"]
        else [])
       ++ (if deviceChange signals then ["Multiple devices detected"] else [])
       ++ (if rare then ["Unusual merchant category"] else []),
       "freeze_card")
    else
      (LOW, ["No significant fraud signals detected"], "mark_false_positive") in
  FraudData risk reasons action
            (Some (signals, calculateOverallScore signals)).

End FraudAgent.

(** ** Vocabulary for the statements *)

(** The result and the world a computation ends with. *)
Definition outcome {S A} (m : M S A) (s : S) : Outcome A := fst (m s).
Definition after {S A} (m : M S A) (s : S) : S := snd (m s).

(** The breaker entry of a tool, as [getState] would report it. *)
Definition stateOf (toolName : string) (w : World) : CircuitBreakerState :=
  default CircuitBreaker.initialState (states w !! toolName).

(** No failure is counted against the tool: it was never used, or its last
    call succeeded. *)
Definition noFailures (toolName : string) (w : World) : bool :=
  (failures (stateOf toolName w) =? 0) && negb (isOpen (stateOf toolName w)).

(** Successive calls through the breaker, each followed by a pause: the
    outcomes in order, and the world at the end of the last pause. *)
Fixpoint callSeries {T} (toolName : string) (fn : M World T)
         (pauses : list Z) (w : World) : list (Outcome T) * World :=
  match pauses with
  | [] => ([], w)
  | d :: rest =>
      let (o, w') := CircuitBreaker.execute toolName fn w in
      let (os, w'') := callSeries toolName fn rest (after (elapse d) w') in
      (o :: os, w'')
  end.

(** The world once [getState] has made sure the tool has an entry. *)
Definition registered (toolName : string) (w : World) : World :=
  after (CircuitBreaker.getState toolName) w.

(** The entry [onFailure] writes over [st] at instant [now]. *)
Definition failedAt (now : Z) (st : CircuitBreakerState) : CircuitBreakerState :=
  mkState (failures st + 1) now
          (if CircuitBreaker.failureThreshold <=? failures st + 1
           then true else isOpen st).

(** What the [k]-th invocation of the tool's [run] does in world [w]. *)
Definition runScript (tool : Tool) (context : AgentContext) (w : World)
           (k : nat) : Attempt ToolData :=
  match body tool with
  | Pure f => Settles (Ok (f context)) 0
  | External => toolRun (oracle w) (className tool) k context
  end.

(** An attempt that [executeWithTimeout] turns into a rejection: the tool
    throws, or has not settled when the timer fires. *)
Definition attemptFails (a : Attempt ToolData) : bool :=
  match a with
  | Settles (Ok _) d => negb (d <=? BaseTool.timeout)
  | Settles (Throw _) _ => true
  | Pending => true
  end.

(** The error [executeWithTimeout] throws for a failing attempt: the
    tool's own when it rejects before the timer fires, the timer's
    otherwise. *)
Definition attemptError (a : Attempt ToolData) : JsError :=
  match a with
  | Settles (Throw e) d =>
      if d <=? BaseTool.timeout then e else BaseTool.timeoutError
  | _ => BaseTool.timeoutError
  end.

(** The time [executeWithTimeout] spends on an attempt. *)
Definition attemptCost (a : Attempt ToolData) : Z :=
  match a with
  | Settles _ d => if d <=? BaseTool.timeout then d else BaseTool.timeout
  | Pending => BaseTool.timeout
  end.

(** What [n] failing attempts of the tool [name] may change between two
    worlds: the clock and the call counter, nothing the breaker or the
    oracle depend on. *)
Definition attemptsFrame (name : string) (n : nat) (w w' : World) : Prop :=
  states w' = states w
  /\ oracle w' = oracle w
  /\ callCount name w' = (n + callCount name w)%nat.

(** The bucket under [key] holds [n] whole tokens, was refilled at instant
    [t] and lives until 60 s after that; the store answers for this key. *)
Definition holds (key : string) (n t : Z) (e : RateLimiter.Env) : Prop :=
  RateLimiter.redisFault e (RateLimiter.RedisGet key) = None
  /\ RateLimiter.redisFault e (RateLimiter.RedisSetEx key) = None
  /\ exists b, RateLimiter.redis e !! key = Some (b, t + 60 * 1000)
               /\ RateLimiter.lastRefill b = t
               /\ Qeq (RateLimiter.tokens b) (inject_Z n).

(** The tool layer (breaker, retries, timeouts) works on the clock, the
    breaker entries, the call counters and the metrics; everything else is
    out of its reach. *)
Definition toolFrame (w w' : World) : Prop :=
  alerts w' = alerts w
  /\ triageRuns w' = triageRuns w
  /\ agentTraces w' = agentTraces w
  /\ runUpdates w' = runUpdates w
  /\ idsDrawn w' = idsDrawn w
  /\ wire w' = wire w
  /\ wireEnded w' = wireEnded w
  /\ oracle w' = oracle w.

(** [m] relates every start state to the state it ends in by [R]. *)
Definition preserves {S A} (R : S -> S -> Prop) (m : M S A) : Prop :=
  forall s, R s (after m s).

(** Below the metrics calls, nothing touches the metrics either. *)
Definition quiet (w w' : World) : Prop :=
  toolFrame w w' /\ metricLog w' = metricLog w.

(** The two ways [executeTriage] is called in the repository: without a
    callback (POST /api/triage) and with the SSE writer (GET .../stream). *)
Definition callbackOf (streaming : bool) : Orchestrator.Callback :=
  if streaming then Some TriageRoute.resWrite else None.

(** The world after that callback has been handed [ev]. *)
Definition emit (streaming : bool) (ev : Event) (w : World) : World :=
  if streaming then setWire (wire w ++ [ev]) w else w.

(** The frame one loop iteration leaves behind once the tool has returned
    [result] in frame [f2]: the closed form of lines 157-254. *)
Definition settled (streaming : bool) (run stepName : string)
           (stepStartTime : Z) (result : ToolResult) (f2 : Orchestrator.Frame)
  : Orchestrator.Frame :=
  let w2 := Orchestrator.world f2 in
  let duration := clock w2 - stepStartTime in
  let v1 := Orchestrator.vars
              (after (Orchestrator.storeResult stepName result) f2) in
  let agentStep :=
    mkStep stepName (ok result) duration (Orchestrator.detailOf result)
           (negb (ok result)) in
  let v2 := Orchestrator.pushStep agentStep v1 in
  let n := length (Orchestrator.vSteps v2) in
  let row := mkTraceRow run n stepName (ok result) duration
                        (Orchestrator.detailOf result) in
  let op := AgentTraceCreate run n stepName in
  let w3 := setClock (clock w2 + dbLatency (oracle w2) op) w2 in
  match dbFault (oracle w2) op with
  | Some e =>
      Orchestrator.mkFrame w3
        (Orchestrator.pushStep
           (mkStep stepName false (clock w3 - stepStartTime)
                   (DetailError (Some (message e))) true)
           (Orchestrator.setFallbackUsed true v2))
  | None =>
      let w4 := setAgentTraces (agentTraces w3 ++ [row]) w3 in
      if ok result then
        Orchestrator.mkFrame
          (emit streaming
             (ToolUpdate stepName CompletedStatus (Some duration) run) w4)
          v2
      else
        Orchestrator.mkFrame
          (emit streaming (FallbackTriggered stepName (error result) run)
             (setMetricLog (metricLog w4 ++ [AgentFallbackTotal stepName]) w4))
          ((if String.eqb stepName "riskSignals"
            then Orchestrator.setRiskResult (Some Orchestrator.getFallbackRisk) None
            else id)
             (Orchestrator.setFallbackUsed true v2))
  end.

(** What the orchestrator's own persistence calls leave alone. *)
Definition bookkeepingFrame (w w' : World) : Prop :=
  metricLog w' = metricLog w
  /\ agentTraces w' = agentTraces w
  /\ wire w' = wire w
  /\ wireEnded w' = wireEnded w
  /\ oracle w' = oracle w.

(** The context [executeTriage] builds for an alert. *)
Definition contextFor (alertIdArg run : string) (alertRow : AlertRow)
  : AgentContext :=
  mkContext (alertCustomerId alertRow) alertIdArg run []
            (alertCustomer alertRow) alertRow None None.

(** The decision [finalize] returns for the locals [v] at instant [now]. *)
Definition decisionOf (startTime now : Z) (planned : list string)
           (v : Orchestrator.Locals) : TriageResult :=
  mkTriage (Orchestrator.finalRisk v) (Orchestrator.finalReasons v)
           (Orchestrator.finalAction v) planned (Orchestrator.finalSteps v)
           (Orchestrator.vFallbackUsed v) (now - startTime).

(** The metrics samples recorded between two worlds. *)
Definition metricsSince (w w' : World) : list Metric :=
  drop (length (metricLog w)) (metricLog w').

(** During the run from [w] to [w'] the risk-detection tool was executed
    and its [ToolResult] had [ok = false]: [BaseTool.execute] records the
    sample [tool_call_total{tool="FraudAgent", ok="false"}] exactly then,
    and FraudAgent is registered for the step "riskSignals" only. *)
Definition riskStepFailed (w w' : World) : Prop :=
  In (ToolCallTotal "FraudAgent" false) (metricsSince w w').

Definition isToolCall (m : Metric) : bool :=
  match m with ToolCallTotal _ _ => true | _ => false end.

(** The number of tool executions among the samples: one
    [tool_call_total] sample per call of [BaseTool.execute]. *)
Definition toolCalls (l : list Metric) : nat :=
  length (List.filter isToolCall l).

(** The events one executed step puts on the stream: "running", then
    "completed" or "fallback triggered", or nothing more when the [catch]
    block took over. *)
Definition stepGroup (run stepName : string) (g : list Event) : Prop :=
  g = [ToolUpdate stepName Running None run]
  \/ (exists d, g = [ToolUpdate stepName Running None run;
                     ToolUpdate stepName CompletedStatus (Some d) run])
  \/ (exists reason, g = [ToolUpdate stepName Running None run;
                          FallbackTriggered stepName reason run]).

(** [evs] are the events of the first steps of [planned], step by step and
    in the order of the plan. *)
Definition inPlanOrder (run : string) (planned : list string)
           (evs : list Event) : Prop :=
  exists groups : list (list Event),
    evs = concat groups
    /\ Forall2 (stepGroup run) (take (length groups) planned) groups.

(** ** Further vocabulary: series of calls and single attempts *)

(** The outcomes a script gives from its [k]-th invocation on. *)
Definition scriptFrom {T} (beh : nat -> Outcome T * Z) (k n : nat)
  : list (Outcome T) :=
  map (fun i => fst (beh (k + i)%nat)) (List.seq 0 n).

(** The number of failures since the last success, after [outs] and
    starting from [count]. *)
Fixpoint streak {T} (count : Z) (outs : list (Outcome T)) : Z :=
  match outs with
  | [] => count
  | Ok _ :: rest => streak 0 rest
  | Throw _ :: rest => streak (count + 1) rest
  end.

(** Nowhere in [outs] do the failures in a row reach the threshold. *)
Fixpoint belowThreshold {T} (count : Z) (outs : list (Outcome T)) : bool :=
  match outs with
  | [] => true
  | Ok _ :: rest => belowThreshold 0 rest
  | Throw _ :: rest =>
      (count + 1 <? CircuitBreaker.failureThreshold)
      && belowThreshold (count + 1) rest
  end.

(** An entry as the breaker itself writes them: the count lies between 0
    and the threshold, and the circuit is open exactly at the threshold. *)
Definition consistent (st : CircuitBreakerState) : bool :=
  (0 <=? failures st)
  && (failures st <=? CircuitBreaker.failureThreshold)
  && Bool.eqb (isOpen st) (CircuitBreaker.failureThreshold <=? failures st).

(** The calls of [BaseTool.execute] a world has seen: the tools of the
    [tool_call_total] samples, in order. *)
Definition toolsCalled (l : list Metric) : list string :=
  omap (fun m => match m with ToolCallTotal t _ => Some t | _ => None end) l.

(** The time the loop may take from attempt [attempt] on, with
    [remaining] attempts to go: a full timeout per attempt and the pause
    with its jitter after each attempt that is followed by another. *)
Fixpoint retryBudget (attempt remaining : nat) : Z :=
  match remaining with
  | O => 0
  | S r =>
      BaseTool.timeout
      + (if (attempt <? maxRetries)%nat
         then default 0 (retryDelays !! attempt) + 50 else 0)
      + retryBudget (S attempt) r
  end.

(** ** Further vocabulary: the fraud agent and the proposal *)

(** The context a tool sees once the orchestrator has stored the risk
    result [d] in it. *)
Definition withRisk (d : ToolData) (context : AgentContext) : AgentContext :=
  mkContext (customerId context) (alertId context) (runId context)
            (transactions context) (customer context) (alert context)
            (Some d) (complianceResult context).

(** Two transactions with different device ids. *)
Definition twoDevices (transactions : list FraudAgent.Txn) : Prop :=
  exists t1 t2 d1 d2,
    t1 ∈ transactions /\ t2 ∈ transactions
    /\ FraudAgent.present (FraudAgent.deviceId t1) = Some d1
    /\ FraudAgent.present (FraudAgent.deviceId t2) = Some d2
    /\ d1 <> d2.

(** ** Further vocabulary: traffic through the rate limiter *)

(** The requests of one client, each made [d] ms after the one before. *)
Fixpoint traffic (req : RateLimiter.Request) (gaps : list Z)
  : M RateLimiter.Env unit :=
  match gaps with
  | [] => mret tt
  | d :: rest =>
      modify (RateLimiter.wait d);;
      RateLimiter.rateLimiter req;;
      traffic req rest
  end.

(** The number of requests passed on with [next()]. *)
Definition passed (l : list RateLimiter.HttpEffect) : Z :=
  Z.of_nat
    (length (List.filter
               (fun h => match h with RateLimiter.Next => true | _ => false end)
               l)).

(** What the middleware has done since [e]. *)
Definition effectsSince (e e' : RateLimiter.Env) : list RateLimiter.HttpEffect :=
  drop (length (RateLimiter.effects e)) (RateLimiter.effects e').

(** The store answers the calls for [key]. *)
Definition storeUp (key : string) (e : RateLimiter.Env) : Prop :=
  RateLimiter.redisFault e (RateLimiter.RedisGet key) = None
  /\ RateLimiter.redisFault e (RateLimiter.RedisSetEx key) = None.

Definition total (l : list Z) : Z := foldr Z.add 0 l.

(** ** Further vocabulary: runs of the orchestrator *)

(** Some recorded step failed. *)
Definition anyFailed (l : list AgentStep) : bool :=
  existsb (fun s => negb (stepOk s)) l.

(** The classes registered for the steps of a plan. *)
Definition classesOf (planned : list string) : list string :=
  omap (fun s => className <$> Orchestrator.tools !! s) planned.

(** ** Concrete scenarios *)

(** Nothing outside the process misbehaves: persistence never rejects and
    takes no time, database-backed tools never settle, no jitter. *)
Definition quietOracle : Oracle :=
  mkOracle (fun _ _ _ => Pending) (fun _ _ => 0)
           (fun n => "run-" +:+ pretty n) (fun _ => None) (fun _ => 0).

Definition emptyWorld : World :=
  mkWorld 0 ∅ ∅ [] ∅ [] [] [] 0 [] false quietOracle.

(** A function that rejects with "boom" after 10 ms, every time. *)
Definition alwaysBoom : nat -> Outcome Z * Z :=
  fun _ => (Throw (Error "boom"), 10).

(** The circuit of FraudAgent tripped at instant 1000; it is now 31000. *)
Definition trippedWorld : World :=
  setClock 31000
    (setStates {[ "FraudAgent" := mkState 3 1000 true ]} emptyWorld).

Definition fraudAgent : Tool := mkTool "FraudAgent" External.

Definition sampleAlert : AlertRow :=
  mkAlert "cust_1001" (JObj [("id", JStr "cust_1001")]) JNull "open".

Definition sampleContext : AgentContext :=
  mkContext "cust_1001" "A1" "run-0" [] (alertCustomer sampleAlert)
            sampleAlert None None.

(** A server instance at instant 1000 with an empty, healthy store. *)
Definition freshEnv : RateLimiter.Env :=
  RateLimiter.mkEnv 1000 ∅ (fun _ => None) [] [].

(** The same instance while every store call is refused. *)
Definition outageEnv : RateLimiter.Env :=
  RateLimiter.mkEnv 1000 ∅ (fun _ => Some (Error "ECONNREFUSED")) [] [].

Definition sampleRequest : RateLimiter.Request :=
  RateLimiter.mkRequest (Some (RateLimiter.Single "k-42")) (Some "10.0.0.7") None.

(** *** A triage run for alert A1 *)

Definition sampleCustomer : Json :=
  JObj [("id", JStr "cust_1001"); ("kycLevel", JStr "full")].

Definition sampleDoc : KbDoc :=
  mkKbDoc "kb-7" "Card freeze policy" "#kb-7" "Freeze the card when fraud is suspected.".

(** The database-backed tools answer quickly; the fraud tool either scores
    the alert as high risk or loses its connection. *)
Definition answers (riskUp : bool)
  : string -> nat -> AgentContext -> Attempt ToolData :=
  fun cls _ _ =>
    if String.eqb cls "DataAccessAgent" then
      Settles (Ok (DataAccessData sampleCustomer [])) 20
    else if String.eqb cls "FraudAgent" then
      if riskUp then
        Settles (Ok (FraudData HIGH ["Prior chargebacks: 2"] "freeze_card"
                               (Some (mkSignals 0 false 1 2, 20)))) 30
      else Settles (Throw (Error "connect ECONNREFUSED")) 5
    else if String.eqb cls "KnowledgeBaseAgent" then
      Settles (Ok (KbData [sampleDoc])) 10
    else Pending.

Definition scenarioOracle (riskUp : bool) (faults : DbOp -> option JsError)
  : Oracle :=
  mkOracle (answers riskUp) (fun _ _ => 0) (fun n => "run-" +:+ pretty n)
           faults (fun _ => 1).

Definition triageWorld (o : Oracle) : World :=
  mkWorld 0 ∅ ∅ [] {[ "A1" := sampleAlert ]} [] [] [] 0 [] false o.

Definition happyWorld : World :=
  triageWorld (scenarioOracle true (fun _ => None)).

Definition riskDownWorld : World :=
  triageWorld (scenarioOracle false (fun _ => None)).

(** The trace store rejects the first trace write of the run. *)
Definition traceDownWorld : World :=
  triageWorld
    (scenarioOracle true
       (fun op => match op with
                  | AgentTraceCreate _ 1 _ => Some (Error "db unavailable")
                  | _ => None
                  end)).

(** Every database-backed tool hangs until its timeout. *)
Definition stalledWorld : World := triageWorld quietOracle.




(** The fraud tool answers exactly when the timer of its first attempt
    fires. *)
Definition photoFinishOracle : Oracle :=
  mkOracle
    (fun _ _ _ => Settles (Ok (FraudData LOW ["No significant fraud signals detected"]
                                         "mark_false_positive" None)) 1000)
    (fun _ _ => 0) (fun n => "run-" +:+ pretty n) (fun _ => None) (fun _ => 0).

Definition photoFinishWorld : World := triageWorld photoFinishOracle.

(** *** Further scenarios *)

(** A function that fails twice, succeeds on its third invocation and
    fails again afterwards. *)
Definition flaky : nat -> Outcome Z * Z :=
  fun k => if (k =? 2)%nat then (Ok 7, 10) else (Throw (Error "boom"), 10).

(** The fraud tool loses its connection once and answers on the second
    attempt. *)
Definition recoveringOracle : Oracle :=
  mkOracle
    (fun cls k _ =>
       if String.eqb cls "FraudAgent" then
         match k with
         | O => Settles (Throw (Error "connect ECONNREFUSED")) 5
         | _ => Settles (Ok (FraudData HIGH ["Prior chargebacks: 2"]
                                       "freeze_card" None)) 30
         end
       else Pending)
    (fun _ _ => 25) (fun n => "run-" +:+ pretty n) (fun _ => None) (fun _ => 1).

Definition recoveringWorld : World := triageWorld recoveringOracle.

(** Signals with nothing unusual but one prior chargeback. *)
Definition chargebackSignals : FraudSignals := mkSignals 0 false 1 1.

(** Three purchases on two devices, the latest at a merchant category
    seen once. *)
Definition sampleTransactions : list FraudAgent.Txn :=
  [ FraudAgent.mkTxn (Some "device_ios_001") (Some "5732");
    FraudAgent.mkTxn (Some "device_web_001") (Some "5411");
    FraudAgent.mkTxn None (Some "5411") ].

(** The same client from another address, and another client. *)
Definition roamingRequest : RateLimiter.Request :=
  RateLimiter.mkRequest (Some (RateLimiter.Single "k-42")) (Some "192.168.1.9") None.

Definition otherRequest : RateLimiter.Request :=
  RateLimiter.mkRequest (Some (RateLimiter.Single "k-77")) (Some "10.0.0.7") None.


(** * Monad laws used throughout *)

Lemma bind_ok {S A B} (m : M S A) (k : A -> M S B) (s s' : S) (a : A) :
  m s = (Ok a, s') -> (m ≫= k) s = k a s'.
Proof. intros E. unfold mbind, M_bind, bind. now rewrite E. Qed.

Lemma bind_throw {S A B} (m : M S A) (k : A -> M S B) (s s' : S) (e : JsError) :
  m s = (Throw e, s') -> (m ≫= k) s = (Throw e, s').
Proof. intros E. unfold mbind, M_bind, bind. now rewrite E. Qed.

Lemma tryCatch_ok {S A} (m : M S A) (h : JsError -> M S A) (s s' : S) (a : A) :
  m s = (Ok a, s') -> tryCatch m h s = (Ok a, s').
Proof. intros E. unfold tryCatch. now rewrite E. Qed.

Lemma tryCatch_throw {S A} (m : M S A) (h : JsError -> M S A) (s s' : S) (e : JsError) :
  m s = (Throw e, s') -> tryCatch m h s = h e s'.
Proof. intros E. unfold tryCatch. now rewrite E. Qed.

(** * Circuit breaker *)

Section CircuitBreakerFacts.
Import CircuitBreaker.
Context {T : Type}.
Implicit Types (fn : M World T) (w : World) (toolName : string).

Lemma getState_eq toolName w :
  getState toolName w = (Ok (stateOf toolName w), registered toolName w).
Proof.
  unfold registered, after, getState, stateOf.
  destruct (states w !! toolName); reflexivity.
Qed.

Lemma stateOf_registered toolName w :
  stateOf toolName (registered toolName w) = stateOf toolName w.
Proof.
  unfold registered, after, getState, stateOf.
  destruct (states w !! toolName) as [st|] eqn:E; simpl.
  - now rewrite E.
  - now rewrite lookup_insert_eq.
Qed.

Lemma registered_present toolName w :
  is_Some (states w !! toolName) -> registered toolName w = w.
Proof.
  intros [st E]. unfold registered, after, getState. now rewrite E.
Qed.

Lemma open_present toolName w :
  isOpen (stateOf toolName w) = true -> is_Some (states w !! toolName).
Proof.
  unfold stateOf. destruct (states w !! toolName); [eauto | discriminate].
Qed.

Lemma putState_after_getState toolName st w :
  setStates (<[toolName := st]> (states (registered toolName w)))
            (registered toolName w)
  = setStates (<[toolName := st]> (states w)) w.
Proof.
  unfold registered, after, getState.
  destruct (states w !! toolName); simpl; [reflexivity|].
  unfold setStates; simpl. now rewrite insert_insert_eq.
Qed.

Lemma onFailure_eq toolName w :
  onFailure toolName w
  = (Ok tt, setStates (<[toolName := failedAt (clock w) (stateOf toolName w)]>
                         (states w)) w).
Proof.
  unfold onFailure, mbind, M_bind, bind. rewrite getState_eq.
  unfold DateNow, gets, putState, modify.
  replace (clock (registered toolName w)) with (clock w).
  - now rewrite putState_after_getState.
  - unfold registered, after, getState.
    destruct (states w !! toolName); reflexivity.
Qed.

Lemma onSuccess_eq toolName w :
  onSuccess toolName w
  = (Ok tt, setStates (<[toolName := mkState 0 (lastFailureTime (stateOf toolName w)) false]>
                         (states w)) w).
Proof.
  unfold onSuccess, mbind, M_bind, bind. rewrite getState_eq.
  unfold putState, modify. now rewrite putState_after_getState.
Qed.

(** While the circuit is open and the cooldown has not elapsed, the call
    is refused and nothing at all happens to the world. *)
Lemma execute_open_refused toolName fn w :
  isOpen (stateOf toolName w) = true ->
  clock w - lastFailureTime (stateOf toolName w) < openDuration ->
  execute toolName fn w = (Throw (openError toolName), w).
Proof.
  intros Hopen Hcool.
  unfold execute, mbind, M_bind, bind. rewrite getState_eq, Hopen.
  rewrite (registered_present _ _ (open_present _ _ Hopen)).
  unfold DateNow, gets. simpl.
  destruct (Z.ltb_spec (clock w - lastFailureTime (stateOf toolName w)) openDuration);
    [reflexivity | lia].
Qed.

(** A closed circuit lets the call through; a failure is counted and the
    function's own error is rethrown. *)
Lemma execute_closed_failure toolName fn w e w1 :
  isOpen (stateOf toolName w) = false ->
  fn (registered toolName w) = (Throw e, w1) ->
  execute toolName fn w
  = (Throw e, setStates (<[toolName := failedAt (clock w1) (stateOf toolName w1)]>
                           (states w1)) w1).
Proof.
  intros Hclosed Hfn.
  unfold execute, mbind, M_bind, bind. rewrite getState_eq, Hclosed.
  unfold mret, M_ret, ret, tryCatch, bind. rewrite Hfn.
  now rewrite onFailure_eq.
Qed.

Lemma execute_closed_success toolName fn w v w1 :
  isOpen (stateOf toolName w) = false ->
  fn (registered toolName w) = (Ok v, w1) ->
  execute toolName fn w
  = (Ok v, setStates (<[toolName := mkState 0 (lastFailureTime (stateOf toolName w1)) false]>
                        (states w1)) w1).
Proof.
  intros Hclosed Hfn.
  unfold execute, mbind, M_bind, bind. rewrite getState_eq, Hclosed.
  unfold mret, M_ret, ret, tryCatch, bind. rewrite Hfn.
  now rewrite onSuccess_eq.
Qed.

(** After the cooldown the entry is replaced by a fresh one and the call
    goes on exactly as on a circuit that was never tripped. *)
Lemma execute_open_cooled toolName fn w :
  isOpen (stateOf toolName w) = true ->
  openDuration <= clock w - lastFailureTime (stateOf toolName w) ->
  execute toolName fn w
  = execute toolName fn (after (resetCircuit toolName) w).
Proof.
  intros Hopen Hcool.
  unfold execute at 1. unfold mbind, M_bind, bind. rewrite getState_eq, Hopen.
  rewrite (registered_present _ _ (open_present _ _ Hopen)).
  unfold DateNow, gets. simpl.
  destruct (Z.ltb_spec (clock w - lastFailureTime (stateOf toolName w)) openDuration);
    [lia|].
  unfold execute, mbind, M_bind, bind, after, resetCircuit, putState, modify.
  simpl. rewrite getState_eq.
  assert (Hst : stateOf toolName (setStates (<[toolName := initialState]> (states w)) w) = initialState).
  { unfold stateOf. simpl. now rewrite lookup_insert_eq. }
  rewrite Hst. simpl.
  rewrite registered_present; [reflexivity|].
  simpl. rewrite lookup_insert_eq. eauto.
Qed.
End CircuitBreakerFacts.


Section ScriptedCalls.
Import CircuitBreaker.
Context {T : Type}.
Implicit Types (beh : nat -> Outcome T * Z) (w : World) (toolName : string).

Lemma scripted_eq toolName beh w :
  scripted toolName beh w
  = (fst (beh (callCount toolName w)),
     setClock (clock w + snd (beh (callCount toolName w)))
              (setCalls (<[toolName := S (callCount toolName w)]> (calls w)) w)).
Proof.
  unfold scripted, mbind, M_bind, bind, countCall, elapse, modify. simpl.
  destruct (fst (beh (callCount toolName w))); reflexivity.
Qed.

Lemma registered_calls toolName w : calls (registered toolName w) = calls w.
Proof.
  unfold registered, after, getState. now destruct (states w !! toolName).
Qed.

Lemma registered_clock toolName w : clock (registered toolName w) = clock w.
Proof.
  unfold registered, after, getState. now destruct (states w !! toolName).
Qed.

(** One rejected call on a closed circuit: the rejection comes back
    unchanged, one failure more is on record, stamped with the instant
    the function settled. *)
Lemma closed_scripted_failure toolName beh w :
  isOpen (stateOf toolName w) = false ->
  isOk (fst (beh (callCount toolName w))) = false ->
  let w' := after (execute toolName (scripted toolName beh)) w in
  outcome (execute toolName (scripted toolName beh)) w
    = fst (beh (callCount toolName w))
  /\ stateOf toolName w'
     = failedAt (clock w + snd (beh (callCount toolName w))) (stateOf toolName w)
  /\ callCount toolName w' = S (callCount toolName w)
  /\ clock w' = clock w + snd (beh (callCount toolName w)).
Proof.
  intros Hclosed Hfail.
  destruct (fst (beh (callCount toolName w))) as [v|e] eqn:Hb; [discriminate|].
  pose proof (scripted_eq toolName beh (registered toolName w)) as Hs.
  unfold callCount in Hs at 1 2 3. rewrite registered_calls in Hs.
  fold (callCount toolName w) in Hs. rewrite Hb, registered_clock in Hs.
  cbv zeta. unfold outcome, after.
  rewrite (execute_closed_failure _ _ _ _ _ Hclosed Hs). simpl.
  unfold stateOf, callCount. simpl.
  rewrite !lookup_insert_eq. simpl.
  fold (stateOf toolName (registered toolName w)).
  rewrite stateOf_registered. auto.
Qed.

Lemma elapse_frame toolName d w :
  stateOf toolName (after (elapse d) w) = stateOf toolName w
  /\ callCount toolName (after (elapse d) w) = callCount toolName w
  /\ clock (after (elapse d) w) = clock w + d.
Proof. repeat split. Qed.

Lemma callSeries_cons (fn : M World T) toolName d rest w :
  callSeries toolName fn (d :: rest) w
  = (outcome (execute toolName fn) w
       :: fst (callSeries toolName fn rest
                 (after (elapse d) (after (execute toolName fn) w))),
     snd (callSeries toolName fn rest
            (after (elapse d) (after (execute toolName fn) w)))).
Proof.
  simpl. unfold outcome, after.
  destruct (execute toolName fn w) as [o w']. simpl.
  now destruct (callSeries toolName fn rest _).
Qed.
End ScriptedCalls.

(** C1. A tool whose function fails on three consecutive calls has its
    circuit opened by the third failure; each of the three calls rethrows
    the function's own error unchanged.  A fourth call made while
    [now - lastFailureTime < 30 s] throws the breaker's own error, whose
    message is "Circuit breaker open for <tool>", and leaves the world
    exactly as it was, whatever function is passed: the function is not
    invoked, and the call count stays at three more than at the start. *)
Theorem three_failures_open_the_circuit :
  forall (T : Type) (toolName : string) (beh : nat -> Outcome T * Z)
         (fn4 : M World T) (d1 d2 d3 : Z) (w0 : World),
    noFailures toolName w0 = true ->
    isOk (fst (beh (callCount toolName w0))) = false ->
    isOk (fst (beh (S (callCount toolName w0)))) = false ->
    isOk (fst (beh (S (S (callCount toolName w0))))) = false ->
    let fn := scripted toolName beh in
    let outs := fst (callSeries toolName fn [d1; d2; d3] w0) in
    let w3 := snd (callSeries toolName fn [d1; d2; d3] w0) in
    outs = [fst (beh (callCount toolName w0));
            fst (beh (S (callCount toolName w0)));
            fst (beh (S (S (callCount toolName w0))))]
    /\ isOpen (stateOf toolName w3) = true
    /\ callCount toolName w3 = (3 + callCount toolName w0)%nat
    /\ (clock w3 - lastFailureTime (stateOf toolName w3) < CircuitBreaker.openDuration ->
        CircuitBreaker.execute toolName fn4 w3
          = (Throw (CircuitBreaker.openError toolName), w3)
        /\ callCount toolName (after (CircuitBreaker.execute toolName fn) w3)
           = (3 + callCount toolName w0)%nat).
Proof.
  intros T toolName beh fn4 d1 d2 d3 w0 Hfresh H1 H2 H3 fn outs w3.
  unfold noFailures in Hfresh. apply andb_prop in Hfresh as [Hf Hc].
  apply Z.eqb_eq in Hf. apply negb_true_iff in Hc.
  subst outs w3. rewrite !callSeries_cons. cbn [fst snd callSeries].
  set (a1 := after (CircuitBreaker.execute toolName fn) w0).
  destruct (closed_scripted_failure toolName beh w0 Hc H1) as (O1 & S1 & C1 & _).
  fold fn in O1, S1, C1. fold a1 in S1, C1.
  set (w1 := after (elapse d1) a1).
  destruct (elapse_frame toolName d1 a1) as (E1s & E1c & _). fold w1 in E1s, E1c.
  assert (Hc1 : isOpen (stateOf toolName w1) = false).
  { rewrite E1s, S1. unfold failedAt. rewrite Hf, Hc. reflexivity. }
  assert (K1 : callCount toolName w1 = S (callCount toolName w0)) by congruence.
  set (a2 := after (CircuitBreaker.execute toolName fn) w1).
  rewrite <- K1 in H2.
  destruct (closed_scripted_failure toolName beh w1 Hc1 H2) as (O2 & S2 & C2 & _).
  fold fn in O2, S2, C2. fold a2 in S2, C2.
  set (w2 := after (elapse d2) a2).
  destruct (elapse_frame toolName d2 a2) as (E2s & E2c & _). fold w2 in E2s, E2c.
  assert (Hc2 : isOpen (stateOf toolName w2) = false).
  { rewrite E2s, S2, E1s, S1. unfold failedAt. simpl. rewrite Hf, Hc. reflexivity. }
  assert (K2 : callCount toolName w2 = S (S (callCount toolName w0))) by congruence.
  set (a3 := after (CircuitBreaker.execute toolName fn) w2).
  rewrite <- K2 in H3.
  destruct (closed_scripted_failure toolName beh w2 Hc2 H3) as (O3 & S3 & C3 & _).
  fold fn in O3, S3, C3. fold a3 in S3, C3.
  set (w3 := after (elapse d3) a3).
  destruct (elapse_frame toolName d3 a3) as (E3s & E3c & _). fold w3 in E3s, E3c.
  assert (Hopen : isOpen (stateOf toolName w3) = true).
  { rewrite E3s, S3, E2s, S2, E1s, S1. unfold failedAt. simpl. rewrite Hf. reflexivity. }
  assert (K3 : callCount toolName w3 = (3 + callCount toolName w0)%nat).
  { rewrite E3c, C3, K2. reflexivity. }
  split; [now rewrite O1, O2, O3, K1, K2|].
  split; [exact Hopen|]. split; [exact K3|].
  intros Hcool. split.
  - apply execute_open_refused; assumption.
  - unfold after. rewrite (execute_open_refused toolName fn w3 Hopen Hcool).
    exact K3.
Qed.

Lemma three_failures_open_the_circuit_witness :
  let w3 := snd (callSeries "FraudAgent" (scripted "FraudAgent" alwaysBoom)
                            [100; 100; 100] emptyWorld) in
  isOpen (stateOf "FraudAgent" w3) = true
  /\ CircuitBreaker.execute "FraudAgent" (mret 7) w3
     = (Throw (Error "Circuit breaker open for FraudAgent"), w3).
Proof.
  destruct (three_failures_open_the_circuit Z "FraudAgent" alwaysBoom (mret 7)
              100 100 100 emptyWorld) as (_ & Hopen & _ & Hrefused);
    try (vm_compute; reflexivity).
  split; [exact Hopen|].
  apply Hrefused. vm_compute. reflexivity.
Defined.

Section AfterCooldown.
Import CircuitBreaker.
Context {T : Type}.

(** Whatever it returns, a scripted function called on a closed circuit
    is invoked exactly once. *)
Lemma closed_scripted_counts toolName (beh : nat -> Outcome T * Z) w :
  isOpen (stateOf toolName w) = false ->
  callCount toolName (after (execute toolName (scripted toolName beh)) w)
  = S (callCount toolName w).
Proof.
  intros Hclosed.
  pose proof (scripted_eq toolName beh (registered toolName w)) as Hs.
  unfold callCount in Hs at 1 2 3. rewrite registered_calls in Hs.
  fold (callCount toolName w) in Hs.
  unfold after.
  destruct (fst (beh (callCount toolName w))) as [v|e] eqn:Hb.
  - rewrite (execute_closed_success _ _ _ _ _ Hclosed Hs). simpl.
    unfold callCount. simpl. now rewrite lookup_insert_eq.
  - rewrite (execute_closed_failure _ _ _ _ _ Hclosed Hs). simpl.
    unfold callCount. simpl. now rewrite lookup_insert_eq.
Qed.

Lemma reset_frame toolName w :
  stateOf toolName (after (resetCircuit toolName) w) = initialState
  /\ callCount toolName (after (resetCircuit toolName) w) = callCount toolName w
  /\ clock (after (resetCircuit toolName) w) = clock w.
Proof.
  repeat split. unfold stateOf, after, resetCircuit, putState, modify. simpl.
  now rewrite lookup_insert_eq.
Qed.
End AfterCooldown.

(** C5, as the code has it.  On the first call made once
    [now - lastFailureTime >= 30 s], an open circuit is first replaced by a
    fresh entry ([failures = 0], [isOpen = false]); the call then proceeds
    exactly as on that fresh entry and the wrapped function is invoked.  If
    the attempt fails, one failure is on record and the circuit is still
    closed. *)
Theorem first_call_after_cooldown :
  forall (T : Type) (toolName : string) (beh : nat -> Outcome T * Z) (w : World),
    isOpen (stateOf toolName w) = true ->
    CircuitBreaker.openDuration <= clock w - lastFailureTime (stateOf toolName w) ->
    let fn := scripted toolName beh in
    let fresh := after (CircuitBreaker.resetCircuit toolName) w in
    let w' := after (CircuitBreaker.execute toolName fn) w in
    stateOf toolName fresh = mkState 0 0 false
    /\ CircuitBreaker.execute toolName fn w = CircuitBreaker.execute toolName fn fresh
    /\ callCount toolName w' = S (callCount toolName w)
    /\ (isOk (fst (beh (callCount toolName w))) = false ->
        stateOf toolName w'
        = mkState 1 (clock w + snd (beh (callCount toolName w))) false).
Proof.
  intros T toolName beh w Hopen Hcool fn fresh w'.
  destruct (reset_frame toolName w) as (Rs & Rc & Rk).
  fold fresh in Rs, Rc, Rk.
  assert (Hclosed : isOpen (stateOf toolName fresh) = false) by now rewrite Rs.
  assert (Heq : CircuitBreaker.execute toolName fn w
                = CircuitBreaker.execute toolName fn fresh)
    by now apply execute_open_cooled.
  split; [exact Rs|]. split; [exact Heq|].
  assert (Hafter : w' = after (CircuitBreaker.execute toolName fn) fresh)
    by (subst w'; unfold after; now rewrite Heq).
  rewrite Hafter. split.
  - subst fn. rewrite closed_scripted_counts by assumption. now rewrite Rc.
  - intros Hfail. rewrite <- Rc in Hfail.
    destruct (closed_scripted_failure toolName beh fresh Hclosed Hfail)
      as (_ & S1 & _).
    fold fn in S1. rewrite S1, Rs, Rc, Rk. reflexivity.
Qed.

Lemma first_call_after_cooldown_witness :
  stateOf "FraudAgent"
    (after (CircuitBreaker.execute "FraudAgent" (scripted "FraudAgent" alwaysBoom))
           trippedWorld)
  = mkState 1 31010 false.
Proof.
  destruct (first_call_after_cooldown Z "FraudAgent" alwaysBoom trippedWorld)
    as (_ & _ & _ & H).
  - reflexivity.
  - vm_compute. discriminate.
  - apply H. reflexivity.
Defined.

(** C5 as stated fails: the circuit was open, the cooldown is over, the
    attempt is made and fails, and the circuit is not open afterwards. *)
Lemma failed_attempt_after_cooldown_does_not_reopen :
  let fn := scripted "FraudAgent" alwaysBoom in
  isOpen (stateOf "FraudAgent" trippedWorld) = true
  /\ CircuitBreaker.openDuration
     <= clock trippedWorld - lastFailureTime (stateOf "FraudAgent" trippedWorld)
  /\ outcome (CircuitBreaker.execute "FraudAgent" fn) trippedWorld
     = Throw (Error "boom")
  /\ isOpen (stateOf "FraudAgent"
               (after (CircuitBreaker.execute "FraudAgent" fn) trippedWorld))
     = false.
Proof.
  repeat split; try reflexivity; vm_compute; discriminate.
Qed.

(** * The resilient tool wrapper *)

Section RetryFacts.
Variables (tool : Tool) (context : AgentContext).
Let name := className tool.

Lemma run_eq w :
  BaseTool.run tool context w
  = (Ok (runScript tool context w (callCount name w)),
     setCalls (<[name := S (callCount name w)]> (calls w)) w).
Proof.
  unfold BaseTool.run, runScript, mbind, M_bind, bind, countCall.
  destruct (body tool); reflexivity.
Qed.

(** One attempt under the timer, in closed form. *)
Lemma executeWithTimeout_eq w :
  let a := runScript tool context w (callCount name w) in
  executeWithTimeout tool context w
  = ((match a with
      | Settles (Ok v) d =>
          if d <=? BaseTool.timeout then Ok v else Throw (attemptError a)
      | _ => Throw (attemptError a)
      end),
     setClock (clock w + attemptCost a)
              (setCalls (<[name := S (callCount name w)]> (calls w)) w)).
Proof.
  cbv zeta. unfold executeWithTimeout, mbind, M_bind, bind.
  rewrite run_eq. fold name.
  destruct (runScript tool context w (callCount name w)) as [[v|e] d|];
    cbn [attemptError attemptCost];
    try destruct (d <=? BaseTool.timeout); reflexivity.
Qed.

Lemma attempt_frame w t :
  attemptsFrame name 1 w
    (setClock t (setCalls (<[name := S (callCount name w)]> (calls w)) w)).
Proof.
  repeat split. unfold callCount. cbn. now rewrite lookup_insert_eq.
Qed.

Lemma executeWithTimeout_fails_with w :
  attemptFails (runScript tool context w (callCount name w)) = true ->
  exists w',
    executeWithTimeout tool context w
    = (Throw (attemptError (runScript tool context w (callCount name w))), w')
    /\ attemptsFrame name 1 w w'.
Proof.
  intros Hfail. rewrite executeWithTimeout_eq. fold name.
  destruct (runScript tool context w (callCount name w)) as [[v|e] d|];
    cbn [attemptFails] in Hfail.
  - apply negb_true_iff in Hfail. rewrite Hfail.
    eexists. split; [reflexivity | apply attempt_frame].
  - eexists. split; [reflexivity | apply attempt_frame].
  - eexists. split; [reflexivity | apply attempt_frame].
Qed.

Lemma executeWithTimeout_fails w :
  attemptFails (runScript tool context w (callCount name w)) = true ->
  exists e w',
    executeWithTimeout tool context w = (Throw e, w')
    /\ attemptsFrame name 1 w w'.
Proof.
  intros Hfail.
  destruct (executeWithTimeout_fails_with w Hfail) as (w' & E & F). eauto.
Qed.

Lemma executeWithTimeout_succeeds w v d :
  runScript tool context w (callCount name w) = Settles (Ok v) d ->
  d <= BaseTool.timeout ->
  exists w',
    executeWithTimeout tool context w = (Ok v, w')
    /\ attemptsFrame name 1 w w'.
Proof.
  intros Ha Hd. rewrite executeWithTimeout_eq. fold name. rewrite Ha.
  destruct (Z.leb_spec d BaseTool.timeout); [|lia].
  eexists. split; [reflexivity | apply attempt_frame].
Qed.

(** An attempt that does not fail resolves no later than the timer. *)
Lemma attempt_succeeds a :
  attemptFails a = false ->
  exists v d, a = Settles (Ok v) d /\ d <= BaseTool.timeout.
Proof.
  destruct a as [[v|e] d|]; cbn [attemptFails]; try discriminate.
  intros H. apply negb_false_iff, Z.leb_le in H. eauto.
Qed.

Lemma backoff_frame attempt w :
  exists w', backoff tool attempt w = (Ok tt, w') /\ attemptsFrame name 0 w w'.
Proof.
  eexists. split; [reflexivity|]. repeat split.
Qed.

Lemma when_backoff_frame attempt w :
  exists w', when (attempt <? maxRetries)%nat (backoff tool attempt) w = (Ok tt, w')
             /\ attemptsFrame name 0 w w'.
Proof.
  unfold when. destruct (attempt <? maxRetries)%nat.
  - apply backoff_frame.
  - eexists. split; [reflexivity|]. repeat split.
Qed.

Lemma attemptsFrame_trans n m w1 w2 w3 :
  attemptsFrame name n w1 w2 -> attemptsFrame name m w2 w3 ->
  attemptsFrame name (m + n) w1 w3.
Proof.
  intros (S1 & O1 & C1) (S2 & O2 & C2). repeat split; try congruence.
  rewrite C2, C1. lia.
Qed.

Lemma runScript_frame n w w' k :
  attemptsFrame name n w w' -> runScript tool context w' k = runScript tool context w k.
Proof.
  intros (_ & O & _). unfold runScript. now rewrite O.
Qed.

Lemma registered_runScript w k :
  runScript tool context (registered name w) k = runScript tool context w k.
Proof.
  unfold runScript, registered, after, CircuitBreaker.getState.
  now destruct (states w !! name).
Qed.

Lemma retryLoop_S attempt remaining lastError :
  retryLoop tool context attempt (S remaining) lastError
  = tryCatch
      (executeWithTimeout tool context)
      (fun error =>
         when (attempt <? maxRetries)%nat (backoff tool attempt);;
         retryLoop tool context (S attempt) remaining (Some error)).
Proof. reflexivity. Qed.

(** The loop returns the value of the first attempt that succeeds, and
    makes no attempt after it. *)
Lemma retryLoop_first_success k :
  forall attempt remaining lastError w v d,
    (k < remaining)%nat ->
    (forall i, (i < k)%nat ->
       attemptFails (runScript tool context w (i + callCount name w)) = true) ->
    runScript tool context w (k + callCount name w) = Settles (Ok v) d ->
    d <= BaseTool.timeout ->
    exists w',
      retryLoop tool context attempt remaining lastError w = (Ok v, w')
      /\ attemptsFrame name (S k) w w'.
Proof.
  induction k as [|k IH]; intros attempt remaining lastError w v d Hk Hfail Hok Hd;
    (destruct remaining as [|r]; [lia|]); rewrite retryLoop_S.
  - destruct (executeWithTimeout_succeeds w v d Hok Hd) as (w' & E & F).
    rewrite (tryCatch_ok _ _ _ _ _ E). eauto.
  - destruct (executeWithTimeout_fails_with w) as (w1 & E1 & F1).
    { apply (Hfail 0%nat). lia. }
    rewrite (tryCatch_throw _ _ _ _ _ E1).
    destruct (when_backoff_frame attempt w1) as (w2 & E2 & F2).
    rewrite (bind_ok _ _ _ _ _ E2).
    pose proof (attemptsFrame_trans _ _ _ _ _ F1 F2) as F12.
    cbn in F12.
    pose proof F12 as (_ & _ & C12).
    destruct (IH (S attempt) r
                (Some (attemptError (runScript tool context w (callCount name w))))
                w2 v d) as (w3 & E3 & F3).
    + lia.
    + intros i Hi. rewrite (runScript_frame _ _ _ _ F12).
      rewrite C12.
      replace (i + (1 + callCount name w))%nat
        with (S i + callCount name w)%nat by lia.
      apply Hfail. lia.
    + rewrite (runScript_frame _ _ _ _ F12), C12.
      replace (k + (1 + callCount name w))%nat
        with (S k + callCount name w)%nat by lia.
      exact Hok.
    + exact Hd.
    + rewrite E3. eexists. split; [reflexivity|].
      pose proof (attemptsFrame_trans _ _ _ _ _ F12 F3) as F.
      replace (S (S k)) with (S k + 1)%nat by lia. exact F.
Qed.

(** When every attempt fails, the loop throws the error of the last
    one, having invoked [run] once per iteration. *)
Lemma retryLoop_last_error remaining :
  forall attempt lastError w,
    (forall i, (i < S remaining)%nat ->
       attemptFails (runScript tool context w (i + callCount name w)) = true) ->
    exists w',
      retryLoop tool context attempt (S remaining) lastError w
      = (Throw (attemptError
                  (runScript tool context w (remaining + callCount name w))),
         w')
      /\ attemptsFrame name (S remaining) w w'.
Proof.
  induction remaining as [|r IH]; intros attempt lastError w Hall;
    rewrite retryLoop_S;
    (destruct (executeWithTimeout_fails_with w) as (w1 & E1 & F1);
     [apply (Hall 0%nat); lia|]);
    rewrite (tryCatch_throw _ _ _ _ _ E1);
    destruct (when_backoff_frame attempt w1) as (w2 & E2 & F2);
    rewrite (bind_ok _ _ _ _ _ E2);
    pose proof (attemptsFrame_trans _ _ _ _ _ F1 F2) as F12;
    cbn in F12.
  - cbn. eexists. split; [reflexivity|]. exact F12.
  - pose proof F12 as (_ & _ & C12).
    destruct (IH (S attempt)
                (Some (attemptError (runScript tool context w (callCount name w))))
                w2) as (w3 & E3 & F3).
    { intros i Hi. rewrite (runScript_frame _ _ _ _ F12), C12.
      replace (i + (1 + callCount name w))%nat
        with (S i + callCount name w)%nat by lia.
      apply Hall. lia. }
    rewrite E3. rewrite (runScript_frame _ _ _ _ F12), C12.
    replace (r + (1 + callCount name w))%nat
      with (S r + callCount name w)%nat by lia.
    eexists. split; [reflexivity|].
    pose proof (attemptsFrame_trans _ _ _ _ _ F12 F3) as F.
    replace (S (S r)) with (S r + 1)%nat by lia. exact F.
Qed.

(** The three attempts of one call: one of them is the first to succeed,
    or all of them fail. *)
Lemma attempts_cases w :
  (exists k v d,
      (k <= maxRetries)%nat
      /\ (forall i, (i < k)%nat ->
            attemptFails (runScript tool context w (i + callCount name w)) = true)
      /\ runScript tool context w (k + callCount name w) = Settles (Ok v) d
      /\ d <= BaseTool.timeout)
  \/ (forall i, (i < 3)%nat ->
        attemptFails (runScript tool context w (i + callCount name w)) = true).
Proof.
  unfold maxRetries.
  destruct (attemptFails (runScript tool context w (0 + callCount name w))) eqn:F0.
  2: { destruct (attempt_succeeds _ F0) as (v & d & E & Hd).
       left. exists 0%nat, v, d. split; [lia|]. split; [intros i Hi; lia|].
       split; [exact E | exact Hd]. }
  destruct (attemptFails (runScript tool context w (1 + callCount name w))) eqn:F1.
  2: { destruct (attempt_succeeds _ F1) as (v & d & E & Hd).
       left. exists 1%nat, v, d. split; [lia|]. split; [|split; [exact E | exact Hd]].
       intros i Hi. replace i with 0%nat by lia. exact F0. }
  destruct (attemptFails (runScript tool context w (2 + callCount name w))) eqn:F2.
  2: { destruct (attempt_succeeds _ F2) as (v & d & E & Hd).
       left. exists 2%nat, v, d. split; [lia|]. split; [|split; [exact E | exact Hd]].
       intros i Hi. destruct i as [|[|i]]; [exact F0 | exact F1 | lia]. }
  right. intros i Hi. destruct i as [|[|[|i]]]; [exact F0 | exact F1 | exact F2 | lia].
Qed.

(** [BaseTool.execute] in closed form around the call of the breaker. *)
Lemma execute_eq w :
  BaseTool.execute tool context w
  = (let (o, w1) :=
       CircuitBreaker.execute name (executeWithRetry tool context) w in
     let duration := clock w1 - clock w in
     match o with
     | Ok v =>
         (Ok (mkResult true (Some v) None duration),
          setMetricLog
            (metricLog w1 ++ [ToolCallTotal name true;
                              AgentLatency name "execute" duration]) w1)
     | Throw e =>
         (Ok (mkResult false None (Some (message e)) duration),
          setMetricLog (metricLog w1 ++ [ToolCallTotal name false]) w1)
     end).
Proof.
  unfold BaseTool.execute, mbind, M_bind, bind, tryCatch, DateNow, gets.
  fold name.
  destruct (CircuitBreaker.execute name (executeWithRetry tool context) w)
    as [[v|e] w1]; cbn.
  - unfold setMetricLog. cbn. now rewrite <- app_assoc.
  - reflexivity.
Qed.

(** A call that the breaker lets through on a closed circuit: it returns
    the value of the first attempt that succeeds, or throws the error of
    the third attempt when all three fail. *)
Lemma breaker_lets_through w :
  isOpen (stateOf name w) = false ->
  exists o w1,
    CircuitBreaker.execute name (executeWithRetry tool context) w = (o, w1)
    /\ ((exists k v d,
            (k <= maxRetries)%nat
            /\ (forall i, (i < k)%nat ->
                  attemptFails (runScript tool context w (i + callCount name w))
                  = true)
            /\ runScript tool context w (k + callCount name w) = Settles (Ok v) d
            /\ d <= BaseTool.timeout
            /\ o = Ok v
            /\ callCount name w1 = (S k + callCount name w)%nat)
        \/ ((forall i, (i < 3)%nat ->
               attemptFails (runScript tool context w (i + callCount name w))
               = true)
            /\ o = Throw (attemptError
                            (runScript tool context w (2 + callCount name w)))
            /\ callCount name w1 = (3 + callCount name w)%nat)).
Proof.
  intros Hclosed.
  assert (Hcalls : callCount name (registered name w) = callCount name w)
    by (unfold callCount; now rewrite registered_calls).
  assert (Hcount : forall (st : CircuitBreakerState) w1,
             callCount name (setStates (<[name := st]> (states w1)) w1)
             = callCount name w1) by reflexivity.
  destruct (attempts_cases w) as [(k & v & d & Hk & Hfail & Hok & Hd) | Hall].
  - destruct (retryLoop_first_success k 0%nat (S maxRetries) None
                (registered name w) v d) as (w1 & E1 & (_ & _ & C1)).
    + lia.
    + intros i Hi. rewrite Hcalls, registered_runScript. now apply Hfail.
    + rewrite Hcalls, registered_runScript. exact Hok.
    + exact Hd.
    + unfold executeWithRetry.
      rewrite (execute_closed_success _ _ _ _ _ Hclosed E1).
      eexists _, _. split; [reflexivity|]. left.
      exists k, v, d. rewrite Hcount, C1, Hcalls. repeat split; auto.
  - destruct (retryLoop_last_error 2 0%nat None (registered name w))
      as (w1 & E1 & (_ & _ & C1)).
    + intros i Hi. rewrite Hcalls, registered_runScript. now apply Hall.
    + rewrite Hcalls, registered_runScript in E1.
      unfold executeWithRetry. change (S maxRetries) with 3%nat.
      rewrite (execute_closed_failure _ _ _ _ _ Hclosed E1).
      eexists _, _. split; [reflexivity|]. right.
      rewrite Hcount, C1, Hcalls. repeat split; auto.
Qed.

(** When every remaining attempt fails, the loop ends by throwing, having
    invoked [run] once per iteration. *)
Lemma retryLoop_all_fail remaining :
  forall attempt lastError w,
    (forall k, (k < remaining)%nat ->
       attemptFails (runScript tool context w (k + callCount name w)) = true) ->
    exists e w',
      retryLoop tool context attempt remaining lastError w = (Throw e, w')
      /\ attemptsFrame name remaining w w'.
Proof.
  intros attempt lastError w Hall. destruct remaining as [|r].
  - cbn. eexists _, _. split; [reflexivity|]. repeat split.
  - destruct (retryLoop_last_error r attempt lastError w Hall) as (w' & E & F).
    eauto.
Qed.

(** One invocation of [execute] on a closed circuit in which all three
    attempts fail: the result is a failure, [run] was invoked three times
    and the breaker has counted one failure. *)
Lemma execute_all_attempts_fail w :
  isOpen (stateOf name w) = false ->
  (forall k, (k < 3)%nat ->
     attemptFails (runScript tool context w (k + callCount name w)) = true) ->
  exists result w',
    BaseTool.execute tool context w = (Ok result, w')
    /\ ok result = false
    /\ stateOf name w' = failedAt (clock w') (stateOf name w)
    /\ callCount name w' = (3 + callCount name w)%nat
    /\ oracle w' = oracle w.
Proof.
  intros Hclosed Hall.
  assert (Horacle : oracle (registered name w) = oracle w).
  { unfold registered, after, CircuitBreaker.getState.
    now destruct (states w !! name). }
  destruct (retryLoop_all_fail 3 0%nat None (registered name w))
    as (e & w1 & E1 & (S1 & O1 & C1)).
  { intros k Hk. unfold callCount, runScript.
    rewrite registered_calls, Horacle. now apply Hall. }
  unfold callCount in C1. rewrite registered_calls in C1.
  fold (callCount name w1) (callCount name w) in C1.
  unfold BaseTool.execute, mbind, M_bind, bind, tryCatch, DateNow, gets.
  fold name. unfold executeWithRetry. change (S maxRetries) with 3%nat.
  rewrite (execute_closed_failure _ _ _ _ _ Hclosed E1). simpl.
  eexists _, _. split; [reflexivity|]. simpl. split; [reflexivity|].
  assert (Hst : stateOf name w1 = stateOf name w).
  { unfold stateOf at 1. rewrite S1.
    fold (stateOf name (registered name w)). apply stateOf_registered. }
  repeat split.
  - unfold stateOf at 1. simpl. rewrite lookup_insert_eq. simpl.
    now rewrite Hst.
  - exact C1.
  - congruence.
Qed.
End RetryFacts.

(** C3. [BaseTool.execute] never throws: in every world it returns a
    [ToolResult] whose [duration] is the time that passed during the call,
    and the result says what happened to the tool.  While the circuit of
    the tool's class is open and cooling down, the result is
    [{ ok: false, error: 'Circuit breaker open for <class>', duration: 0 }]
    and [run] is not invoked.  Otherwise [run] is attempted up to three
    times: if the attempt [k] is the first to resolve before the timer, the
    result is [{ ok: true, data }] with the value of that attempt and no
    error, after [k + 1] invocations; if all three attempts fail, the
    result is [{ ok: false, error }] without data, where the error is the
    message of the last attempt (the tool's own message when it threw,
    'Tool timeout exceeded' when the timer fired first), after three
    invocations. *)
Theorem execute_never_throws :
  forall (tool : Tool) (context : AgentContext) (w : World),
    let name := className tool in
    let attempt := fun i : nat => runScript tool context w (i + callCount name w) in
    exists (result : ToolResult) (w' : World),
      BaseTool.execute tool context w = (Ok result, w')
      /\ duration result = clock w' - clock w
      /\ ((isOpen (stateOf name w) = true
           /\ clock w - lastFailureTime (stateOf name w) < CircuitBreaker.openDuration
           /\ result = mkResult false None
                         (Some ("Circuit breaker open for " +:+ name)) 0
           /\ callCount name w' = callCount name w)
          \/ ((isOpen (stateOf name w) = false
               \/ CircuitBreaker.openDuration
                  <= clock w - lastFailureTime (stateOf name w))
              /\ ((exists (k : nat) (v : ToolData) (d : Z),
                      (k <= maxRetries)%nat
                      /\ (forall i, (i < k)%nat -> attemptFails (attempt i) = true)
                      /\ attempt k = Settles (Ok v) d
                      /\ d <= BaseTool.timeout
                      /\ result = mkResult true (Some v) None (duration result)
                      /\ callCount name w' = (S k + callCount name w)%nat)
                  \/ ((forall i, (i < 3)%nat -> attemptFails (attempt i) = true)
                      /\ result = mkResult false None
                                    (Some (message (attemptError (attempt 2%nat))))
                                    (duration result)
                      /\ callCount name w' = (3 + callCount name w)%nat)))).
Proof.
  intros tool context w name attempt. rewrite execute_eq. fold name.
  assert (Hthrough : forall w0,
            isOpen (stateOf name w0) = false ->
            clock w0 = clock w -> calls w0 = calls w -> oracle w0 = oracle w ->
            CircuitBreaker.execute name (executeWithRetry tool context) w
            = CircuitBreaker.execute name (executeWithRetry tool context) w0 ->
            exists (result : ToolResult) (w' : World),
              (let (o, w1) :=
                 CircuitBreaker.execute name (executeWithRetry tool context) w in
               let duration := clock w1 - clock w in
               match o with
               | Ok v =>
                   (Ok (mkResult true (Some v) None duration),
                    setMetricLog
                      (metricLog w1 ++ [ToolCallTotal name true;
                                        AgentLatency name "execute" duration]) w1)
               | Throw e =>
                   (Ok (mkResult false None (Some (message e)) duration),
                    setMetricLog (metricLog w1 ++ [ToolCallTotal name false]) w1)
               end) = (Ok result, w')
              /\ duration result = clock w' - clock w
              /\ ((exists (k : nat) (v : ToolData) (d : Z),
                      (k <= maxRetries)%nat
                      /\ (forall i, (i < k)%nat -> attemptFails (attempt i) = true)
                      /\ attempt k = Settles (Ok v) d
                      /\ d <= BaseTool.timeout
                      /\ result = mkResult true (Some v) None (duration result)
                      /\ callCount name w' = (S k + callCount name w)%nat)
                  \/ ((forall i, (i < 3)%nat -> attemptFails (attempt i) = true)
                      /\ result = mkResult false None
                                    (Some (message (attemptError (attempt 2%nat))))
                                    (duration result)
                      /\ callCount name w' = (3 + callCount name w)%nat))).
  { intros w0 Hclosed Hclock Hcalls Horacle Heq. rewrite Heq.
    assert (Hscript : forall i,
               runScript tool context w0 (i + callCount name w0) = attempt i).
    { intros i. subst attempt. unfold runScript, callCount.
      now rewrite Horacle, Hcalls. }
    assert (Hcount : callCount name w0 = callCount name w)
      by (unfold callCount; now rewrite Hcalls).
    destruct (breaker_lets_through tool context w0 Hclosed)
      as (o & w1 & E & [(k & v & d & Hk & Hfail & Hok & Hd & -> & C)
                        | (Hall & -> & C)]);
      fold name in E, C; rewrite E.
    - eexists _, _. split; [reflexivity|]. cbn [duration clock setMetricLog].
      split; [reflexivity|]. left. exists k, v, d.
      rewrite Hscript in Hok. rewrite Hcount in C.
      repeat split; auto.
      intros i Hi. rewrite <- Hscript. now apply Hfail.
    - eexists _, _. split; [reflexivity|]. cbn [duration clock setMetricLog].
      split; [reflexivity|]. right.
      rewrite Hscript. rewrite Hcount in C.
      repeat split; auto.
      intros i Hi. rewrite <- Hscript. now apply Hall. }
  destruct (isOpen (stateOf name w)) eqn:Hopen.
  - destruct (Z.lt_ge_cases (clock w - lastFailureTime (stateOf name w))
                            CircuitBreaker.openDuration) as [Hlt | Hge].
    + rewrite (execute_open_refused _ _ _ Hopen Hlt).
      eexists _, _. split; [reflexivity|]. cbn [duration clock setMetricLog].
      split; [lia|]. left. rewrite Z.sub_diag. repeat split; auto.
    + destruct (Hthrough (after (CircuitBreaker.resetCircuit name) w))
        as (result & w' & E & Hd & Hcases).
      * now destruct (reset_frame name w) as (-> & _).
      * reflexivity.
      * reflexivity.
      * reflexivity.
      * now apply execute_open_cooled.
      * exists result, w'. split; [exact E|]. split; [exact Hd|].
        right. split; [right; exact Hge | exact Hcases].
  - destruct (Hthrough w) as (result & w' & E & Hd & Hcases); auto.
    exists result, w'. split; [exact E|]. split; [exact Hd|].
    right. split; [left; reflexivity | exact Hcases].
Qed.

(** C10. The breaker counts one failure per invocation of
    [BaseTool.execute], not per attempt.  Starting with no failure on
    record, three invocations in each of which all three attempts of [run]
    fail leave the counter at 1, 2 and 3: the circuit is still closed after
    the first two and opens with the third, by which time [run] has been
    invoked nine times. *)
Theorem one_failure_per_execute_invocation :
  forall (tool : Tool) (context : AgentContext) (d1 d2 : Z) (w0 : World),
    let name := className tool in
    noFailures name w0 = true ->
    (forall k, (k < 9)%nat ->
       attemptFails (runScript tool context w0 (k + callCount name w0)) = true) ->
    let w1 := after (BaseTool.execute tool context) w0 in
    let w2 := after (BaseTool.execute tool context) (after (elapse d1) w1) in
    let w3 := after (BaseTool.execute tool context) (after (elapse d2) w2) in
    (failures (stateOf name w1) = 1 /\ isOpen (stateOf name w1) = false
     /\ callCount name w1 = (3 + callCount name w0)%nat)
    /\ (failures (stateOf name w2) = 2 /\ isOpen (stateOf name w2) = false
        /\ callCount name w2 = (6 + callCount name w0)%nat)
    /\ (failures (stateOf name w3) = 3 /\ isOpen (stateOf name w3) = true
        /\ callCount name w3 = (9 + callCount name w0)%nat).
Proof.
  intros tool context d1 d2 w0 name Hfresh Hall w1 w2 w3.
  unfold noFailures in Hfresh. apply andb_prop in Hfresh as [Hf Hc].
  apply Z.eqb_eq in Hf. apply negb_true_iff in Hc. fold name in Hf, Hc.
  destruct (execute_all_attempts_fail tool context w0 Hc)
    as (r1 & a1 & E1 & _ & S1 & C1 & O1).
  { intros k Hk. apply Hall. lia. }
  assert (W1 : w1 = a1) by (subst w1; unfold after; now rewrite E1).
  fold name in S1, C1. rewrite <- W1 in S1, C1, O1.
  assert (P1 : failures (stateOf name w1) = 1 /\ isOpen (stateOf name w1) = false).
  { rewrite S1. unfold failedAt. simpl. rewrite Hf, Hc. split; reflexivity. }
  destruct P1 as [F1 I1].
  set (p1 := after (elapse d1) w1) in *.
  destruct (execute_all_attempts_fail tool context p1)
    as (r2 & a2 & E2 & _ & S2 & C2 & O2).
  { exact I1. }
  { intros k Hk. unfold runScript. change (oracle p1) with (oracle w1).
    rewrite O1. change (callCount (className tool) p1) with (callCount name w1).
    rewrite C1. replace (k + (3 + callCount name w0))%nat
      with ((k + 3) + callCount name w0)%nat by lia.
    apply Hall. lia. }
  assert (W2 : w2 = a2) by (subst w2; unfold after; now rewrite E2).
  fold name in S2, C2. rewrite <- W2 in S2, C2, O2.
  change (stateOf name p1) with (stateOf name w1) in S2.
  change (callCount name p1) with (callCount name w1) in C2.
  change (oracle p1) with (oracle w1) in O2.
  assert (P2 : failures (stateOf name w2) = 2 /\ isOpen (stateOf name w2) = false).
  { rewrite S2. unfold failedAt. simpl. rewrite F1, I1. split; reflexivity. }
  destruct P2 as [F2 I2].
  set (p2 := after (elapse d2) w2) in *.
  destruct (execute_all_attempts_fail tool context p2)
    as (r3 & a3 & E3 & _ & S3 & C3 & O3).
  { exact I2. }
  { intros k Hk. unfold runScript. change (oracle p2) with (oracle w2).
    rewrite O2, O1. change (callCount (className tool) p2) with (callCount name w2).
    rewrite C2, C1. replace (k + (3 + (3 + callCount name w0)))%nat
      with ((k + 6) + callCount name w0)%nat by lia.
    apply Hall. lia. }
  assert (W3 : w3 = a3) by (subst w3; unfold after; now rewrite E3).
  fold name in S3, C3. rewrite <- W3 in S3, C3.
  change (stateOf name p2) with (stateOf name w2) in S3.
  change (callCount name p2) with (callCount name w2) in C3.
  repeat split; try assumption.
  - rewrite C2, C1. lia.
  - rewrite S3. unfold failedAt. simpl. now rewrite F2.
  - rewrite S3. unfold failedAt. simpl. now rewrite F2.
  - rewrite C3, C2, C1. lia.
Qed.

Lemma one_failure_per_execute_invocation_witness :
  let w1 := after (BaseTool.execute fraudAgent sampleContext) emptyWorld in
  let w2 := after (BaseTool.execute fraudAgent sampleContext) (after (elapse 5) w1) in
  let w3 := after (BaseTool.execute fraudAgent sampleContext) (after (elapse 5) w2) in
  stateOf "FraudAgent" w1 = mkState 1 3550 false
  /\ isOpen (stateOf "FraudAgent" w3) = true
  /\ callCount "FraudAgent" w3 = 9%nat.
Proof.
  destruct (one_failure_per_execute_invocation fraudAgent sampleContext 5 5 emptyWorld)
    as ((_ & _ & _) & _ & (_ & H3 & C3)).
  - reflexivity.
  - intros k _. reflexivity.
  - split; [vm_compute; reflexivity|]. split; [exact H3 | exact C3].
Defined.


(** * Rate limiter *)

Section RateLimiterFacts.
Import RateLimiter.
Variables (self : Limiter) (req : Request).
Let key := bucketKey req.

Lemma checkLimit_read_throws e err :
  redisFault e (RedisGet key) = Some err ->
  checkLimit self req e = (Ok tt, setEffects (effects e ++ [Next]) e).
Proof.
  intros Hget. unfold checkLimit, tryCatch, mbind, M_bind, bind, redisGet.
  fold key. now rewrite Hget.
Qed.

Lemma checkLimit_allowed e :
  redisFault e (RedisGet key) = None ->
  redisFault e (RedisSetEx key) = None ->
  Qle_bool 1 (fst (refill self (readBucket key e) (now e))) = true ->
  checkLimit self req e
  = (Ok tt,
     setEffects (effects e ++ [Next])
       (setRedis
          (<[key := (mkBucket (fst (refill self (readBucket key e) (now e)) - 1)
                              (now e),
                     (now e + 60 * 1000)%Z)]> (redis e)) e)).
Proof.
  intros Hget Hset Hle.
  unfold checkLimit, tryCatch, mbind, M_bind, bind, redisGet. fold key.
  rewrite Hget. unfold gets.
  assert (Hsnd : snd (refill self (readBucket key e) (now e)) = now e)
    by (unfold refill; now destruct (readBucket key e)).
  destruct (refill self (readBucket key e) (now e)) as [tokens0 lr].
  simpl in Hle, Hsnd. subst lr. rewrite Hle.
  unfold redisSetEx. now rewrite Hset.
Qed.

Lemma checkLimit_write_throws e err :
  redisFault e (RedisGet key) = None ->
  redisFault e (RedisSetEx key) = Some err ->
  Qle_bool 1 (fst (refill self (readBucket key e) (now e))) = true ->
  checkLimit self req e = (Ok tt, setEffects (effects e ++ [Next]) e).
Proof.
  intros Hget Hset Hle.
  unfold checkLimit, tryCatch, mbind, M_bind, bind, redisGet. fold key.
  rewrite Hget. unfold gets.
  destruct (refill self (readBucket key e) (now e)) as [tokens0 lr].
  simpl in Hle. rewrite Hle.
  unfold redisSetEx. now rewrite Hset.
Qed.

Lemma checkLimit_rejected e :
  redisFault e (RedisGet key) = None ->
  Qle_bool 1 (fst (refill self (readBucket key e) (now e))) = false ->
  checkLimit self req e
  = (Ok tt,
     setEffects
       (effects e
        ++ [Respond 429
              (tooManyRequests
                 (retryAfterFor self
                    (fst (refill self (readBucket key e) (now e)))))])
       (setBlockTotal (rateLimitBlockTotal e ++ [getClientId req]) e)).
Proof.
  intros Hget Hle.
  unfold checkLimit, tryCatch, mbind, M_bind, bind, redisGet. fold key.
  rewrite Hget. unfold gets.
  destruct (refill self (readBucket key e) (now e)) as [tokens0 lr].
  simpl in Hle. now rewrite Hle.
Qed.
End RateLimiterFacts.

(** C9. When the store is unavailable the limiter fails open: if the read
    throws, or the read succeeds and the write that the allow branch makes
    throws, the request is passed on with [next()], nothing is written and
    no response is sent. *)
Theorem limiter_fails_open :
  forall (self : RateLimiter.Limiter) (req : RateLimiter.Request)
         (e : RateLimiter.Env) (err : JsError),
    let key := RateLimiter.bucketKey req in
    RateLimiter.redisFault e (RateLimiter.RedisGet key) = Some err
    \/ (RateLimiter.redisFault e (RateLimiter.RedisGet key) = None
        /\ Qle_bool 1 (fst (RateLimiter.refill self (RateLimiter.readBucket key e)
                              (RateLimiter.now e))) = true
        /\ RateLimiter.redisFault e (RateLimiter.RedisSetEx key) = Some err) ->
    RateLimiter.checkLimit self req e
    = (Ok tt,
       RateLimiter.setEffects (RateLimiter.effects e ++ [RateLimiter.Next]) e).
Proof.
  intros self req e err key [Hget | (Hget & Hle & Hset)].
  - eapply checkLimit_read_throws; eauto.
  - eapply checkLimit_write_throws; eauto.
Qed.

Lemma limiter_fails_open_witness :
  RateLimiter.effects (after (RateLimiter.rateLimiter sampleRequest) outageEnv)
  = [RateLimiter.Next].
Proof.
  unfold after, RateLimiter.rateLimiter.
  rewrite (limiter_fails_open RateLimiter.defaultLimiter sampleRequest outageEnv
             (Error "ECONNREFUSED")).
  - reflexivity.
  - left. reflexivity.
Defined.

Section TokenBucket.
Import RateLimiter.
Local Open Scope Q_scope.
Variable req : Request.
Let key := bucketKey req.

(** The two roundings of [retryAfterFor] amount to one: the shortfall
    divided by the refill rate, rounded up to whole seconds. *)
Lemma ceiling_of_millis (x : Q) :
  Qceiling (inject_Z (Qceiling (x * 1000)) / 1000) = Qceiling x.
Proof.
  apply Z.le_antisymm.
  - rewrite <- (Qceiling_Z (Qceiling x)). apply Qceiling_resp_le.
    apply Qle_shift_div_r; [reflexivity|].
    change 1000 with (inject_Z 1000). rewrite <- inject_Z_mult.
    rewrite <- Zle_Qle.
    rewrite <- (Qceiling_Z (Qceiling x * 1000)%Z). apply Qceiling_resp_le.
    rewrite inject_Z_mult. apply Qmult_le_compat_r; [|discriminate].
    apply Qle_ceiling.
  - apply Qceiling_resp_le. apply Qle_shift_div_l; [reflexivity|].
    apply Qle_ceiling.
Qed.

Lemma retryAfter_is_ceiling (tokens0 : Q) :
  retryAfterFor defaultLimiter tokens0
  = Qceiling ((1 - tokens0) / inject_Z (refillRate defaultLimiter)).
Proof.
  unfold retryAfterFor. simpl refillInterval. apply ceiling_of_millis.
Qed.

Lemma holds_read n t e :
  holds key n t e -> (now e < t + 60 * 1000)%Z ->
  exists b, readBucket key e = Some b /\ lastRefill b = t
            /\ tokens b == inject_Z n.
Proof.
  intros (_ & _ & b & Hb & Hl & Ht) Hlive. exists b.
  unfold readBucket. rewrite Hb.
  destruct (Z.ltb_spec (now e) (t + 60 * 1000)); [auto | lia].
Qed.

(** Tokens available [d] ms after the last refill of a bucket with [n]
    tokens. *)
Lemma refill_value n d b t :
  lastRefill b = (t - d)%Z -> tokens b == inject_Z n ->
  fst (refill defaultLimiter (Some b) t)
  == Qmin 5 (inject_Z n + inject_Z d / 1000 * 5).
Proof.
  intros Hl Ht. unfold refill. simpl. rewrite Hl, Ht.
  replace (t - (t - d))%Z with d by lia. reflexivity.
Qed.

Lemma allowed_same_instant n t e :
  holds key n t e -> now e = t -> (1 <= n <= 5)%Z ->
  exists e',
    rateLimiter req e = (Ok tt, e')
    /\ effects e' = effects e ++ [Next]
    /\ now e' = now e
    /\ holds key (n - 1) t e'.
Proof.
  intros Hh Hnow Hn.
  destruct (holds_read n t e Hh) as (b & Hb & Hl & Ht); [lia|].
  destruct Hh as (Hget & Hset & _).
  assert (Hv : fst (refill defaultLimiter (readBucket key e) (now e))
               == inject_Z n).
  { rewrite Hb, (refill_value n 0 b (now e)); [| lia | exact Ht].
    rewrite Q.min_r; [unfold Qdiv; ring|].
    unfold Qdiv. ring_simplify. change 5 with (inject_Z 5).
    rewrite <- Zle_Qle. lia. }
  assert (Hle : Qle_bool 1 (fst (refill defaultLimiter (readBucket key e) (now e)))
                = true).
  { apply Qle_bool_iff. rewrite Hv. change 1 with (inject_Z 1).
    rewrite <- Zle_Qle. lia. }
  unfold rateLimiter. fold key in Hget, Hset.
  rewrite (checkLimit_allowed defaultLimiter req e Hget Hset Hle).
  eexists. split; [reflexivity|].
  split; [reflexivity|]. split; [reflexivity|].
  split; [exact Hget|]. split; [exact Hset|].
  eexists. cbn [redis setEffects setRedis]. rewrite lookup_insert_eq. rewrite Hnow.
  split; [reflexivity|]. cbn [tokens lastRefill]. split; [reflexivity|].
  rewrite <- Hnow. fold key. unfold Qminus.
  apply (Qeq_trans _ (inject_Z n + - (1))).
  + apply Qplus_comp; [exact Hv | reflexivity].
  + unfold Z.sub. rewrite inject_Z_plus. reflexivity.
Qed.

Lemma allowed_first_request e :
  redisFault e (RedisGet key) = None ->
  redisFault e (RedisSetEx key) = None ->
  readBucket key e = None ->
  exists e',
    rateLimiter req e = (Ok tt, e')
    /\ effects e' = effects e ++ [Next]
    /\ now e' = now e
    /\ holds key 4 (now e) e'.
Proof.
  intros Hget Hset Hnone.
  assert (Hle : Qle_bool 1 (fst (refill defaultLimiter (readBucket key e) (now e)))
                = true) by now rewrite Hnone.
  unfold rateLimiter. fold key in Hget, Hset.
  rewrite (checkLimit_allowed defaultLimiter req e Hget Hset Hle).
  eexists. split; [reflexivity|].
  split; [reflexivity|]. split; [reflexivity|].
  split; [exact Hget|]. split; [exact Hset|].
  eexists. cbn [redis setEffects setRedis]. rewrite lookup_insert_eq.
  split; [reflexivity|]. cbn [tokens lastRefill]. split; [reflexivity|].
  fold key. rewrite Hnone. reflexivity.
Qed.

Lemma rejected_same_instant t e :
  holds key 0 t e -> now e = t ->
  exists e',
    rateLimiter req e = (Ok tt, e')
    /\ effects e' = effects e ++ [Respond 429 (tooManyRequests 1)]
    /\ now e' = now e
    /\ holds key 0 t e'.
Proof.
  intros Hh Hnow.
  destruct (holds_read 0 t e Hh) as (b & Hb & Hl & Ht); [lia|].
  pose proof Hh as (Hget & Hset & Hbucket).
  assert (Hv : fst (refill defaultLimiter (readBucket key e) (now e)) == 0).
  { rewrite Hb, (refill_value 0 0 b (now e)); [| lia | exact Ht].
    reflexivity. }
  assert (Hle : Qle_bool 1 (fst (refill defaultLimiter (readBucket key e) (now e)))
                = false).
  { destruct (Qle_bool 1 _) eqn:E; [|reflexivity].
    apply Qle_bool_iff in E. rewrite Hv in E. exfalso. apply E. reflexivity. }
  unfold rateLimiter. fold key in Hget.
  rewrite (checkLimit_rejected defaultLimiter req e Hget Hle).
  assert (Hr : retryAfterFor defaultLimiter
                 (fst (refill defaultLimiter (readBucket key e) (now e))) = 1%Z).
  { rewrite retryAfter_is_ceiling.
    rewrite (Qceiling_comp _ ((1 - 0) / inject_Z (refillRate defaultLimiter)));
      [reflexivity|].
    apply Qmult_comp; [|reflexivity].
    apply Qplus_comp; [reflexivity|]. now apply Qopp_comp. }
  eexists. split; [reflexivity|].
  cbn [effects now setEffects setBlockTotal]. fold key. rewrite Hr.
  split; [reflexivity|]. split; [reflexivity|]. exact Hh.
Qed.

Lemma allowed_after_a_second t e :
  holds key 0 t e -> now e = (t + 1000)%Z ->
  exists e',
    rateLimiter req e = (Ok tt, e')
    /\ effects e' = effects e ++ [Next].
Proof.
  intros Hh Hnow.
  destruct (holds_read 0 t e Hh) as (b & Hb & Hl & Ht); [lia|].
  destruct Hh as (Hget & Hset & _).
  assert (Hv : fst (refill defaultLimiter (readBucket key e) (now e)) == 5).
  { rewrite Hb, (refill_value 0 1000 b (now e)); [| lia | exact Ht].
    reflexivity. }
  assert (Hle : Qle_bool 1 (fst (refill defaultLimiter (readBucket key e) (now e)))
                = true).
  { apply Qle_bool_iff. rewrite Hv. discriminate. }
  unfold rateLimiter. fold key in Hget, Hset.
  rewrite (checkLimit_allowed defaultLimiter req e Hget Hset Hle).
  eexists. split; reflexivity.
Qed.
End TokenBucket.

(** C7. With [maxTokens = 5] and [refillRate = 5] per second, a client
    without a bucket makes six requests at the same instant: the first five
    are passed on with [next()], the sixth is answered with status 429 and
    [retryAfter = 1]; after one second the next request is passed on again.
    [retryAfter] is the token shortfall divided by the refill rate, rounded
    up to whole seconds. *)
Theorem token_bucket_burst :
  forall (req : RateLimiter.Request) (e : RateLimiter.Env),
    let key := RateLimiter.bucketKey req in
    RateLimiter.redisFault e (RateLimiter.RedisGet key) = None ->
    RateLimiter.redisFault e (RateLimiter.RedisSetEx key) = None ->
    RateLimiter.readBucket key e = None ->
    let scenario :=
      RateLimiter.burst 6 req;;
      modify (RateLimiter.wait 1000);;
      RateLimiter.rateLimiter req in
    outcome scenario e = Ok tt
    /\ RateLimiter.effects (after scenario e)
       = RateLimiter.effects e
         ++ [RateLimiter.Next; RateLimiter.Next; RateLimiter.Next;
             RateLimiter.Next; RateLimiter.Next;
             RateLimiter.Respond 429
               (RateLimiter.mkRejection "Too many requests" 1
                  "Rate limit exceeded. Retry after 1 seconds.");
             RateLimiter.Next]
    /\ (forall tokens0 : Q,
          RateLimiter.retryAfterFor RateLimiter.defaultLimiter tokens0
          = Qceiling ((1 - tokens0)
                      / inject_Z (RateLimiter.refillRate RateLimiter.defaultLimiter))).
Proof.
  intros req e key Hget Hset Hnone scenario.
  destruct (allowed_first_request req e Hget Hset Hnone)
    as (e1 & R1 & F1 & N1 & H1).
  destruct (allowed_same_instant req 4 (RateLimiter.now e) e1 H1 N1)
    as (e2 & R2 & F2 & N2 & H2); [lia|].
  rewrite N1 in N2.
  destruct (allowed_same_instant req 3 (RateLimiter.now e) e2 H2 N2)
    as (e3 & R3 & F3 & N3 & H3); [lia|].
  rewrite N2 in N3.
  destruct (allowed_same_instant req 2 (RateLimiter.now e) e3 H3 N3)
    as (e4 & R4 & F4 & N4 & H4); [lia|].
  rewrite N3 in N4.
  destruct (allowed_same_instant req 1 (RateLimiter.now e) e4 H4 N4)
    as (e5 & R5 & F5 & N5 & H5); [lia|].
  rewrite N4 in N5.
  destruct (rejected_same_instant req (RateLimiter.now e) e5 H5 N5)
    as (e6 & R6 & F6 & N6 & H6).
  rewrite N5 in N6.
  destruct (allowed_after_a_second req (RateLimiter.now e) (RateLimiter.wait 1000 e6))
    as (e7 & R7 & F7).
  { exact H6. }
  { simpl. now rewrite N6. }
  assert (Hrun : scenario e = (Ok tt, e7)).
  { assert (B : RateLimiter.burst 6 req e = (Ok tt, e6)).
    { cbn [RateLimiter.burst].
      rewrite (bind_ok _ _ _ _ _ R1), (bind_ok _ _ _ _ _ R2),
        (bind_ok _ _ _ _ _ R3), (bind_ok _ _ _ _ _ R4),
        (bind_ok _ _ _ _ _ R5), (bind_ok _ _ _ _ _ R6).
      reflexivity. }
    subst scenario. rewrite (bind_ok _ _ _ _ _ B).
    erewrite bind_ok; [|reflexivity]. exact R7. }
  unfold outcome, after. rewrite Hrun. simpl.
  split; [reflexivity|]. split.
  - rewrite F7. simpl. rewrite F6, F5, F4, F3, F2, F1.
    rewrite <- !app_assoc. reflexivity.
  - apply retryAfter_is_ceiling.
Qed.

Lemma token_bucket_burst_witness :
  RateLimiter.effects
    (after (RateLimiter.burst 6 sampleRequest;;
            modify (RateLimiter.wait 1000);;
            RateLimiter.rateLimiter sampleRequest) freshEnv)
  = [RateLimiter.Next; RateLimiter.Next; RateLimiter.Next;
     RateLimiter.Next; RateLimiter.Next;
     RateLimiter.Respond 429
       (RateLimiter.mkRejection "Too many requests" 1
          "Rate limit exceeded. Retry after 1 seconds.");
     RateLimiter.Next].
Proof.
  destruct (token_bucket_burst sampleRequest freshEnv eq_refl eq_refl eq_refl)
    as (_ & H & _).
  exact H.
Defined.


(** * Frame of the tool layer *)

Section Preservation.
Context {S : Type} (R : S -> S -> Prop) `{!Reflexive R} `{!Transitive R}.

Lemma preserves_ret {A} (a : A) : preserves R (mret a : M S A).
Proof. intros s. reflexivity. Qed.

Lemma preserves_throw {A} e : preserves R (throw e : M S A).
Proof. intros s. reflexivity. Qed.

Lemma preserves_gets {A} (g : S -> A) : preserves R (gets g).
Proof. intros s. reflexivity. Qed.

Lemma preserves_bind {A B} (m : M S A) (k : A -> M S B) :
  preserves R m -> (forall a, preserves R (k a)) -> preserves R (m ≫= k).
Proof.
  intros Hm Hk s. unfold after, mbind, M_bind, bind.
  specialize (Hm s). unfold after in Hm.
  destruct (m s) as [[a|e] s1]; simpl in *; [|exact Hm].
  etransitivity; [exact Hm|]. apply Hk.
Qed.

Lemma preserves_tryCatch {A} (m : M S A) (h : JsError -> M S A) :
  preserves R m -> (forall e, preserves R (h e)) -> preserves R (tryCatch m h).
Proof.
  intros Hm Hh s. unfold after, tryCatch.
  specialize (Hm s). unfold after in Hm.
  destruct (m s) as [[a|e] s1]; simpl in *; [exact Hm|].
  etransitivity; [exact Hm|]. apply Hh.
Qed.

Lemma preserves_when b (m : M S unit) :
  preserves R m -> preserves R (when b m).
Proof. destruct b; simpl; [auto | intros _; apply preserves_ret]. Qed.

Lemma preserves_modify (g : S -> S) :
  (forall s, R s (g s)) -> preserves R (modify g).
Proof. intros Hg s. apply Hg. Qed.
End Preservation.

#[local] Instance toolFrame_refl : Reflexive toolFrame.
Proof. intros w. repeat split. Qed.

#[local] Instance toolFrame_trans : Transitive toolFrame.
Proof.
  intros a b c (A1 & A2 & A3 & A4 & A5 & A6 & A7 & A8)
               (B1 & B2 & B3 & B4 & B5 & B6 & B7 & B8).
  repeat split; congruence.
Qed.

#[local] Instance quiet_refl : Reflexive quiet.
Proof. intros w. split; reflexivity. Qed.

#[local] Instance quiet_trans : Transitive quiet.
Proof.
  intros a b c [A1 A2] [B1 B2]. split; [etransitivity; eauto | congruence].
Qed.

Ltac frame_step :=
  first
    [ apply (preserves_ret quiet)
    | apply (preserves_throw quiet)
    | apply (preserves_gets quiet)
    | apply (preserves_when quiet)
    | apply (preserves_bind quiet); [|intros ?]
    | apply (preserves_tryCatch quiet); [|intros ?]
    | apply (preserves_modify quiet); intros ?; unfold quiet, toolFrame;
      repeat split ].

Lemma run_quiet tool context : preserves quiet (BaseTool.run tool context).
Proof.
  unfold BaseTool.run. apply (preserves_bind quiet).
  - intros w. unfold quiet, toolFrame. repeat split.
  - intros k. destruct (body tool); repeat frame_step.
Qed.

Lemma elapse_quiet d : preserves quiet (elapse d).
Proof. unfold elapse. frame_step. Qed.

Lemma executeWithTimeout_quiet tool context :
  preserves quiet (executeWithTimeout tool context).
Proof.
  unfold executeWithTimeout. apply (preserves_bind quiet); [apply run_quiet|].
  intros [[v|e] d|].
  - destruct (d <=? BaseTool.timeout);
      (apply (preserves_bind quiet); [apply elapse_quiet | intros ?; frame_step]).
  - destruct (d <=? BaseTool.timeout);
      (apply (preserves_bind quiet); [apply elapse_quiet | intros ?; frame_step]).
  - apply (preserves_bind quiet); [apply elapse_quiet | intros ?; frame_step].
Qed.

Lemma backoff_quiet tool attempt : preserves quiet (backoff tool attempt).
Proof.
  unfold backoff. repeat frame_step.
Qed.

Lemma retryLoop_quiet tool context remaining :
  forall attempt lastError,
    preserves quiet (retryLoop tool context attempt remaining lastError).
Proof.
  induction remaining as [|r IH]; intros attempt lastError; simpl.
  - frame_step.
  - apply (preserves_tryCatch quiet); [apply executeWithTimeout_quiet|].
    intros e. apply (preserves_bind quiet); [|intros ?; apply IH].
    apply (preserves_when quiet). apply backoff_quiet.
Qed.

Lemma getState_quiet toolName : preserves quiet (CircuitBreaker.getState toolName).
Proof.
  intros w. unfold after, CircuitBreaker.getState.
  destruct (states w !! toolName); unfold quiet, toolFrame; repeat split.
Qed.

Lemma putState_quiet toolName st : preserves quiet (CircuitBreaker.putState toolName st).
Proof. unfold CircuitBreaker.putState. frame_step. Qed.

Lemma breaker_quiet {T} toolName (fn : M World T) :
  preserves quiet fn -> preserves quiet (CircuitBreaker.execute toolName fn).
Proof.
  intros Hfn. unfold CircuitBreaker.execute.
  apply (preserves_bind quiet); [apply getState_quiet|]. intros st.
  apply (preserves_bind quiet).
  - destruct (isOpen st); [|frame_step].
    apply (preserves_bind quiet); [frame_step|]. intros t.
    destruct (t - lastFailureTime st <? CircuitBreaker.openDuration);
      [frame_step | apply putState_quiet].
  - intros _. apply (preserves_tryCatch quiet).
    + apply (preserves_bind quiet); [exact Hfn|]. intros v.
      apply (preserves_bind quiet); [|intros ?; frame_step].
      unfold CircuitBreaker.onSuccess.
      apply (preserves_bind quiet); [apply getState_quiet | intros ?; apply putState_quiet].
    + intros e. apply (preserves_bind quiet); [|intros ?; frame_step].
      unfold CircuitBreaker.onFailure.
      apply (preserves_bind quiet); [apply getState_quiet | intros ?].
      apply (preserves_bind quiet); [frame_step | intros ?; apply putState_quiet].
Qed.

(** A value that comes out of the breaker was returned by the wrapped
    function. *)
Lemma breaker_value {T} toolName (fn : M World T) w v w1 :
  CircuitBreaker.execute toolName fn w = (Ok v, w1) ->
  exists w0, outcome fn w0 = Ok v.
Proof.
  assert (Hclosed : forall w, isOpen (stateOf toolName w) = false ->
            CircuitBreaker.execute toolName fn w = (Ok v, w1) ->
            exists w0, outcome fn w0 = Ok v).
  { intros w' Hc H. exists (registered toolName w'). unfold outcome.
    destruct (fn (registered toolName w')) as [[a|e] s1] eqn:E.
    - rewrite (execute_closed_success _ _ _ _ _ Hc E) in H. simpl. congruence.
    - rewrite (execute_closed_failure _ _ _ _ _ Hc E) in H. discriminate. }
  intros H. destruct (isOpen (stateOf toolName w)) eqn:Hopen.
  - destruct (Z.lt_ge_cases (clock w - lastFailureTime (stateOf toolName w))
                            CircuitBreaker.openDuration) as [Hlt | Hge].
    + rewrite (execute_open_refused _ _ _ Hopen Hlt) in H. discriminate.
    + rewrite (execute_open_cooled _ _ _ Hopen Hge) in H.
      apply (Hclosed _ (f_equal isOpen (proj1 (reset_frame toolName w))) H).
  - now apply (Hclosed w).
Qed.

Lemma pure_tool_value tool context g w :
  body tool = Pure g ->
  outcome (executeWithRetry tool context) w = Ok (g context).
Proof.
  intros Hg. unfold outcome, executeWithRetry. simpl. unfold tryCatch.
  unfold executeWithTimeout, mbind, M_bind, bind. rewrite run_eq.
  unfold runScript. rewrite Hg. reflexivity.
Qed.

(** What one call of [BaseTool.execute] leaves behind: a result that is
    either data or an error, exactly one [tool_call_total] sample, and
    nothing outside the tool layer changed.  A tool whose [run] is a pure
    function of the context can only succeed with that function's value. *)
Lemma execute_spec tool context w :
  exists result w',
    BaseTool.execute tool context w = (Ok result, w')
    /\ (if ok result then is_Some (data result) else data result = None)
    /\ toolFrame w w'
    /\ metricLog w'
       = metricLog w
         ++ (if ok result
             then [ToolCallTotal (className tool) true;
                   AgentLatency (className tool) "execute" (duration result)]
             else [ToolCallTotal (className tool) false])
    /\ (forall g, body tool = Pure g -> ok result = true ->
        data result = Some (g context)).
Proof.
  pose proof (breaker_quiet (className tool) (executeWithRetry tool context)
                (retryLoop_quiet tool context _ _ _) w) as [Hf Hm].
  unfold after in Hf, Hm.
  unfold BaseTool.execute, mbind, M_bind, bind, tryCatch, DateNow, gets.
  destruct (CircuitBreaker.execute (className tool)
              (executeWithRetry tool context) w) as [[v|e] w1] eqn:E;
    simpl in *.
  - eexists _, _. split; [reflexivity|]. simpl.
    split; [eauto|]. split; [exact Hf|]. split.
    + rewrite Hm. now rewrite <- app_assoc.
    + intros g Hg _. f_equal.
      destruct (breaker_value _ _ _ _ _ E) as [w0 Hv].
      rewrite (pure_tool_value tool context g w0 Hg) in Hv. congruence.
  - eexists _, _. split; [reflexivity|]. simpl.
    split; [reflexivity|]. split; [exact Hf|]. split.
    + now rewrite Hm.
    + intros g _ Hok. discriminate.
Qed.


(** * One iteration of the plan loop *)

Section StepFacts.
Import Orchestrator.
Variables (startTime : Z) (run : string) (streaming : bool).
Let callback := callbackOf streaming.

Lemma streamEvent_eq ev w :
  streamEvent callback ev w = (Ok tt, emit streaming ev w).
Proof. subst callback. destruct streaming; reflexivity. Qed.

(** Storing a well-formed result never throws and leaves the world
    alone. *)
Lemma storeResult_eq stepName result f :
  (if ok result then is_Some (data result) else data result = None) ->
  storeResult stepName result f
  = (Ok tt, mkFrame (world f) (vars (after (storeResult stepName result) f))).
Proof.
  intros Hwf. unfold after, storeResult.
  destruct (ok result).
  - destruct Hwf as [d Hd]. rewrite Hd. rewrite !andb_true_r.
    repeat (match goal with
            | |- context [if ?b then _ else _] => destruct b
            end; try (destruct f; reflexivity)).
    destruct d; destruct f; reflexivity.
  - rewrite !andb_false_r. destruct f; reflexivity.
Qed.

(** Past the budget the iteration leaves the loop and nothing happens. *)
Lemma stepBody_budget stepName tool stepStartTime f :
  flowBudget < clock (world f) - startTime ->
  stepBody startTime run callback stepName tool stepStartTime f = (Ok true, f).
Proof.
  intros Hover. unfold stepBody, tryCatch, mbind, M_bind, bind, liftW,
    DateNow, gets. simpl.
  destruct (Z.ltb_spec flowBudget (clock (world f) - startTime)); [|lia].
  destruct f; reflexivity.
Qed.

(** Within the budget the tool is executed and the iteration ends in the
    frame [settled] describes; the loop goes on. *)
Lemma stepBody_run stepName tool stepStartTime f result w2 :
  clock (world f) - startTime <= flowBudget ->
  BaseTool.execute tool (vContext (vars f))
    (emit streaming (ToolUpdate stepName Running None run) (world f))
  = (Ok result, w2) ->
  (if ok result then is_Some (data result) else data result = None) ->
  stepBody startTime run callback stepName tool stepStartTime f
  = (Ok false,
     settled streaming run stepName stepStartTime result (mkFrame w2 (vars f))).
Proof.
  intros Hin Hexec Hwf.
  unfold stepBody. unfold tryCatch at 1.
  unfold mbind at 1, M_bind at 1, bind at 1.
  unfold liftW at 1, DateNow, gets. cbn [world vars].
  destruct (Z.ltb_spec flowBudget (clock (world f) - startTime)); [lia|].
  unfold mbind at 1, M_bind at 1, bind at 1.
  unfold liftW at 1. rewrite streamEvent_eq. cbn [world vars].
  unfold mbind at 1, M_bind at 1, bind at 1. unfold getsV at 1, gets at 1.
  cbn [world vars].
  unfold mbind at 1, M_bind at 1, bind at 1.
  unfold liftW at 1. cbn [world vars]. rewrite Hexec.
  unfold mbind at 1, M_bind at 1, bind at 1.
  unfold liftW at 1, gets. cbn [world vars].
  unfold mbind at 1, M_bind at 1, bind at 1.
  rewrite (storeResult_eq stepName result _ Hwf).
  unfold settled. cbn [world vars].
  set (v1 := vars (after (storeResult stepName result) (mkFrame w2 (vars f)))).
  cbv beta iota zeta delta
    [mbind M_bind bind assign modify getsV gets liftW agentTraceCreate
     dbCall elapse mret M_ret ret throw metricsInc world vars detail
     traceRunId seq traceStep].
  destruct (dbFault (oracle w2) _) as [e|].
  - reflexivity.
  - destruct (ok result); cbn [negb].
    + rewrite streamEvent_eq. reflexivity.
    + rewrite streamEvent_eq.
      destruct (String.eqb stepName "riskSignals"); reflexivity.
Qed.

(** The shape of every iteration over a registered step, and a rule for
    reasoning about the whole loop: [P] holds at the head of the loop for
    the steps still to come, [Q] once the loop is left. *)
Lemma forEachStep_rule (P : list string -> Frame -> Prop) (Q : Frame -> Prop) :
  (forall f, P [] f -> Q f) ->
  (forall s rest f, P (s :: rest) f -> tools !! s = None -> P rest f) ->
  (forall s rest f tool,
     P (s :: rest) f -> tools !! s = Some tool ->
     flowBudget < clock (world f) - startTime -> Q f) ->
  (forall s rest f tool result w2,
     P (s :: rest) f -> tools !! s = Some tool ->
     clock (world f) - startTime <= flowBudget ->
     BaseTool.execute tool (vContext (vars f))
       (emit streaming (ToolUpdate s Running None run) (world f))
     = (Ok result, w2) ->
     P rest (settled streaming run s (clock (world f)) result
                     (mkFrame w2 (vars f)))) ->
  forall remaining f,
    P remaining f ->
    exists f', forEachStep startTime run callback remaining f = (Ok tt, f')
               /\ Q f'.
Proof.
  intros Hnil Hskip Hbreak Hstep.
  induction remaining as [|s rest IH]; intros f HP.
  - exists f. split; [reflexivity | auto].
  - cbn [forEachStep]. unfold mbind at 1, M_bind at 1, bind at 1.
    unfold liftW at 1, DateNow, gets.
    replace (mkFrame (world f) (vars f)) with f by now destruct f.
    destruct (tools !! s) as [tool|] eqn:Htool.
    + destruct (Z.lt_ge_cases flowBudget (clock (world f) - startTime))
        as [Hover | Hin].
      * rewrite (bind_ok _ _ _ _ _ (stepBody_budget s tool _ f Hover)).
        exists f. split; [reflexivity | eauto].
      * destruct (execute_spec tool (vContext (vars f))
                    (emit streaming (ToolUpdate s Running None run) (world f)))
          as (result & w2 & Hexec & Hwf & _).
        rewrite (bind_ok _ _ _ _ _
                   (stepBody_run s tool _ f result w2 Hin Hexec Hwf)).
        apply IH. eapply Hstep; eauto.
    + apply IH. eauto.
Qed.
End StepFacts.


(** * The run as a whole *)

Section RunFacts.
Import Orchestrator.
Variables (streaming : bool).
Let callback := callbackOf streaming.

Lemma dbCall_eq op w :
  dbCall op w
  = (match dbFault (oracle w) op with
     | Some e => Throw e
     | None => Ok tt
     end,
     setClock (clock w + dbLatency (oracle w) op) w).
Proof.
  unfold dbCall, mbind, M_bind, bind, gets, elapse, modify. simpl.
  destruct (dbFault (oracle w) op); reflexivity.
Qed.

Lemma alertFindUnique_frame id w :
  bookkeepingFrame w (after (alertFindUnique id) w).
Proof.
  unfold after, alertFindUnique, mbind, M_bind, bind. rewrite dbCall_eq.
  destruct (dbFault (oracle w) (AlertFindUnique id)); repeat split.
Qed.

Lemma triageRunCreate_frame row w :
  bookkeepingFrame w (after (triageRunCreate row) w).
Proof.
  unfold after, triageRunCreate, mbind, M_bind, bind. rewrite dbCall_eq.
  destruct (dbFault (oracle w) (TriageRunCreate (rowId row))); repeat split.
Qed.

Lemma bookkeepingFrame_trans a b c :
  bookkeepingFrame a b -> bookkeepingFrame b c -> bookkeepingFrame a c.
Proof.
  intros (A1 & A2 & A3 & A4 & A5) (B1 & B2 & B3 & B4 & B5).
  repeat split; congruence.
Qed.

(** Either the run stops before the plan (alert lookup or run creation
    rejects, or there is no such alert) having touched neither the trace
    table, nor the metrics, nor the stream; or it enters the loop right
    after "plan built" and ends with [finalize]. *)
Lemma executeTriage_cases alertIdArg w :
  (exists e w',
      executeTriage alertIdArg callback w = (Throw e, w')
      /\ bookkeepingFrame w w')
  \/ (exists run alertRow w1 f',
        bookkeepingFrame w w1
        /\ forEachStep (clock w) run callback defaultPlan
             (mkFrame (emit streaming (PlanBuilt defaultPlan run) w1)
                      (initialLocals (contextFor alertIdArg run alertRow)))
           = (Ok tt, f')
        /\ executeTriage alertIdArg callback w
           = finalize (clock w) run callback defaultPlan (vars f') (world f')).
Proof.
  subst callback.
  set (run := nanoid (oracle w) (idsDrawn w)).
  set (wa := setIdsDrawn (S (idsDrawn w)) w).
  assert (Hstart : forall k : Z -> string -> M World TriageResult,
            ((startTime ← DateNow; r ← newRunId; k startTime r) w)
            = k (clock w) run wa) by reflexivity.
  unfold executeTriage. rewrite !Hstart. clear Hstart.
  assert (Ha : bookkeepingFrame w wa) by (repeat split).
  pose proof (alertFindUnique_frame alertIdArg wa) as Hb. unfold after in Hb.
  destruct (alertFindUnique alertIdArg wa) as [[found|e] wb] eqn:Ef;
    simpl in Hb.
  2: { left. exists e, wb. rewrite (bind_throw _ _ _ _ _ Ef).
       split; [reflexivity | exact (bookkeepingFrame_trans _ _ _ Ha Hb)]. }
  rewrite !(bind_ok _ _ _ _ _ Ef).
  destruct found as [alertRow|].
  2: { left. eexists _, _. split; [reflexivity|].
       exact (bookkeepingFrame_trans _ _ _ Ha Hb). }
  assert (Hnow : DateNow wb = (Ok (clock wb), wb)) by reflexivity.
  rewrite !(bind_ok _ _ _ _ _ Hnow). clear Hnow.
  set (row := mkRunRow run alertIdArg (clock wb)).
  pose proof (triageRunCreate_frame row wb) as Hc. unfold after in Hc.
  destruct (triageRunCreate row wb) as [[[]|e] wc] eqn:Ec; simpl in Hc.
  2: { left. exists e, wc. rewrite (bind_throw _ _ _ _ _ Ec).
       split; [reflexivity|].
       exact (bookkeepingFrame_trans _ _ _
                (bookkeepingFrame_trans _ _ _ Ha Hb) Hc). }
  rewrite !(bind_ok _ _ _ _ _ Ec).
  rewrite !(bind_ok _ _ _ _ _ (streamEvent_eq streaming _ wc)).
  fold (contextFor alertIdArg run alertRow).
  destruct (forEachStep_rule (clock w) run streaming
              (fun _ _ => True) (fun _ => True)
              ltac:(auto) ltac:(auto) ltac:(auto) ltac:(auto)
              defaultPlan
              (mkFrame (emit streaming (PlanBuilt defaultPlan run) wc)
                       (initialLocals (contextFor alertIdArg run alertRow))) I)
    as (f' & Hloop & _).
  right. exists run, alertRow, wc, f'.
  split; [|split; [exact Hloop|]].
  - exact (bookkeepingFrame_trans _ _ _
             (bookkeepingFrame_trans _ _ _ Ha Hb) Hc).
  - unfold mbind, M_bind, bind, withLocals. rewrite Hloop. reflexivity.
Qed.

Lemma finalize_eq startTime run planned v w :
  finalize startTime run callback planned v w
  = let op := TriageRunUpdate run in
    let w1 := setClock (clock w + dbLatency (oracle w) op) w in
    match dbFault (oracle w) op with
    | Some e => (Throw e, w1)
    | None =>
        let decision := decisionOf startTime (clock w) planned v in
        (Ok decision,
         emit streaming
           (DecisionFinalized (risk decision) (reasons decision)
                              (recommendedAction decision)
                              (latencyMs decision) run)
           (setRunUpdates
              (runUpdates w1
               ++ [mkRunUpdate run (clock w) (risk decision) (reasons decision)
                               (fallbackUsed decision) (latencyMs decision)])
              w1))
    end.
Proof.
  subst callback. unfold finalize, triageRunUpdate.
  cbv beta iota zeta delta [mbind M_bind bind DateNow gets modify mret M_ret ret].
  rewrite dbCall_eq. cbn [updId].
  destruct (dbFault (oracle w) (TriageRunUpdate run)); [reflexivity|].
  rewrite streamEvent_eq. reflexivity.
Qed.
End RunFacts.




(** * Facts about one settled iteration *)

Section SettledFacts.
Import Orchestrator.
Variables (streaming : bool) (run stepName : string) (stepStartTime : Z)
          (result : ToolResult) (f2 : Frame).

Let v1 := vars (after (storeResult stepName result) f2).

Lemma stored_facts :
  vFallbackUsed v1 = vFallbackUsed (vars f2)
  /\ vSteps v1 = vSteps (vars f2)
  /\ vRiskResult v1
     = (if String.eqb stepName "riskSignals" && ok result
        then data result else vRiskResult (vars f2))
  /\ vProposalResult v1
     = (if String.eqb stepName "proposeAction" && ok result
        then data result else vProposalResult (vars f2)).
Proof.
  subst v1. unfold after, storeResult.
  destruct (ok result); rewrite ?andb_true_r, ?andb_false_r.
  2: { repeat split. }
  destruct (String.eqb_spec stepName "dataAccess") as [->|_].
  { destruct (data result) as [[]|]; repeat split. }
  destruct (String.eqb_spec stepName "insights") as [->|_]; [repeat split|].
  destruct (String.eqb_spec stepName "riskSignals") as [->|_]; [repeat split|].
  destruct (String.eqb_spec stepName "kbLookup") as [->|_]; [repeat split|].
  destruct (String.eqb_spec stepName "compliance") as [->|_]; [repeat split|].
  destruct (String.eqb_spec stepName "redactor") as [->|_]; [repeat split|].
  destruct (String.eqb_spec stepName "proposeAction") as [->|_]; repeat split.
Qed.

(** The three ways an iteration can settle: the trace write is rejected
    and the [catch] block records a failed step; the tool succeeded and
    its trace is written; the tool failed, its trace is written and the
    fallback is triggered. *)
Lemma settled_cases :
  let F := settled streaming run stepName stepStartTime result f2 in
  let w2 := world f2 in
  let duration := clock w2 - stepStartTime in
  let agentStep :=
    mkStep stepName (ok result) duration (detailOf result) (negb (ok result)) in
  let n := length (vSteps (pushStep agentStep v1)) in
  let op := AgentTraceCreate run n stepName in
  let row := mkTraceRow run n stepName (ok result) duration (detailOf result) in
  let w3 := setClock (clock w2 + dbLatency (oracle w2) op) w2 in
  let w4 := setAgentTraces (agentTraces w3 ++ [row]) w3 in
  (exists e,
      dbFault (oracle w2) op = Some e
      /\ world F = w3
      /\ vars F = pushStep (mkStep stepName false (clock w3 - stepStartTime)
                                   (DetailError (Some (message e))) true)
                           (setFallbackUsed true (pushStep agentStep v1)))
  \/ (dbFault (oracle w2) op = None /\ ok result = true
      /\ world F = emit streaming
                     (ToolUpdate stepName CompletedStatus (Some duration) run) w4
      /\ vars F = pushStep agentStep v1)
  \/ (dbFault (oracle w2) op = None /\ ok result = false
      /\ world F = emit streaming
                     (FallbackTriggered stepName (error result) run)
                     (setMetricLog (metricLog w4 ++ [AgentFallbackTotal stepName]) w4)
      /\ vars F = (if String.eqb stepName "riskSignals"
                   then setRiskResult (Some getFallbackRisk) None else id)
                    (setFallbackUsed true (pushStep agentStep v1))).
Proof.
  cbv zeta. unfold settled. fold v1.
  destruct (dbFault (oracle (world f2)) _) as [e|].
  - left. exists e. repeat split.
  - destruct (ok result).
    + right. left. repeat split.
    + right. right. repeat split.
Qed.
End SettledFacts.

(** The registry: which class serves which step. *)
Lemma tools_known stepName tool :
  Orchestrator.tools !! stepName = Some tool ->
  (stepName, tool) ∈
    [ ("dataAccess", mkTool "DataAccessAgent" External);
      ("insights", mkTool "InsightsAgent" External);
      ("riskSignals", mkTool "FraudAgent" External);
      ("kbLookup", mkTool "KnowledgeBaseAgent" External);
      ("compliance", mkTool "ComplianceAgent" External);
      ("redactor", mkTool "RedactorAgent" External);
      ("summarizer", mkTool "SummarizerAgent" External);
      ("decide", mkTool "DecisionTool" (Pure DecisionTool_run));
      ("proposeAction", mkTool "ProposeActionTool" (Pure ProposeActionTool_run)) ].
Proof. apply elem_of_list_to_map_2. Qed.

Lemma fraud_agent_step stepName tool :
  Orchestrator.tools !! stepName = Some tool ->
  className tool = "FraudAgent" <-> stepName = "riskSignals".
Proof.
  intros H. apply tools_known in H.
  repeat (apply elem_of_cons in H as [H|H];
          [injection H as -> ->; simpl; split; intros; congruence|]).
  inversion H.
Qed.

Lemma propose_action_tool tool :
  Orchestrator.tools !! "proposeAction" = Some tool ->
  body tool = Pure ProposeActionTool_run.
Proof.
  intros H. apply tools_known in H.
  repeat (apply elem_of_cons in H as [H|H];
          [inversion H; subst; reflexivity|]).
  inversion H.
Qed.

Lemma ProposeActionTool_action context :
  exists a c r b,
    ProposeActionTool_run context = ProposalData a c r b
    /\ isDefinedAction a = true.
Proof.
  unfold ProposeActionTool_run.
  destruct (isDefinedAction _) eqn:E; eauto 10.
Qed.


(** * Fallback on a failed risk step *)

Lemma emit_frame streaming ev w :
  metricLog (emit streaming ev w) = metricLog w
  /\ oracle (emit streaming ev w) = oracle w
  /\ agentTraces (emit streaming ev w) = agentTraces w
  /\ clock (emit streaming ev w) = clock w
  /\ wire (emit streaming ev w) = wire w ++ (if streaming then [ev] else []).
Proof. destruct streaming; simpl; rewrite ?app_nil_r; repeat split. Qed.

Section RiskFallback.
Import Orchestrator.
Variables (streaming : bool) (startTime : Z) (run : string)
          (base : list Metric) (env : Oracle).

Let failedSample := ToolCallTotal "FraudAgent" false.

Let proposalFromTool (v : Locals) : Prop :=
  vProposalResult v = None
  \/ exists context, vProposalResult v = Some (ProposeActionTool_run context).

Let fellBack (v : Locals) : Prop :=
  vFallbackUsed v = true
  /\ (vRiskResult v = None \/ vRiskResult v = Some getFallbackRisk).

(** At the head of the loop: as long as the risk step is still to come,
    no failed FraudAgent call is on record and no risk result is stored;
    afterwards, a failed call implies that the fallback is in place. *)
Let atHead (remaining : list string) (f : Frame) : Prop :=
  NoDup remaining
  /\ oracle (world f) = env
  /\ proposalFromTool (vars f)
  /\ exists ms,
      metricLog (world f) = base ++ ms
      /\ (("riskSignals" ∈ remaining /\ ~ In failedSample ms
           /\ vRiskResult (vars f) = None)
          \/ (("riskSignals" ∉ remaining)
              /\ (In failedSample ms -> fellBack (vars f)))).

Let atExit (f : Frame) : Prop :=
  oracle (world f) = env
  /\ proposalFromTool (vars f)
  /\ exists ms,
      metricLog (world f) = base ++ ms
      /\ (In failedSample ms -> fellBack (vars f)).

Lemma risk_step_preserved s rest f tool result w2 :
  atHead (s :: rest) f ->
  tools !! s = Some tool ->
  BaseTool.execute tool (vContext (vars f))
    (emit streaming (ToolUpdate s Running None run) (world f))
  = (Ok result, w2) ->
  atHead rest (settled streaming run s (clock (world f)) result
                       (mkFrame w2 (vars f))).
Proof.
  intros (Hnd & Henv & Hprop & ms & Hms & Hrisk) Htool Hexec.
  destruct (execute_spec tool (vContext (vars f))
              (emit streaming (ToolUpdate s Running None run) (world f)))
    as (r' & w2' & E & Hwf & (_ & _ & _ & _ & _ & _ & _ & Horacle) & Hmetrics & Hpure).
  rewrite Hexec in E. injection E as <- <-.
  destruct (emit_frame streaming (ToolUpdate s Running None run) (world f))
    as (Em & Eo & _).
  rewrite Em, Hms in Hmetrics. rewrite Eo, Henv in Horacle.
  apply NoDup_cons in Hnd as [Hnotin Hnd'].
  destruct (stored_facts s result (mkFrame w2 (vars f)))
    as (Sfb & _ & Srisk & Sprop).
  cbn [vars] in Sfb, Srisk, Sprop.
  set (v1 := vars (after (storeResult s result) (mkFrame w2 (vars f)))) in *.
  set (F := settled streaming run s (clock (world f)) result (mkFrame w2 (vars f))).
  (* the locals and the samples of the settled frame *)
  assert (HF : exists extra,
             metricLog (world F)
             = base ++ (ms ++ (if ok result
                               then [ToolCallTotal (className tool) true;
                                     AgentLatency (className tool) "execute"
                                                  (duration result)]
                               else [ToolCallTotal (className tool) false])
                           ++ extra)
             /\ ~ In failedSample extra
             /\ oracle (world F) = oracle w2
             /\ vProposalResult (vars F) = vProposalResult v1
             /\ ((ok result = true /\ vRiskResult (vars F) = vRiskResult v1
                  /\ (vFallbackUsed (vars F) = true
                      \/ vFallbackUsed (vars F) = vFallbackUsed v1))
                 \/ (ok result = false /\ vFallbackUsed (vars F) = true
                     /\ (vRiskResult (vars F) = vRiskResult v1
                         \/ (s = "riskSignals"
                             /\ vRiskResult (vars F) = Some getFallbackRisk))))).
  { destruct (settled_cases streaming run s (clock (world f)) result
                (mkFrame w2 (vars f)))
      as [(e & _ & HW & HV) | [(_ & Hok & HW & HV) | (_ & Hok & HW & HV)]];
      fold F in HW, HV; fold v1 in HV; cbn [world vars] in HW.
    - exists []. rewrite HW, HV. cbn [metricLog setClock]. rewrite Hmetrics.
      rewrite app_nil_r, <- app_assoc.
      split; [reflexivity|]. split; [auto|]. split; [reflexivity|].
      split; [reflexivity|].
      destruct (ok result); [left | right]; auto.
    - exists []. rewrite HW, HV.
      match goal with
      | |- context [emit streaming ?ev ?w] =>
          destruct (emit_frame streaming ev w) as (-> & -> & _)
      end.
      cbn [metricLog oracle setAgentTraces setClock]. rewrite Hmetrics.
      rewrite app_nil_r, <- app_assoc.
      split; [reflexivity|]. split; [auto|]. split; [reflexivity|].
      split; [reflexivity|].
      left. rewrite Hok. auto.
    - exists [AgentFallbackTotal s]. rewrite HW, HV.
      match goal with
      | |- context [emit streaming ?ev ?w] =>
          destruct (emit_frame streaming ev w) as (-> & -> & _)
      end.
      cbn [metricLog oracle setMetricLog setAgentTraces setClock].
      rewrite Hmetrics. rewrite <- !app_assoc.
      split; [reflexivity|].
      split; [intros [H|[]]; discriminate H|].
      split; [reflexivity|].
      split; [now destruct (String.eqb s "riskSignals")|].
      right. rewrite Hok. split; [reflexivity|].
      destruct (String.eqb_spec s "riskSignals") as [->|Hne].
      + split; [reflexivity|]. right. split; reflexivity.
      + split; [reflexivity|]. left. reflexivity. }
  destruct HF as (extra & HM & Hextra & HO & HP & HR).
  split; [exact Hnd'|]. split; [congruence|]. split.
  - (* the proposal *)
    unfold proposalFromTool. rewrite HP, Sprop.
    destruct (String.eqb_spec s "proposeAction") as [->|_]; [|exact Hprop].
    destruct (ok result) eqn:Hok; [|exact Hprop]. simpl.
    right. exists (vContext (vars f)).
    apply (Hpure _ (propose_action_tool tool Htool) eq_refl).
  - (* the risk result *)
    eexists. split; [exact HM|].
    assert (Hsample : In failedSample
                        (ms ++ (if ok result
                                then [ToolCallTotal (className tool) true;
                                      AgentLatency (className tool) "execute"
                                                   (duration result)]
                                else [ToolCallTotal (className tool) false])
                            ++ extra)
                      <-> In failedSample ms
                          \/ (ok result = false /\ s = "riskSignals")).
    { rewrite !in_app_iff. pose proof (fraud_agent_step s tool Htool) as Hcls.
      subst failedSample. destruct (ok result); simpl.
      - split; [intros [H|[[H|[H|[]]]|H]]; try discriminate H; tauto
               | intros [H|[H _]]; [tauto | discriminate H]].
      - split.
        + intros [H|[[H|[]]|H]]; [tauto | | tauto].
          injection H as H. right. split; [reflexivity | now apply Hcls].
        + intros [H|[_ H]]; [tauto|].
          right. left. left. f_equal. now apply Hcls. }
    rewrite Hsample.
    destruct (String.eqb_spec s "riskSignals") as [->|Hne].
    + (* this is the risk step *)
      right. split; [exact Hnotin|].
      destruct Hrisk as [(_ & Hno & Hnone) | (Hnotin' & _)];
        [|exfalso; apply Hnotin'; left].
      intros [Hin | (Hfail & _)]; [contradiction|].
      destruct HR as [(Hok & _) | (_ & Hfb & Hrr)]; [congruence|].
      split; [exact Hfb|].
      destruct Hrr as [Hrr | (_ & Hrr)]; [|right; exact Hrr].
      left. rewrite Hrr, Srisk, Hfail. simpl. exact Hnone.
    + (* any other step *)
      assert (Hkeep : vRiskResult (vars F) = vRiskResult (vars f)).
      { destruct HR as [(_ & Hrr & _) | (_ & _ & [Hrr | (Heq & _)])];
          try contradiction; rewrite Hrr, Srisk;
          destruct (String.eqb_spec s "riskSignals"); try contradiction;
          reflexivity. }
      assert (Hmono : vFallbackUsed (vars f) = true ->
                      vFallbackUsed (vars F) = true).
      { intros Hf. destruct HR as [(_ & _ & [H | H]) | (_ & H & _)];
          congruence. }
      destruct Hrisk as [(Hin & Hno & Hnone) | (Hnotin' & Himp)].
      * left. split; [|split].
        -- apply elem_of_cons in Hin as [Heq | Hin]; [congruence | exact Hin].
        -- intros [H | (_ & H)]; [contradiction | congruence].
        -- now rewrite Hkeep.
      * right. split.
        -- intros Hin. apply Hnotin'. now right.
        -- intros [H | (_ & H)]; [|congruence].
           destruct (Himp H) as (Hf & Hr). split; [auto|].
           now rewrite Hkeep.
Qed.

Lemma risk_loop remaining f :
  atHead remaining f ->
  exists f', forEachStep startTime run (callbackOf streaming) remaining f
             = (Ok tt, f')
             /\ atExit f'.
Proof.
  apply (forEachStep_rule startTime run streaming atHead atExit).
  - intros f0 (_ & Henv & Hprop & ms & Hms & [(Hin & _) | (_ & Himp)]).
    + inversion Hin.
    + split; [exact Henv|]. split; [exact Hprop|]. eauto.
  - intros s rest f0 (Hnd & Henv & Hprop & ms & Hms & Hrisk) Hnone.
    apply NoDup_cons in Hnd as [Hnotin Hnd'].
    split; [exact Hnd'|]. split; [exact Henv|]. split; [exact Hprop|].
    exists ms. split; [exact Hms|].
    destruct Hrisk as [(Hin & Hno & Hnone') | (Hnotin' & Himp)].
    + left. split; [|auto].
      apply elem_of_cons in Hin as [<- | Hin]; [discriminate Hnone | exact Hin].
    + right. split; [|exact Himp]. intros Hin. apply Hnotin'. now right.
  - intros s rest f0 tool (_ & Henv & Hprop & ms & Hms & Hrisk) _ _.
    split; [exact Henv|]. split; [exact Hprop|].
    exists ms. split; [exact Hms|].
    destruct Hrisk as [(_ & Hno & _) | (_ & Himp)]; [contradiction | exact Himp].
  - intros s rest f0 tool result w2 Hhead Htool _ Hexec.
    eapply risk_step_preserved; eauto.
Qed.
End RiskFallback.

Lemma finalReasons_head v :
  Orchestrator.vRiskResult v = None
  \/ Orchestrator.vRiskResult v = Some Orchestrator.getFallbackRisk ->
  exists more, Orchestrator.finalReasons v = Orchestrator.fallbackReason :: more.
Proof.
  intros Hr. unfold Orchestrator.finalReasons.
  assert (H0 : default [Orchestrator.fallbackReason]
                 (Orchestrator.vRiskResult v ≫= reasonsOf)
               = [Orchestrator.fallbackReason])
    by (destruct Hr as [-> | ->]; reflexivity).
  rewrite H0.
  destruct (truthyBool (Orchestrator.vComplianceResult v ≫= requiresOTPOf)),
    (Orchestrator.vKbResults v ≫= docsOf) as [[|d ds]|],
    (Orchestrator.vInsightsResult v),
    (truthyBool (Orchestrator.vRedactorResult v ≫= piiFoundOf));
    simpl; eauto.
Qed.

Lemma finalAction_defined v :
  (Orchestrator.vProposalResult v = None
   \/ exists context,
       Orchestrator.vProposalResult v = Some (ProposeActionTool_run context)) ->
  Orchestrator.vRiskResult v = None
  \/ Orchestrator.vRiskResult v = Some Orchestrator.getFallbackRisk ->
  isDefinedAction (Orchestrator.finalAction v) = true.
Proof.
  intros Hp Hr. unfold Orchestrator.finalAction.
  assert (Hrisk : isDefinedAction
                    (orElse (Orchestrator.vRiskResult v ≫= actionOf)
                            "contact_customer") = true)
    by (destruct Hr as [-> | ->]; reflexivity).
  destruct Hp as [-> | (context & ->)]; [exact Hrisk|].
  destruct (ProposeActionTool_action context) as (a & c & r & b & -> & Ha).
  cbn [mbind option_bind actionOf]. unfold orElse at 1, truthyStr at 1.
  destruct (negb (a =? "")%string); [exact Ha | exact Hrisk].
Qed.

(** C2. In every run in which the risk-detection step was executed and
    its [ToolResult] had [ok = false], and whose final update the store
    accepts, [executeTriage] returns a decision: [fallbackUsed] is true, the
    risk is medium, the first reason is 'Risk assessment unavailable
    (fallback)', and the recommended action is one of the four defined
    actions. *)
Theorem failed_risk_step_yields_fallback_decision :
  forall (alertIdArg : string) (streaming : bool) (w : World),
    let callback := callbackOf streaming in
    riskStepFailed w (after (Orchestrator.executeTriage alertIdArg callback) w) ->
    (forall run, dbFault (oracle w) (TriageRunUpdate run) = None) ->
    exists decision : TriageResult,
      outcome (Orchestrator.executeTriage alertIdArg callback) w = Ok decision
      /\ fallbackUsed decision = true
      /\ risk decision = MEDIUM
      /\ (exists more, reasons decision = Orchestrator.fallbackReason :: more)
      /\ isDefinedAction (recommendedAction decision) = true.
Proof.
  intros alertIdArg streaming w callback Hfailed Hstore.
  unfold riskStepFailed, metricsSince, after, outcome in *.
  destruct (executeTriage_cases streaming alertIdArg w)
    as [(e & w' & E & (Hm & _)) | (run & alertRow & w1 & f' & Hframe & Hloop & E)];
    fold callback in E; rewrite E in *.
  - (* the run never reached the plan: no tool was executed *)
    simpl in Hfailed. rewrite Hm, drop_all in Hfailed. destruct Hfailed.
  - destruct Hframe as (Hm & _ & _ & _ & Ho).
    destruct (risk_loop streaming (clock w) run (metricLog w) (oracle w)
                Orchestrator.defaultPlan
                (Orchestrator.mkFrame
                   (emit streaming (PlanBuilt Orchestrator.defaultPlan run) w1)
                   (Orchestrator.initialLocals (contextFor alertIdArg run alertRow))))
      as (f'' & Hloop' & Henv & Hprop & ms & Hms & Hfb).
    { split; [|split; [|split]].
      - apply (bool_decide_unpack _). vm_compute. exact I.
      - cbn [Orchestrator.world].
        destruct (emit_frame streaming (PlanBuilt Orchestrator.defaultPlan run) w1)
          as (_ & -> & _). exact Ho.
      - left. reflexivity.
      - exists []. cbn [Orchestrator.world].
        destruct (emit_frame streaming (PlanBuilt Orchestrator.defaultPlan run) w1)
          as (-> & _). rewrite app_nil_r. split; [exact Hm|].
        left. split; [|split; [intros []|reflexivity]].
        apply (bool_decide_unpack _). vm_compute. exact I. }
    rewrite Hloop in Hloop'. injection Hloop' as <-.
    subst callback. rewrite finalize_eq in *. cbv zeta in *.
    rewrite Henv, Hstore in *. cbn [fst snd] in *.
    assert (Hsince : In (ToolCallTotal "FraudAgent" false) ms).
    { match type of Hfailed with
      | context [emit streaming ?ev ?w0] =>
          destruct (emit_frame streaming ev w0) as (Em & _); rewrite Em in Hfailed
      end.
      cbn [metricLog setRunUpdates setClock] in Hfailed.
      now rewrite Hms, drop_app_length in Hfailed. }
    destruct (Hfb Hsince) as (Hused & Hrisk).
    eexists. split; [reflexivity|]. unfold decisionOf. cbn [fallbackUsed risk reasons recommendedAction].
    split; [exact Hused|]. split; [|split].
    + unfold Orchestrator.finalRisk. now destruct Hrisk as [-> | ->].
    + now apply finalReasons_head.
    + now apply finalAction_defined.
Qed.


(** * Persisted traces and attempted steps *)

Lemma toolCalls_app a b : toolCalls (a ++ b) = (toolCalls a + toolCalls b)%nat.
Proof. unfold toolCalls. now rewrite List.filter_app, length_app. Qed.

Section TraceCount.
Import Orchestrator.
Variables (streaming : bool) (startTime : Z) (run : string)
          (baseT : list AgentTraceRow) (baseM : list Metric) (env : Oracle)
          (total : nat).

Let storeAccepts : Prop :=
  forall r n s, dbFault env (AgentTraceCreate r n s) = None.

Let counted (room : nat) (f : Frame) : Prop :=
  oracle (world f) = env
  /\ exists ts ms,
      agentTraces (world f) = baseT ++ ts
      /\ metricLog (world f) = baseM ++ ms
      /\ (length ts <= toolCalls ms)%nat
      /\ (toolCalls ms + room <= total)%nat
      /\ (storeAccepts -> length ts = toolCalls ms).

Lemma count_step_preserved s rest f tool result w2 :
  counted (length (s :: rest)) f ->
  BaseTool.execute tool (vContext (vars f))
    (emit streaming (ToolUpdate s Running None run) (world f))
  = (Ok result, w2) ->
  counted (length rest)
    (settled streaming run s (clock (world f)) result (mkFrame w2 (vars f))).
Proof.
  intros (Henv & ts & ms & HT & HM & Hle & Hroom & Heq) Hexec.
  destruct (execute_spec tool (vContext (vars f))
              (emit streaming (ToolUpdate s Running None run) (world f)))
    as (r' & w2' & E & _ & (_ & _ & Htr & _ & _ & _ & _ & Horacle) & Hmetrics & _).
  rewrite Hexec in E. injection E as <- <-.
  destruct (emit_frame streaming (ToolUpdate s Running None run) (world f))
    as (Em & Eo & Et & _).
  rewrite Em, HM in Hmetrics. rewrite Eo, Henv in Horacle.
  rewrite Et, HT in Htr.
  set (tcs := if ok result
              then [ToolCallTotal (className tool) true;
                    AgentLatency (className tool) "execute" (duration result)]
              else [ToolCallTotal (className tool) false]) in *.
  assert (Htcs : toolCalls tcs = 1%nat) by (subst tcs; now destruct (ok result)).
  cbn [length] in Hroom. unfold counted.
  destruct (settled_cases streaming run s (clock (world f)) result
              (mkFrame w2 (vars f)))
    as [(e & Hfault & HW & _) | [(_ & _ & HW & _) | (_ & _ & HW & _)]];
    cbn [world vars] in HW; rewrite HW.
  - cbn [world vars] in Hfault.
    split; [exact Horacle|]. exists ts, (ms ++ tcs).
    cbn [agentTraces metricLog setClock].
    rewrite Htr, Hmetrics, <- app_assoc, toolCalls_app, Htcs.
    repeat split; try lia.
    intros Hacc. rewrite Horacle, Hacc in Hfault. discriminate.
  - match goal with
    | |- context [emit streaming ?ev ?w0] =>
        destruct (emit_frame streaming ev w0) as (Em' & Eo' & Et' & _)
    end.
    split; [rewrite Eo'; exact Horacle|]. eexists (ts ++ [_]), (ms ++ tcs).
    rewrite Et', Em'. cbn [agentTraces metricLog setAgentTraces setClock].
    rewrite Htr, Hmetrics, <- !app_assoc, toolCalls_app, Htcs, length_app.
    cbn [length]. repeat split; try lia.
    intros Hacc. specialize (Heq Hacc). lia.
  - match goal with
    | |- context [emit streaming ?ev ?w0] =>
        destruct (emit_frame streaming ev w0) as (Em' & Eo' & Et' & _)
    end.
    split; [rewrite Eo'; exact Horacle|].
    eexists (ts ++ [_]), (ms ++ tcs ++ [AgentFallbackTotal s]).
    rewrite Et', Em'.
    cbn [agentTraces metricLog setMetricLog setAgentTraces setClock].
    rewrite Htr, Hmetrics, <- !app_assoc, !toolCalls_app, Htcs, length_app.
    cbn [length]. change (toolCalls [AgentFallbackTotal s]) with 0%nat.
    repeat split; try lia.
    intros Hacc. specialize (Heq Hacc). lia.
Qed.

Lemma count_loop remaining f :
  counted (length remaining) f ->
  exists f', forEachStep startTime run (callbackOf streaming) remaining f
             = (Ok tt, f')
             /\ counted 0 f'.
Proof.
  apply (forEachStep_rule startTime run streaming
           (fun remaining f => counted (length remaining) f) (counted 0)).
  - auto.
  - intros s rest f0 (Henv & ts & ms & HT & HM & Hle & Hroom & Heq) _.
    split; [exact Henv|]. exists ts, ms. cbn [length] in Hroom.
    repeat split; auto; lia.
  - intros s rest f0 tool (Henv & ts & ms & HT & HM & Hle & Hroom & Heq) _ _.
    split; [exact Henv|]. exists ts, ms. repeat split; auto; lia.
  - intros s rest f0 tool result w2 Hhead _ _ Hexec.
    eapply count_step_preserved; eauto.
Qed.
End TraceCount.

(** C4, as the code has it.  In every run of [executeTriage] the trace rows
    written by [agentTrace.create] are at most as many as the plan steps
    attempted (one [tool_call_total] sample per executed tool), and these
    are at most as many as the plan is long (5).  When the store accepts
    every trace write of the run, the two numbers are equal, failed steps
    included. *)
Theorem traces_match_attempted_steps :
  forall (alertIdArg : string) (streaming : bool) (w : World),
    let w' := after (Orchestrator.executeTriage alertIdArg (callbackOf streaming)) w in
    exists (ts : list AgentTraceRow) (ms : list Metric),
      agentTraces w' = agentTraces w ++ ts
      /\ metricLog w' = metricLog w ++ ms
      /\ (length ts <= toolCalls ms)%nat
      /\ (toolCalls ms <= length Orchestrator.defaultPlan)%nat
      /\ ((forall r n s, dbFault (oracle w) (AgentTraceCreate r n s) = None) ->
          length ts = toolCalls ms).
Proof.
  intros alertIdArg streaming w w'. subst w'. unfold after.
  destruct (executeTriage_cases streaming alertIdArg w)
    as [(e & w' & E & (Hm & Ht & _)) | (run & alertRow & w1 & f' & Hframe & Hloop & E)];
    rewrite E.
  - exists [], []. cbn [snd]. rewrite Hm, Ht, !app_nil_r.
    repeat split; unfold toolCalls, Orchestrator.defaultPlan; simpl; intros; lia.
  - destruct Hframe as (Hm & Ht & _ & _ & Ho).
    destruct (count_loop streaming (clock w) run (agentTraces w) (metricLog w)
                (oracle w) (length Orchestrator.defaultPlan)
                Orchestrator.defaultPlan
                (Orchestrator.mkFrame
                   (emit streaming (PlanBuilt Orchestrator.defaultPlan run) w1)
                   (Orchestrator.initialLocals (contextFor alertIdArg run alertRow))))
      as (f'' & Hloop' & Henv & ts & ms & HT & HM & Hle & Hroom & Heq).
    { cbn [Orchestrator.world].
      destruct (emit_frame streaming (PlanBuilt Orchestrator.defaultPlan run) w1)
        as (-> & -> & -> & _).
      split; [exact Ho|]. exists [], [].
      rewrite !app_nil_r. repeat split; auto. }
    rewrite Hloop in Hloop'. injection Hloop' as <-.
    exists ts, ms. rewrite finalize_eq. cbv zeta.

    destruct (dbFault (oracle (Orchestrator.world f')) (TriageRunUpdate run));
      cbn [snd].
    + cbn [agentTraces metricLog setClock].
      repeat split; auto; lia.
    + match goal with
      | |- context [emit streaming ?ev ?w0] =>
          destruct (emit_frame streaming ev w0) as (-> & _ & -> & _)
      end.
      cbn [agentTraces metricLog setRunUpdates setClock].
      repeat split; auto; lia.
Qed.


(** * The event stream *)

Section StreamOrder.
Import Orchestrator.
Variables (startTime : Z) (run : string) (baseW : list Event)
          (planned : list string).

Let streamed (remaining : list string) (f : Frame) : Prop :=
  Forall (fun s => is_Some (tools !! s)) remaining
  /\ exists done groups,
      planned = done ++ remaining
      /\ wire (world f) = baseW ++ concat groups
      /\ Forall2 (stepGroup run) done groups.

Lemma stream_step_preserved s rest f tool result w2 :
  streamed (s :: rest) f ->
  BaseTool.execute tool (vContext (vars f))
    (emit true (ToolUpdate s Running None run) (world f))
  = (Ok result, w2) ->
  streamed rest (settled true run s (clock (world f)) result
                         (mkFrame w2 (vars f))).
Proof.
  intros (Hreg & done & groups & Hplan & Hwire & Hgroups) Hexec.
  destruct (execute_spec tool (vContext (vars f))
              (emit true (ToolUpdate s Running None run) (world f)))
    as (r' & w2' & E & _ & (_ & _ & _ & _ & _ & Hw & _) & _).
  rewrite Hexec in E. injection E as <- <-.
  cbn [emit wire setWire] in Hw. rewrite Hwire in Hw.
  apply Forall_cons in Hreg as [_ Hreg'].
  split; [exact Hreg'|].
  assert (Hgoal : exists g,
             stepGroup run s g
             /\ wire (world (settled true run s (clock (world f)) result
                                     (mkFrame w2 (vars f))))
                = baseW ++ concat (groups ++ [g])).
  { assert (Hfin : forall g w',
              wire w' = wire w2 ++ g ->
              wire w' = baseW ++ concat (groups ++ [ToolUpdate s Running None run :: g])).
    { intros g w' ->. rewrite Hw, concat_app. cbn [concat].
      now rewrite app_nil_r, <- !app_assoc. }
    destruct (settled_cases true run s (clock (world f)) result
                (mkFrame w2 (vars f)))
      as [(e & _ & HW & _) | [(_ & _ & HW & _) | (_ & _ & HW & _)]];
      cbn [world vars] in HW; rewrite HW.
    - eexists. split; [left; reflexivity|].
      apply Hfin. cbn [wire setClock]. now rewrite app_nil_r.
    - eexists. split; [right; left; eexists; reflexivity|].
      apply Hfin. reflexivity.
    - eexists. split; [right; right; eexists; reflexivity|].
      apply Hfin. reflexivity. }
  destruct Hgoal as (g & Hg & HW).
  exists (done ++ [s]), (groups ++ [g]).
  split; [now rewrite <- app_assoc|]. split; [exact HW|].
  apply Forall2_app; [exact Hgroups|]. now constructor.
Qed.

Lemma stream_loop remaining f :
  streamed remaining f ->
  exists f', forEachStep startTime run (callbackOf true) remaining f
             = (Ok tt, f')
             /\ exists body, wire (world f') = baseW ++ body
                             /\ inPlanOrder run planned body.
Proof.
  assert (Hexit : forall rest f0,
            streamed rest f0 ->
            exists body, wire (world f0) = baseW ++ body
                         /\ inPlanOrder run planned body).
  { intros rest f0 (_ & done & groups & Hplan & Hwire & Hgroups).
    exists (concat groups). split; [exact Hwire|].
    exists groups. split; [reflexivity|].
    rewrite Hplan, <- (Forall2_length _ _ _ Hgroups), take_app_length.
    exact Hgroups. }
  intros Hhead.
  destruct (forEachStep_rule startTime run true streamed
              (fun f0 => exists rest, streamed rest f0))
    with (remaining := remaining) (f := f) as (f' & Hrun & rest & Hpost).
  - eauto.
  - intros s rest f0 (Hreg & _) Hnone.
    apply Forall_cons in Hreg as [[t Ht] _]. congruence.
  - eauto.
  - intros s rest f0 tool result w2 Hh _ _ Hexec.
    eapply stream_step_preserved; eauto.
  - exact Hhead.
  - exists f'. split; [exact Hrun|]. eapply Hexit; eauto.
Qed.
End StreamOrder.

Ltac route_compute :=
  cbv beta iota zeta delta
    [mbind M_bind bind mret M_ret ret throw modify gets
     TriageRoute.resWrite TriageRoute.resEnd fst snd];
  cbn [wire wireEnded setWire setWireEnded].

(** C8. The SSE route always answers and always closes the stream, and the
    stream always ends with [decision_finalized] followed by [completed],
    or with an [error] event that carries a message.  After the route's
    own "connected" greeting, the events of a run come in order: first
    [plan_built], then the events of the executed steps, step by step in
    plan order, then [decision_finalized], then [completed]. *)
Theorem stream_ends_with_decision_or_error :
  forall (runIdParam : string) (alertIdQuery : option string) (w : World),
    let w' := after (TriageRoute.stream runIdParam alertIdQuery) w in
    outcome (TriageRoute.stream runIdParam alertIdQuery) w = Ok tt
    /\ wireEnded w' = true
    /\ exists evs,
        wire w' = wire w ++ Connected runIdParam :: evs
        /\ ((exists msg, evs = [ErrorEvent msg])
            \/ exists run body,
                inPlanOrder run Orchestrator.defaultPlan body
                /\ ((exists r rs act latency,
                        evs = PlanBuilt Orchestrator.defaultPlan run :: body
                              ++ [DecisionFinalized r rs act latency run; Completed])
                    \/ (exists msg,
                           evs = PlanBuilt Orchestrator.defaultPlan run :: body
                                 ++ [ErrorEvent msg]))).
Proof.
  intros runIdParam alertIdQuery w w'. subst w'.
  unfold outcome, after, TriageRoute.stream.
  set (wc := setWire (wire w ++ [Connected runIdParam]) w).
  assert (Hc : TriageRoute.resWrite (Connected runIdParam) w = (Ok tt, wc))
    by reflexivity.
  rewrite (bind_ok _ _ _ _ _ Hc).
  destruct (truthyStr alertIdQuery); cbn [negb].
  2: { route_compute. split; [reflexivity|]. split; [reflexivity|].
       eexists. subst wc. cbn [wire setWire]. rewrite <- app_assoc.
       split; [reflexivity|]. left. eauto. }
  change (Some TriageRoute.resWrite) with (callbackOf true).
  destruct (executeTriage_cases true (default "" alertIdQuery) wc)
    as [(e & w1 & E & (_ & _ & Hw & _)) | (run & alertRow & w1 & f' & Hframe & Hloop & E)].
  - (* the run fails before the plan *)
    erewrite tryCatch_throw; [|erewrite bind_throw; [reflexivity | exact E]].
    route_compute. split; [reflexivity|]. split; [reflexivity|].
    eexists. rewrite Hw. subst wc. cbn [wire setWire].
    rewrite <- app_assoc. split; [reflexivity|]. left. eauto.
  - destruct Hframe as (_ & _ & Hw & _).
    destruct (stream_loop (clock wc) run
                (wire w ++ [Connected runIdParam;
                            PlanBuilt Orchestrator.defaultPlan run])
                Orchestrator.defaultPlan Orchestrator.defaultPlan
                (Orchestrator.mkFrame
                   (emit true (PlanBuilt Orchestrator.defaultPlan run) w1)
                   (Orchestrator.initialLocals
                      (contextFor (default "" alertIdQuery) run alertRow))))
      as (f'' & Hloop' & body & Hbody & Horder).
    { split.
      - apply (bool_decide_unpack _). vm_compute. exact I.
      - exists [], []. split; [reflexivity|]. split; [|constructor].
        cbn [Orchestrator.world emit wire setWire concat].
        rewrite Hw. subst wc. cbn [wire setWire].
        now rewrite app_nil_r, <- app_assoc. }
    rewrite Hloop in Hloop'. injection Hloop' as <-.
    rewrite finalize_eq in E. cbv zeta in E.
    destruct (dbFault (oracle (Orchestrator.world f')) (TriageRunUpdate run))
      as [e|].
    + (* the final update is rejected *)
      erewrite tryCatch_throw; [|erewrite bind_throw; [reflexivity | exact E]].
      route_compute. split; [reflexivity|]. split; [reflexivity|].
      eexists. cbn [wire setClock]. rewrite Hbody, <- !app_assoc. cbn [app].
      split; [reflexivity|]. right. exists run, body. split; [exact Horder|].
      right. eauto.
    + erewrite tryCatch_ok; [|erewrite bind_ok; [reflexivity | exact E]].
      route_compute. cbn [emit wire setWire].
      split; [reflexivity|]. split; [reflexivity|].
      eexists. cbn [wire setRunUpdates setClock].
      rewrite Hbody, <- !app_assoc. cbn [app].
      split; [reflexivity|]. right. exists run, body. split; [exact Horder|].
      left. eauto 10.
Qed.


(** * The scenarios, run *)

(** End to end: alert A1 exists and every tool succeeds within budget. *)
Example happy_path_stream :
  wire (after (TriageRoute.stream "r-9" (Some "A1")) happyWorld)
  = [Connected "r-9";
     PlanBuilt Orchestrator.defaultPlan "run-0";
     ToolUpdate "dataAccess" Running None "run-0";
     ToolUpdate "dataAccess" CompletedStatus (Some 20) "run-0";
     ToolUpdate "riskSignals" Running None "run-0";
     ToolUpdate "riskSignals" CompletedStatus (Some 30) "run-0";
     ToolUpdate "kbLookup" Running None "run-0";
     ToolUpdate "kbLookup" CompletedStatus (Some 10) "run-0";
     ToolUpdate "decide" Running None "run-0";
     ToolUpdate "decide" CompletedStatus (Some 0) "run-0";
     ToolUpdate "proposeAction" Running None "run-0";
     ToolUpdate "proposeAction" CompletedStatus (Some 0) "run-0";
     DecisionFinalized HIGH
       ["Prior chargebacks: 2"; "KB refs: Card freeze policy"]
       "freeze_card" 67 "run-0";
     Completed]
  /\ length (agentTraces (after (TriageRoute.stream "r-9" (Some "A1")) happyWorld))
     = 5%nat.
Proof. split; vm_compute; reflexivity. Qed.

(** Both database-backed steps time out three times each; the budget is
    spent before the third step, and the run still ends with a decision. *)
Example stalled_run_stream :
  wire (after (TriageRoute.stream "r-9" (Some "A1")) stalledWorld)
  = [Connected "r-9";
     PlanBuilt Orchestrator.defaultPlan "run-0";
     ToolUpdate "dataAccess" Running None "run-0";
     FallbackTriggered "dataAccess" (Some "Tool timeout exceeded") "run-0";
     ToolUpdate "riskSignals" Running None "run-0";
     FallbackTriggered "riskSignals" (Some "Tool timeout exceeded") "run-0";
     DecisionFinalized MEDIUM ["Risk assessment unavailable (fallback)"]
       "freeze_card" 7100 "run-0";
     Completed].
Proof. vm_compute. reflexivity. Qed.

Lemma failed_risk_step_yields_fallback_decision_witness :
  exists decision : TriageResult,
    outcome (Orchestrator.executeTriage "A1" (callbackOf true)) riskDownWorld
    = Ok decision
    /\ fallbackUsed decision = true
    /\ risk decision = MEDIUM
    /\ (exists more, reasons decision = Orchestrator.fallbackReason :: more)
    /\ isDefinedAction (recommendedAction decision) = true.
Proof.
  apply (failed_risk_step_yields_fallback_decision "A1" true riskDownWorld).
  - unfold riskStepFailed. vm_compute. tauto.
  - intros run. reflexivity.
Defined.

Lemma traces_match_attempted_steps_witness :
  exists (ts : list AgentTraceRow) (ms : list Metric),
    agentTraces (after (Orchestrator.executeTriage "A1" (callbackOf true)) happyWorld)
    = agentTraces happyWorld ++ ts
    /\ metricLog (after (Orchestrator.executeTriage "A1" (callbackOf true)) happyWorld)
       = metricLog happyWorld ++ ms
    /\ length ts = toolCalls ms.
Proof.
  destruct (traces_match_attempted_steps "A1" true happyWorld)
    as (ts & ms & HT & HM & _ & _ & Heq).
  exists ts, ms. split; [exact HT|]. split; [exact HM|].
  apply Heq. intros r n s. reflexivity.
Defined.

(** C4 as stated fails: the tool of every one of the five steps is
    executed, the store rejects the first trace write, and four trace rows
    are persisted for five attempted steps. *)
Lemma rejected_trace_write_leaves_a_gap :
  let w' := after (Orchestrator.executeTriage "A1" (callbackOf false)) traceDownWorld in
  isOk (outcome (Orchestrator.executeTriage "A1" (callbackOf false)) traceDownWorld)
  = true
  /\ toolCalls (metricsSince traceDownWorld w') = 5%nat
  /\ length (agentTraces w') = 4%nat.
Proof. vm_compute. repeat split. Qed.


(** A [run] that settles at the very instant the timer fires is not timed
    out: the first attempt succeeds and [run] is invoked once. *)
Example photo_finish_is_a_success :
  let tool := mkTool "FraudAgent" External in
  outcome (BaseTool.execute tool sampleContext) photoFinishWorld
  = Ok (mkResult true
          (Some (FraudData LOW ["No significant fraud signals detected"]
                           "mark_false_positive" None))
          None 1000)
  /\ callCount "FraudAgent" (after (BaseTool.execute tool sampleContext) photoFinishWorld)
     = 1%nat.
Proof. split; vm_compute; reflexivity. Qed.

(** The notes appended to the reasons show in the recorded risk step: its
    detail is the risk result itself. *)
Example notes_reach_the_recorded_risk_step :
  exists decision : TriageResult,
    outcome (Orchestrator.executeTriage "A1" (callbackOf true)) happyWorld
    = Ok decision
    /\ reasons decision = ["Prior chargebacks: 2"; "KB refs: Card freeze policy"]
    /\ (s ← steps decision !! 1%nat;
        match detail s with DetailData d => reasonsOf d | _ => None end)
       = Some (reasons decision).
Proof. eexists. split; [vm_compute; reflexivity|]. split; vm_compute; reflexivity. Qed.

(** * More on the circuit breaker *)

Section SeriesOfCalls.
Import CircuitBreaker.
Context {T : Type}.
Implicit Types (beh : nat -> Outcome T * Z) (w : World) (toolName : string).

Lemma closed_scripted_success toolName beh w v :
  isOpen (stateOf toolName w) = false ->
  fst (beh (callCount toolName w)) = Ok v ->
  let w' := after (execute toolName (scripted toolName beh)) w in
  outcome (execute toolName (scripted toolName beh)) w = Ok v
  /\ stateOf toolName w'
     = mkState 0 (lastFailureTime (stateOf toolName w)) false
  /\ callCount toolName w' = S (callCount toolName w).
Proof.
  intros Hclosed Hb.
  pose proof (scripted_eq toolName beh (registered toolName w)) as Hs.
  unfold callCount in Hs at 1 2 3. rewrite registered_calls in Hs.
  fold (callCount toolName w) in Hs. rewrite Hb, registered_clock in Hs.
  cbv zeta. unfold outcome, after.
  rewrite (execute_closed_success _ _ _ _ _ Hclosed Hs). simpl.
  unfold stateOf, callCount. simpl.
  rewrite !lookup_insert_eq. simpl.
  fold (stateOf toolName (registered toolName w)).
  rewrite stateOf_registered. auto.
Qed.

Lemma scriptFrom_S beh k n :
  scriptFrom beh k (S n) = fst (beh k) :: scriptFrom beh (S k) n.
Proof.
  unfold scriptFrom. cbn [List.seq map]. rewrite Nat.add_0_r. f_equal.
  rewrite <- seq_shift, map_map. apply map_ext. intros i.
  do 2 f_equal. lia.
Qed.

(** As long as the failures in a row stay below the threshold, every call
    goes through to the function and the entry counts the failures since
    the last success. *)
Lemma streak_series toolName beh pauses :
  forall w count,
    isOpen (stateOf toolName w) = false ->
    failures (stateOf toolName w) = count ->
    let outs := scriptFrom beh (callCount toolName w) (length pauses) in
    belowThreshold count outs = true ->
    let r := callSeries toolName (scripted toolName beh) pauses w in
    fst r = outs
    /\ isOpen (stateOf toolName (snd r)) = false
    /\ failures (stateOf toolName (snd r)) = streak count outs
    /\ callCount toolName (snd r)
       = (length pauses + callCount toolName w)%nat.
Proof.
  induction pauses as [|d rest IH]; intros w count Hclosed Hcount outs Hbelow r.
  - subst r outs. simpl. auto.
  - subst r outs. cbn [length] in *. rewrite scriptFrom_S in *.
    rewrite callSeries_cons. cbn [fst snd].
    set (a := after (execute toolName (scripted toolName beh)) w).
    set (w1 := after (elapse d) a).
    destruct (elapse_frame toolName d a) as (Es & Ec & _).
    fold w1 in Es, Ec.
    destruct (fst (beh (callCount toolName w))) as [v|e] eqn:Hb.
    + destruct (closed_scripted_success toolName beh w v Hclosed Hb)
        as (O1 & S1 & C1).
      fold a in S1, C1. cbn [belowThreshold streak] in *.
      destruct (IH w1 0) as (I1 & I2 & I3 & I4).
      { now rewrite Es, S1. }
      { now rewrite Es, S1. }
      { rewrite Ec, C1. exact Hbelow. }
      rewrite Ec, C1 in I1, I3, I4.
      rewrite O1, I1. repeat split; auto. rewrite I4. lia.
    + assert (Hfail : isOk (fst (beh (callCount toolName w))) = false)
        by now rewrite Hb.
      destruct (closed_scripted_failure toolName beh w Hclosed Hfail)
        as (O1 & S1 & C1 & _).
      fold a in S1, C1. rewrite Hb in O1.
      cbn [belowThreshold streak] in *.
      apply andb_prop in Hbelow as [Hlt Hbelow].
      apply Z.ltb_lt in Hlt.
      destruct (IH w1 (count + 1)) as (I1 & I2 & I3 & I4).
      { rewrite Es, S1. unfold failedAt. cbn [isOpen]. rewrite Hcount.
        destruct (Z.leb_spec failureThreshold (count + 1)); [lia|].
        exact Hclosed. }
      { rewrite Es, S1. unfold failedAt. cbn [failures]. now rewrite Hcount. }
      { rewrite Ec, C1. exact Hbelow. }
      rewrite Ec, C1 in I1, I3, I4.
      rewrite O1, I1. repeat split; auto. rewrite I4. lia.
Qed.
End SeriesOfCalls.

(** X1. The breaker counts failures in a row.  Starting with no failure on
    record, in any series of calls whose function never fails three times
    in a row, every call reaches the function and returns its outcome
    unchanged, the circuit stays closed, and the failure count at the end
    is the number of failures since the last success. *)
Theorem failures_are_counted_in_a_row :
  forall (T : Type) (toolName : string) (beh : nat -> Outcome T * Z)
         (pauses : list Z) (w0 : World),
    noFailures toolName w0 = true ->
    let outs := scriptFrom beh (callCount toolName w0) (length pauses) in
    belowThreshold 0 outs = true ->
    let r := callSeries toolName (scripted toolName beh) pauses w0 in
    fst r = outs
    /\ isOpen (stateOf toolName (snd r)) = false
    /\ failures (stateOf toolName (snd r)) = streak 0 outs
    /\ callCount toolName (snd r)
       = (length pauses + callCount toolName w0)%nat.
Proof.
  intros T toolName beh pauses w0 Hfresh outs Hbelow r.
  unfold noFailures in Hfresh. apply andb_prop in Hfresh as [Hf Hc].
  apply Z.eqb_eq in Hf. apply negb_true_iff in Hc.
  now apply streak_series.
Qed.

Lemma failures_are_counted_in_a_row_witness :
  let r := callSeries "FraudAgent" (scripted "FraudAgent" flaky)
                      [10; 10; 10; 10; 10] emptyWorld in
  isOpen (stateOf "FraudAgent" (snd r)) = false
  /\ failures (stateOf "FraudAgent" (snd r)) = 2
  /\ callCount "FraudAgent" (snd r) = 5%nat.
Proof.
  destruct (failures_are_counted_in_a_row Z "FraudAgent" flaky
              [10; 10; 10; 10; 10] emptyWorld eq_refl eq_refl)
    as (_ & Hopen & Hcount & Hcalls).
  split; [exact Hopen|]. split; [exact Hcount | exact Hcalls].
Defined.

Section BreakerEntries.
Import CircuitBreaker.
Context {T : Type}.
Implicit Types (fn : M World T) (w : World) (toolName : string).

(** The entry [execute] writes once the function has settled. *)
Let written (o : Outcome T) (w1 : World) toolName : CircuitBreakerState :=
  match o with
  | Ok _ => mkState 0 (lastFailureTime (stateOf toolName w1)) false
  | Throw _ => failedAt (clock w1) (stateOf toolName w1)
  end.

(** A call is either refused, and nothing happens, or the function runs
    on a closed circuit (the tool's own entry as it was, or a fresh one
    after the cooldown) and the tool's entry is written once. *)
Lemma execute_cases toolName fn w :
  execute toolName fn w = (Throw (openError toolName), w)
  \/ exists w0 o w1,
       (forall other, other <> toolName ->
          states w0 !! other = states w !! other)
       /\ (clock w0 = clock w /\ calls w0 = calls w /\ oracle w0 = oracle w)
       /\ isOpen (stateOf toolName w0) = false
       /\ (stateOf toolName w0 = stateOf toolName w
           \/ stateOf toolName w0 = initialState)
       /\ fn w0 = (o, w1)
       /\ execute toolName fn w
          = (o, setStates (<[toolName := written o w1 toolName]> (states w1)) w1).
Proof.
  assert (Hclosed : forall w0,
            isOpen (stateOf toolName w0) = false ->
            exists o w1,
              fn (registered toolName w0) = (o, w1)
              /\ execute toolName fn w0
                 = (o, setStates (<[toolName := written o w1 toolName]>
                                    (states w1)) w1)).
  { intros w0 Hc.
    destruct (fn (registered toolName w0)) as [[v|e] w1] eqn:E.
    - rewrite (execute_closed_success _ _ _ _ _ Hc E). eauto.
    - rewrite (execute_closed_failure _ _ _ _ _ Hc E). eauto. }
  assert (Hreg : forall w0 other, other <> toolName ->
            states (registered toolName w0) !! other = states w0 !! other).
  { intros w0 other Hne. unfold registered, after, getState.
    destruct (states w0 !! toolName); simpl; [reflexivity|].
    now rewrite lookup_insert_ne. }
  destruct (isOpen (stateOf toolName w)) eqn:Hopen.
  - destruct (Z.lt_ge_cases (clock w - lastFailureTime (stateOf toolName w))
                            openDuration) as [Hlt | Hge].
    + left. now apply execute_open_refused.
    + right. rewrite (execute_open_cooled _ _ _ Hopen Hge).
      set (w0 := after (resetCircuit toolName) w).
      assert (Hst : stateOf toolName w0 = initialState).
      { unfold w0, stateOf, after, resetCircuit, putState, modify. simpl.
        now rewrite lookup_insert_eq. }
      assert (Hc : isOpen (stateOf toolName w0) = false) by now rewrite Hst.
      assert (Hpresent : registered toolName w0 = w0).
      { apply registered_present. unfold w0, after, resetCircuit, putState,
          modify. simpl. rewrite lookup_insert_eq. eauto. }
      destruct (Hclosed w0 Hc) as (o & w1 & E & Ew).
      rewrite Hpresent in E. exists w0, o, w1.
      split.
      { intros other Hne. unfold w0, after, resetCircuit, putState, modify.
        simpl. now rewrite lookup_insert_ne. }
      split; [repeat split|].
      split; [exact Hc|]. split; [right; exact Hst|].
      split; [exact E | exact Ew].
  - right. destruct (Hclosed w Hopen) as (o & w1 & E & Ew).
    exists (registered toolName w), o, w1.
    split; [apply Hreg|].
    split.
    { unfold registered, after, getState.
      destruct (states w !! toolName); repeat split. }
    rewrite stateOf_registered.
    split; [exact Hopen|]. split; [left; reflexivity|].
    split; [exact E | exact Ew].
Qed.
End BreakerEntries.

(** X2. Circuits are kept per tool.  A call for one tool, whatever its
    outcome, leaves the entry of every other tool as it was, provided the
    wrapped function itself does not touch that entry. *)
Theorem circuits_are_kept_per_tool :
  forall (T : Type) (toolName other : string) (fn : M World T) (w : World),
    other <> toolName ->
    (forall w0, states (after fn w0) !! other = states w0 !! other) ->
    states (after (CircuitBreaker.execute toolName fn) w) !! other
    = states w !! other.
Proof.
  intros T toolName other fn w Hne Hfn.
  destruct (execute_cases toolName fn w)
    as [E | (w0 & o & w1 & Hothers & _ & _ & _ & Efn & E)];
    unfold after; rewrite E; cbn [snd]; [reflexivity|].
  cbn [states setStates]. rewrite lookup_insert_ne by congruence.
  specialize (Hfn w0). unfold after in Hfn. rewrite Efn in Hfn.
  cbn [snd] in Hfn. rewrite Hfn. now apply Hothers.
Qed.

Lemma circuits_are_kept_per_tool_witness :
  states (after (CircuitBreaker.execute "KnowledgeBaseAgent"
                   (scripted "KnowledgeBaseAgent" alwaysBoom)) trippedWorld)
    !! "FraudAgent"
  = Some (mkState 3 1000 true).
Proof.
  rewrite (circuits_are_kept_per_tool Z "KnowledgeBaseAgent" "FraudAgent").
  - reflexivity.
  - discriminate.
  - intros w0. unfold after. rewrite scripted_eq. reflexivity.
Defined.

(** X3. The breaker keeps its entries consistent.  If a tool's entry has a
    failure count between 0 and the threshold of 3 and is open exactly when
    the count is 3, the same holds after any call for that tool, whether
    the call is refused, succeeds or fails, provided the wrapped function
    itself does not touch the entry.  In particular the count never exceeds
    the threshold. *)
Theorem breaker_entry_stays_consistent :
  forall (T : Type) (toolName : string) (fn : M World T) (w : World),
    consistent (stateOf toolName w) = true ->
    (forall w0, stateOf toolName (after fn w0) = stateOf toolName w0) ->
    consistent (stateOf toolName (after (CircuitBreaker.execute toolName fn) w))
    = true.
Proof.
  intros T toolName fn w Hcons Hfn.
  destruct (execute_cases toolName fn w)
    as [E | (w0 & o & w1 & _ & _ & Hclosed & Hst & Efn & E)];
    unfold after; rewrite E; cbn [snd]; [exact Hcons|].
  specialize (Hfn w0). unfold after in Hfn. rewrite Efn in Hfn. cbn [snd] in Hfn.
  assert (Hcons0 : consistent (stateOf toolName w0) = true)
    by (destruct Hst as [-> | ->]; [exact Hcons | reflexivity]).
  unfold stateOf at 1. cbn [states setStates]. rewrite lookup_insert_eq.
  cbn [default from_option id]. rewrite Hfn.
  unfold consistent in Hcons0.
  apply andb_prop in Hcons0 as [Hrange Hflag].
  apply andb_prop in Hrange as [Hlo Hhi].
  apply Z.leb_le in Hlo, Hhi. apply eqb_prop in Hflag.
  rewrite Hclosed in Hflag. symmetry in Hflag. apply Z.leb_gt in Hflag.
  destruct o as [v|e].
  - reflexivity.
  - unfold failedAt, consistent. cbn [failures isOpen].
    unfold CircuitBreaker.failureThreshold in *.
    rewrite Hclosed.
    destruct (Z.leb_spec 3 (failures (stateOf toolName w0) + 1)).
    + rewrite (proj2 (Z.leb_le 0 _)) by lia.
      rewrite (proj2 (Z.leb_le _ 3)) by lia. reflexivity.
    + rewrite (proj2 (Z.leb_le 0 _)) by lia.
      rewrite (proj2 (Z.leb_le _ 3)) by lia. reflexivity.
Qed.

Lemma breaker_entry_stays_consistent_witness :
  consistent
    (stateOf "FraudAgent"
       (after (CircuitBreaker.execute "FraudAgent" (scripted "FraudAgent" alwaysBoom))
              trippedWorld))
  = true.
Proof.
  apply (breaker_entry_stays_consistent Z "FraudAgent").
  - reflexivity.
  - intros w0. unfold after. rewrite scripted_eq. reflexivity.
Defined.

(** * More on the resilient tool wrapper *)

Section ToolCalls.
Variables (tool : Tool) (context : AgentContext).
Let name := className tool.

Lemma attemptCost_le a : attemptCost a <= BaseTool.timeout.
Proof.
  destruct a as [o d|]; cbn; [|lia].
  destruct (Z.leb_spec d BaseTool.timeout); lia.
Qed.

Lemma retryBudget_nonneg remaining : forall attempt, 0 <= retryBudget attempt remaining.
Proof.
  induction remaining as [|r IH]; intros attempt; cbn [retryBudget]; [lia|].
  specialize (IH (S attempt)).
  assert (0 <= default 0 (retryDelays !! attempt))
    by (destruct attempt as [|[|n]]; unfold retryDelays; simpl; lia).
  unfold BaseTool.timeout. destruct (attempt <? maxRetries)%nat; lia.
Qed.

Lemma retryLoop_clock remaining :
  forall attempt lastError w,
    (forall n, jitter (oracle w) name n <= 50) ->
    clock (after (retryLoop tool context attempt remaining lastError) w)
    - clock w <= retryBudget attempt remaining.
Proof.
  induction remaining as [|r IH]; intros attempt lastError w Hj.
  - cbn. lia.
  - rewrite retryLoop_S. cbn [retryBudget]. unfold after, tryCatch.
    rewrite executeWithTimeout_eq. fold name.
    set (a := runScript tool context w (callCount name w)).
    set (w1 := setClock (clock w + attemptCost a)
                 (setCalls (<[name := S (callCount name w)]> (calls w)) w)).
    pose proof (attemptCost_le a) as Hcost.
    pose proof (retryBudget_nonneg r (S attempt)) as Hrest.
    assert (Hpause : 0 <= (if (attempt <? maxRetries)%nat
                           then default 0 (retryDelays !! attempt) + 50 else 0)).
    { destruct (attempt <? maxRetries)%nat; [|lia].
      destruct attempt as [|[|n]]; unfold retryDelays; simpl; lia. }
    assert (Hthrow : forall e,
              clock (snd ((when (attempt <? maxRetries)%nat (backoff tool attempt);;
                           retryLoop tool context (S attempt) r (Some e)) w1))
              - clock w
              <= BaseTool.timeout
                 + (if (attempt <? maxRetries)%nat
                    then default 0 (retryDelays !! attempt) + 50 else 0)
                 + retryBudget (S attempt) r).
    { intros e. unfold mbind, M_bind, bind, when.
      destruct (attempt <? maxRetries)%nat.
      - unfold backoff, mbind, M_bind, bind, gets, elapse, modify.
        cbn [fst snd].
        match goal with
        | |- context [retryLoop tool context (S attempt) r (Some e) ?w2] =>
            specialize (IH (S attempt) (Some e) w2 Hj);
            unfold after in IH; set (w2' := w2) in *
        end.
        destruct (retryLoop tool context (S attempt) r (Some e) w2')
          as [o3 w3]. cbn [snd] in *.
        subst w2'. cbn [clock setClock] in IH.
        specialize (Hj (callCount name w1)).
        cbn [oracle setClock setCalls] in Hj. fold name in IH.
        subst w1. cbn [clock oracle setClock setCalls] in *. lia.
      - cbn [ret mret M_ret].
        specialize (IH (S attempt) (Some e) w1 Hj). unfold after in IH.
        destruct (retryLoop tool context (S attempt) r (Some e) w1)
          as [o3 w3]. cbn [snd] in *.
        subst w1. cbn [clock setClock] in IH. lia. }
    destruct a as [[v|e] d|] eqn:Ea; cbn [attemptError].
    + destruct (d <=? BaseTool.timeout) eqn:Ed.
      * cbn [snd]. subst w1. cbn [clock setClock].
        unfold BaseTool.timeout in *. lia.
      * apply Hthrow.
    + apply Hthrow.
    + apply Hthrow.
Qed.
End ToolCalls.

(** X4. The first attempt that succeeds settles the call.  On a closed
    circuit, if the first [k <= 2] attempts of [run] fail and the next one
    resolves no later than the timer fires, [BaseTool.execute] returns
    [{ ok: true, data }] with that attempt's value, [run] has been invoked
    exactly [k + 1] times, and the breaker has no failure on record for the
    tool: failed attempts that a retry makes up for are not counted. *)
Theorem first_successful_attempt_wins :
  forall (tool : Tool) (context : AgentContext) (w : World)
         (k : nat) (v : ToolData) (d : Z),
    let name := className tool in
    isOpen (stateOf name w) = false ->
    (k <= maxRetries)%nat ->
    (forall i, (i < k)%nat ->
       attemptFails (runScript tool context w (i + callCount name w)) = true) ->
    runScript tool context w (k + callCount name w) = Settles (Ok v) d ->
    d <= BaseTool.timeout ->
    exists result w',
      BaseTool.execute tool context w = (Ok result, w')
      /\ ok result = true
      /\ data result = Some v
      /\ error result = None
      /\ callCount name w' = (S k + callCount name w)%nat
      /\ noFailures name w' = true.
Proof.
  intros tool context w k v d name Hclosed Hk Hfail Hok Hd.
  destruct (retryLoop_first_success tool context k 0%nat (S maxRetries) None
              (registered name w) v d) as (w1 & E1 & (S1 & O1 & C1)).
  - lia.
  - intros i Hi. unfold callCount. rewrite registered_calls.
    rewrite registered_runScript. now apply Hfail.
  - unfold callCount. rewrite registered_calls.
    rewrite registered_runScript. exact Hok.
  - exact Hd.
  - unfold callCount in C1. rewrite registered_calls in C1.
    fold (callCount name w1) (callCount name w) in C1.
    rewrite execute_eq. fold name. unfold executeWithRetry.
    rewrite (execute_closed_success _ _ _ _ _ Hclosed E1).
    eexists _, _. split; [reflexivity|]. cbn [ok data error].
    repeat split.
    + exact C1.
    + unfold noFailures, stateOf. cbn [states setMetricLog setStates].
      rewrite lookup_insert_eq. reflexivity.
Qed.

Lemma first_successful_attempt_wins_witness :
  exists result w',
    BaseTool.execute fraudAgent sampleContext recoveringWorld = (Ok result, w')
    /\ ok result = true
    /\ callCount "FraudAgent" w' = 2%nat
    /\ noFailures "FraudAgent" w' = true.
Proof.
  destruct (first_successful_attempt_wins fraudAgent sampleContext recoveringWorld
              1 (FraudData HIGH ["Prior chargebacks: 2"] "freeze_card" None) 30)
    as (result & w' & E & Hok & _ & _ & Hcalls & Hclean).
  - reflexivity.
  - unfold maxRetries. lia.
  - intros [|i] Hi; [reflexivity | lia].
  - reflexivity.
  - unfold BaseTool.timeout. lia.
  - exists result, w'. auto.
Defined.

(** X5. A tool call takes bounded time.  With a jitter of at most 50 ms,
    the [duration] of the result, which is the time that passed during the
    call, is at most three timeouts of 1000 ms plus the two pauses of
    150 ms and 400 ms with their jitter, 3650 ms in all, whatever [run]
    does. *)
Theorem tool_call_takes_bounded_time :
  forall (tool : Tool) (context : AgentContext) (w : World),
    (forall n, jitter (oracle w) (className tool) n <= 50) ->
    exists result w',
      BaseTool.execute tool context w = (Ok result, w')
      /\ duration result = clock w' - clock w
      /\ duration result <= 3650.
Proof.
  intros tool context w Hj. rewrite execute_eq.
  destruct (execute_cases (className tool) (executeWithRetry tool context) w)
    as [E | (w0 & o & w1 & _ & (Hc & _ & Ho) & _ & _ & Efn & E)]; rewrite E.
  - eexists _, _. split; [reflexivity|]. cbn. split; lia.
  - pose proof (retryLoop_clock tool context (S maxRetries) 0%nat None w0) as Hb.
    rewrite Ho in Hb. specialize (Hb Hj). unfold after in Hb.
    unfold executeWithRetry in Efn. rewrite Efn in Hb. cbn [snd] in Hb.
    rewrite Hc in Hb.
    change (retryBudget 0 (S maxRetries)) with 3650 in Hb.
    destruct o as [v|e]; eexists _, _; (split; [reflexivity|]);
      cbn [duration clock setMetricLog setStates]; split; lia.
Qed.

Lemma tool_call_takes_bounded_time_witness :
  exists result w',
    BaseTool.execute fraudAgent sampleContext stalledWorld = (Ok result, w')
    /\ duration result <= 3650.
Proof.
  destruct (tool_call_takes_bounded_time fraudAgent sampleContext stalledWorld)
    as (result & w' & E & _ & Hd).
  - intros n. cbn. lia.
  - exists result, w'. split; [exact E | exact Hd].
Defined.

(** X6. The footprint of a tool call.  [BaseTool.execute] records exactly
    one [tool_call_total] sample, labelled with the tool's class and with
    the [ok] flag of the result it returns, followed on success by one
    latency sample carrying the result's [duration]; it changes no table of
    the database, draws no id and writes nothing to the response
    stream. *)
Theorem tool_call_footprint :
  forall (tool : Tool) (context : AgentContext) (w : World),
  exists (result : ToolResult) (w' : World),
    BaseTool.execute tool context w = (Ok result, w')
    /\ toolFrame w w'
    /\ metricsSince w w'
       = (if ok result
          then [ToolCallTotal (className tool) true;
                AgentLatency (className tool) "execute" (duration result)]
          else [ToolCallTotal (className tool) false]).
Proof.
  intros tool context w.
  destruct (execute_spec tool context w) as (result & w' & E & _ & Hf & Hm & _).
  exists result, w'. split; [exact E|]. split; [exact Hf|].
  unfold metricsSince. rewrite Hm. apply drop_app_length.
Qed.

(** * The action proposal and the fraud assessment *)

(** X7. A proposal always satisfies the action schema, and never blocks.
    For every context, [ProposeActionTool.run] returns an action among the
    four defined ones with a confidence between 0 and 1 and
    [blockedByPolicy = false].  The action is the one of the risk result in
    the context whenever that is one of the four; a risk result with any
    other action yields 'contact_customer' with approval required. *)
Theorem proposal_satisfies_the_schema :
  forall context : AgentContext,
  exists (a : string) (c : Q) (r : bool),
    ProposeActionTool_run context = ProposalData a c r false
    /\ isDefinedAction a = true
    /\ (0 <= c <= 1)%Q
    /\ (forall a0, riskResult context ≫= actionOf = Some a0 -> a0 <> "" ->
        if isDefinedAction a0 then a = a0
        else a = "contact_customer" /\ r = true).
Proof.
  intros context. unfold ProposeActionTool_run.
  set (a1 := orElse (riskResult context ≫= actionOf) "mark_false_positive").
  assert (Hadopt : forall a0, riskResult context ≫= actionOf = Some a0 ->
                               a0 <> "" -> a1 = a0).
  { intros a0 Ha0 Hne. subst a1. rewrite Ha0. unfold orElse, truthyStr.
    now destruct (String.eqb_spec a0 ""). }
  destruct (isDefinedAction a1) eqn:Hdef.
  - eexists _, _, _. split; [reflexivity|]. split; [exact Hdef|]. split.
    + destruct (bool_decide _ && _); [split; discriminate|].
      destruct (bool_decide _); split; discriminate.
    + intros a0 Ha0 Hne. rewrite <- (Hadopt a0 Ha0 Hne), Hdef.
      reflexivity.
  - eexists _, _, _. split; [reflexivity|]. split; [reflexivity|]. split.
    + split; discriminate.
    + intros a0 Ha0 Hne. rewrite <- (Hadopt a0 Ha0 Hne), Hdef. auto.
Qed.

Section MccCounts.
Import FraudAgent.

Let key (txn : Txn) : string := orElse (mcc txn) "unknown".

Let sharing (m : string) (transactions : list Txn) : nat :=
  length (List.filter (fun txn => String.eqb (key txn) m) transactions).

Lemma countMccs_from (transactions : list Txn) :
  forall (acc : gmap string nat) (m : string),
    default 0%nat
      (foldl (fun mccCounts txn =>
                <[key txn := S (default 0%nat (mccCounts !! key txn))]> mccCounts)
             acc transactions !! m)
    = (default 0%nat (acc !! m) + sharing m transactions)%nat.
Proof.
  induction transactions as [|txn rest IH]; intros acc m.
  - cbn. lia.
  - cbn [foldl]. rewrite IH. unfold sharing. cbn [List.filter].
    destruct (String.eqb_spec (key txn) m) as [<-|Hne].
    + rewrite lookup_insert_eq. cbn. lia.
    + rewrite lookup_insert_ne by exact Hne. lia.
Qed.

(** The map built by the loop holds, for every category, the number of
    transactions filed under it. *)
Lemma countMccs_spec transactions m :
  default 0%nat (countMccs transactions !! m) = sharing m transactions.
Proof.
  unfold countMccs. fold key.
  rewrite (countMccs_from transactions ∅ m). now rewrite lookup_empty.
Qed.

Lemma sharing_le m transactions : (sharing m transactions <= length transactions)%nat.
Proof. apply filter_length_le. Qed.

Lemma present_key txn m : present (mcc txn) = Some m -> key txn = m.
Proof.
  unfold present, key, orElse, truthyStr.
  destruct (mcc txn) as [s|]; [|discriminate].
  destruct (String.eqb s ""); [discriminate|].
  now intros [= ->].
Qed.

Lemma rarity_share first rest m :
  present (mcc first) = Some m ->
  calculateMccRarity (first :: rest)
  = (inject_Z (Z.of_nat (sharing m (first :: rest)))
     / inject_Z (Z.of_nat (length (first :: rest))))%Q
  /\ (1 <= sharing m (first :: rest) <= length (first :: rest))%nat.
Proof.
  intros Hm. unfold calculateMccRarity. rewrite Hm, countMccs_spec.
  split; [reflexivity|]. split; [|apply sharing_le].
  unfold sharing. cbn [List.filter]. rewrite (present_key _ _ Hm).
  rewrite String.eqb_refl. cbn. lia.
Qed.
End MccCounts.

(** X8. The rarity of the merchant category is a share.  For every list
    of transactions [calculateMccRarity] lies in the interval (0, 1]; when
    the most recent transaction has a category, it is the number of
    transactions filed under that category (those without one count as
    'unknown') divided by the number of all transactions. *)
Theorem mcc_rarity_is_a_share :
  forall transactions : list FraudAgent.Txn,
    (0 < FraudAgent.calculateMccRarity transactions
     /\ FraudAgent.calculateMccRarity transactions <= 1)%Q
    /\ (forall first rest m,
          transactions = first :: rest ->
          FraudAgent.present (FraudAgent.mcc first) = Some m ->
          FraudAgent.calculateMccRarity transactions
          = (inject_Z
               (Z.of_nat
                  (length
                     (List.filter
                        (fun txn =>
                           String.eqb (orElse (FraudAgent.mcc txn) "unknown") m)
                        transactions)))
             / inject_Z (Z.of_nat (length transactions)))%Q).
Proof.
  intros transactions. split.
  - destruct transactions as [|first rest]; [split; [reflexivity | discriminate]|].
    destruct (FraudAgent.present (FraudAgent.mcc first)) as [m|] eqn:Hm.
    + destruct (rarity_share first rest m Hm) as (-> & Hlo & Hhi).
      set (n := length (List.filter _ _)) in *.
      set (t := length (first :: rest)) in *.
      assert (Ht : (0 < inject_Z (Z.of_nat t))%Q).
      { change 0%Q with (inject_Z 0). rewrite <- Zlt_Qlt. lia. }
      split.
      * apply Qlt_shift_div_l; [exact Ht|]. rewrite Qmult_0_l.
        change 0%Q with (inject_Z 0). rewrite <- Zlt_Qlt. lia.
      * apply Qle_shift_div_r; [exact Ht|]. rewrite Qmult_1_l.
        rewrite <- Zle_Qle. lia.
    + unfold FraudAgent.calculateMccRarity. rewrite Hm.
      split; [reflexivity | discriminate].
  - intros first rest m -> Hm. now destruct (rarity_share first rest m Hm).
Qed.

Lemma mcc_rarity_is_a_share_witness :
  FraudAgent.calculateMccRarity sampleTransactions
  = (inject_Z 1 / inject_Z 3)%Q.
Proof.
  destruct (mcc_rarity_is_a_share sampleTransactions) as (_ & H).
  apply (H _ _ "5732" eq_refl eq_refl).
Defined.

(** X9. A device change means two different devices.
    [detectDeviceChange] answers true exactly when two of the transactions
    carry different non-empty device ids; transactions without a device id
    are ignored. *)
Theorem device_change_means_two_devices :
  forall transactions : list FraudAgent.Txn,
    FraudAgent.detectDeviceChange transactions = true
    <-> twoDevices transactions.
Proof.
  intros transactions. unfold twoDevices.
  set (ids := omap (fun txn => FraudAgent.present (FraudAgent.deviceId txn))
                   transactions).
  assert (Hids : forall d, d ∈ ids <->
            exists t, t ∈ transactions
                      /\ FraudAgent.present (FraudAgent.deviceId t) = Some d).
  { intros d. unfold ids. apply list_elem_of_omap. }
  assert (Hdet : FraudAgent.detectDeviceChange transactions
                 = (1 <? size (list_to_set ids : gset string))%nat).
  { unfold FraudAgent.detectDeviceChange. fold ids.
    destruct transactions; reflexivity. }
  rewrite Hdet. rewrite Nat.ltb_lt. split.
  - intros Hsize.
    destruct (set_choose_L (list_to_set ids : gset string)) as [d1 Hd1].
    { intros Hempty. rewrite Hempty, size_empty in Hsize. lia. }
    destruct (set_choose_L (list_to_set ids ∖ {[d1]} : gset string))
      as [d2 Hd2].
    { intros Hempty.
      assert (Hsub : (list_to_set ids : gset string) ⊆ {[d1]}).
      { intros x Hx. destruct (decide (x = d1)) as [->|Hne];
          [now apply elem_of_singleton|].
        assert (Hin : x ∈ (list_to_set ids ∖ {[d1]} : gset string)).
        { apply elem_of_difference. split; [exact Hx|].
          now rewrite elem_of_singleton. }
        rewrite Hempty in Hin. now apply elem_of_empty in Hin. }
      apply subseteq_size in Hsub. rewrite size_singleton in Hsub. lia. }
    apply elem_of_difference in Hd2 as [Hd2 Hne].
    rewrite elem_of_list_to_set in Hd1, Hd2.
    apply Hids in Hd1 as (t1 & Ht1 & Hp1). apply Hids in Hd2 as (t2 & Ht2 & Hp2).
    exists t1, t2, d1, d2. repeat split; auto.
    intros ->. apply Hne. now apply elem_of_singleton.
  - intros (t1 & t2 & d1 & d2 & Ht1 & Ht2 & Hp1 & Hp2 & Hne).
    assert (Hsub : ({[d1; d2]} : gset string) ⊆ list_to_set ids).
    { intros x Hx. rewrite elem_of_list_to_set. apply Hids.
      apply elem_of_union in Hx as [Hx|Hx]; apply elem_of_singleton in Hx;
        subst x; eauto. }
    apply subseteq_size in Hsub.
    rewrite size_union in Hsub
      by (intros x Hx1 Hx2; apply elem_of_singleton in Hx1, Hx2; congruence).
    rewrite !size_singleton in Hsub. lia.
Qed.

Section Assessment.
Import FraudAgent.
Local Open Scope Q_scope.

Lemma round_le_Z (x : Q) (n : Z) : x <= inject_Z n -> (round x <= n)%Z.
Proof.
  intros Hx. unfold round.
  pose proof (Qfloor_le (x + (1 # 2))) as Hf.
  assert (H : (Qfloor (x + (1 # 2)) < n + 1)%Z).
  { rewrite Zlt_Qlt, inject_Z_plus. change (inject_Z 1) with 1. lra. }
  lia.
Qed.

Lemma round_ge_Z (x : Q) (n : Z) : inject_Z n <= x -> (n <= round x)%Z.
Proof.
  intros Hx. unfold round. rewrite <- (Qfloor_Z n) at 1.
  apply Qfloor_resp_le. lra.
Qed.

(** The three branches of the assessment. *)
Lemma assess_cases signals :
  let v := velocityScore signals in
  let c := priorChargebacks signals in
  let score := Some (signals, calculateOverallScore signals) in
  (((10 < v)%Z \/ (0 < c)%Z)
   /\ exists reasons,
       assess signals = FraudData HIGH reasons "freeze_card" score
       /\ (1 <= length reasons <= 2)%nat)
  \/ ((v <= 10)%Z /\ (c <= 0)%Z
      /\ ((5 < v)%Z \/ deviceChange signals = true
          \/ mccRarity signals < 1 # 10)
      /\ exists reasons,
          assess signals = FraudData MEDIUM reasons "freeze_card" score
          /\ (1 <= length reasons)%nat)
  \/ ((v <= 5)%Z /\ (c <= 0)%Z /\ deviceChange signals = false
      /\ 1 # 10 <= mccRarity signals
      /\ assess signals
         = FraudData LOW ["No significant fraud signals detected"]
                     "mark_false_positive" score).
Proof.
  cbv zeta. unfold assess.
  destruct (Z.ltb_spec 10 (velocityScore signals)) as [Hv10|Hv10];
    destruct (Z.ltb_spec 0 (priorChargebacks signals)) as [Hc|Hc];
    cbn [orb].
  - left. split; [auto|]. eexists. split; [reflexivity|]. cbn. lia.
  - left. split; [auto|]. eexists. split; [reflexivity|]. cbn. lia.
  - left. split; [auto|]. eexists. split; [reflexivity|]. cbn. lia.
  - right.
    destruct (Qle_bool (1 # 10) (mccRarity signals)) eqn:Hr; cbn [negb].
    + apply Qle_bool_iff in Hr.
      destruct (Z.ltb_spec 5 (velocityScore signals)) as [Hv5|Hv5];
        destruct (deviceChange signals) eqn:Hd; cbn [orb].
      * left. repeat (split; [auto|]). eexists. split; [reflexivity|]. cbn. lia.
      * left. repeat (split; [auto|]). eexists. split; [reflexivity|]. cbn. lia.
      * left. repeat (split; [auto|]). eexists. split; [reflexivity|]. cbn. lia.
      * right. repeat (split; [auto|]). reflexivity.
    + assert (Hlt : mccRarity signals < 1 # 10).
      { apply Qnot_le_lt. intros H. apply Qle_bool_iff in H. congruence. }
      left. repeat (split; [auto|]). rewrite !orb_true_r.
      eexists. split; [reflexivity|].
      rewrite !length_app. cbn. lia.
Qed.

(** The score before rounding, within its bounds. *)
Lemma score_bounds signals :
  (0 <= velocityScore signals)%Z ->
  0 <= mccRarity signals <= 1 ->
  let v := velocityScore signals in
  let c := priorChargebacks signals in
  (0 <= calculateOverallScore signals <= 100)%Z
  /\ ((v <= 5)%Z -> (c <= 0)%Z -> deviceChange signals = false ->
      1 # 10 <= mccRarity signals ->
      (calculateOverallScore signals <= 38)%Z)
  /\ ((10 < v)%Z \/ (0 < c)%Z -> (20 <= calculateOverallScore signals)%Z).
Proof.
  intros Hv [Hr0 Hr1]. cbv zeta. unfold calculateOverallScore.
  set (x := inject_Z (velocityScore signals)).
  assert (Hx : 0 <= x)
    by (unfold x; change 0 with (inject_Z 0); now rewrite <- Zle_Qle).
  set (m := Qmin (x * 4) 40).
  assert (Hm : 0 <= m /\ m <= 40 /\ m <= x * 4
               /\ (40 <= x * 4 -> m == 40)).
  { unfold m. destruct (Q.min_spec (x * 4) 40) as [[H1 H2]|[H1 H2]];
      rewrite H2; repeat split; try lra. }
  destruct Hm as (Hm0 & Hm40 & Hmx & Hmfull).
  set (r := mccRarity signals) in *.
  set (s := (if 0 <? priorChargebacks signals
             then (if deviceChange signals then 0 + m + 20 else 0 + m)
                  + (1 - r) * 20 + 20
             else (if deviceChange signals then 0 + m + 20 else 0 + m)
                  + (1 - r) * 20)).
  assert (Hs : 0 <= s <= 100).
  { unfold s. destruct (0 <? priorChargebacks signals),
      (deviceChange signals); split; lra. }
  split; [|split].
  - pose proof (round_ge_Z s 0) as Hlo. pose proof (round_le_Z s 100) as Hhi.
    change (inject_Z 0) with 0 in Hlo. change (inject_Z 100) with 100 in Hhi.
    specialize (Hlo (proj1 Hs)). specialize (Hhi (proj2 Hs)). lia.
  - intros Hv5 Hc Hd Hr.
    assert (Hs38 : s <= 38).
    { unfold s. rewrite Hd.
      destruct (Z.ltb_spec 0 (priorChargebacks signals)); [lia|].
      assert (x <= 5)
        by (unfold x; change 5 with (inject_Z 5); now rewrite <- Zle_Qle).
      lra. }
    pose proof (round_le_Z s 38 Hs38). lia.
  - intros Hhigh.
    assert (Hs20 : 20 <= s).
    { unfold s.
      destruct (Z.ltb_spec 0 (priorChargebacks signals)) as [Hc|Hc].
      - destruct (deviceChange signals); lra.
      - destruct Hhigh as [Hv10|]; [|lia].
        assert (10 <= x)
          by (unfold x; change 10 with (inject_Z 10); rewrite <- Zle_Qle; lia).
        assert (m == 40) by (apply Hmfull; lra).
        destruct (deviceChange signals); lra. }
    pose proof (round_ge_Z s 20 Hs20). lia.
Qed.
End Assessment.

(** X10. The assessment classifies the signals.  [FraudAgent] rates the
    signals high exactly when the velocity exceeds 10 or there is a prior
    chargeback, and low exactly when the velocity is at most 5, there is no
    chargeback, no device change and the category rarity is at least 0.1;
    everything in between is medium.  The list of reasons is never empty,
    and the action is 'mark_false_positive' for low risk and 'freeze_card'
    otherwise. *)
Theorem assessment_classifies_the_signals :
  forall signals : FraudSignals,
  exists (level : RiskLevel) (why : list string) (act : string),
    FraudAgent.assess signals
    = FraudData level why act
                (Some (signals, FraudAgent.calculateOverallScore signals))
    /\ why <> []
    /\ (level = HIGH
        <-> 10 < velocityScore signals \/ 0 < priorChargebacks signals)
    /\ (level = LOW
        <-> velocityScore signals <= 5 /\ priorChargebacks signals <= 0
            /\ deviceChange signals = false
            /\ (1 # 10 <= mccRarity signals)%Q)
    /\ act = (if decide (level = LOW) then "mark_false_positive"
              else "freeze_card").
Proof.
  intros signals.
  destruct (assess_cases signals)
    as [(Hc & why & E & Hlen)
       | [(Hv & Hcb & Hc & why & E & Hlen)
         | (Hv & Hcb & Hd & Hr & E)]]; rewrite E.
  - exists HIGH, why, "freeze_card". split; [reflexivity|].
    split; [intros ->; cbn in Hlen; lia|].
    split; [tauto|]. split; [|reflexivity].
    split; [discriminate|]. intros (H1 & H2 & _). lia.
  - exists MEDIUM, why, "freeze_card". split; [reflexivity|].
    split; [intros ->; cbn in Hlen; lia|].
    split; [split; [discriminate | lia]|]. split; [|reflexivity].
    split; [discriminate|]. intros (H1 & H2 & H3 & H4).
    destruct Hc as [Hc | [Hc | Hc]]; [lia | congruence |].
    exfalso. apply (Qlt_not_le _ _ Hc H4).
  - eexists LOW, _, _. split; [reflexivity|].
    split; [discriminate|].
    split; [split; [discriminate | lia]|]. split; [|reflexivity].
    split; auto.
Qed.

(** X11. The fraud score stays within 0 and 100 and follows the risk
    level only loosely.  For signals as the agent computes them (a velocity
    that is a count, a rarity between 0 and 1) the score lies between 0
    and 100; it is at most 38 when the risk is low and at least 20 when
    the risk is high. *)
Theorem fraud_score_is_bounded :
  forall signals : FraudSignals,
    0 <= velocityScore signals ->
    (0 <= mccRarity signals <= 1)%Q ->
    0 <= FraudAgent.calculateOverallScore signals <= 100
    /\ (riskOf (FraudAgent.assess signals) = Some LOW ->
        FraudAgent.calculateOverallScore signals <= 38)
    /\ (riskOf (FraudAgent.assess signals) = Some HIGH ->
        20 <= FraudAgent.calculateOverallScore signals).
Proof.
  intros signals Hv Hr.
  destruct (score_bounds signals Hv Hr) as (Hrange & Hlow & Hhigh).
  split; [exact Hrange|].
  destruct (assess_cases signals)
    as [(Hc & why & E & _)
       | [(Hv10 & Hcb & _ & why & E & _)
         | (Hv5 & Hcb & Hd & Hr10 & E)]]; rewrite E; cbn [riskOf].
  - split; [discriminate | auto].
  - split; discriminate.
  - split; [auto | discriminate].
Qed.

Lemma fraud_score_is_bounded_witness :
  FraudAgent.calculateOverallScore chargebackSignals = 20
  /\ 20 <= FraudAgent.calculateOverallScore chargebackSignals <= 100.
Proof.
  split; [reflexivity|].
  destruct (fraud_score_is_bounded chargebackSignals) as (Hrange & _ & Hhigh).
  - cbn. lia.
  - split; discriminate.
  - split; [apply Hhigh; reflexivity | apply Hrange].
Defined.

(** X12. What the proposal tool makes of an assessment.  Given the
    assessment of the fraud agent as risk result, the proposal adopts its
    action, asks for approval exactly when that action is 'freeze_card' and
    the compliance result in the context requires an OTP, and has
    confidence 0.85 for low risk and 0.75 otherwise: the confidence 0.92,
    reserved for high risk with more than two reasons, is never reached,
    because a high-risk assessment carries at most two reasons. *)
Theorem proposal_for_an_assessment :
  forall (signals : FraudSignals) (context : AgentContext),
    let assessment := FraudAgent.assess signals in
    let low := bool_decide (riskOf assessment = Some LOW) in
    ProposeActionTool_run (withRisk assessment context)
    = ProposalData
        (if low then "mark_false_positive" else "freeze_card")
        (if low then 17 # 20 else 3 # 4)
        (negb low && truthyBool (complianceResult context ≫= requiresOTPOf))
        false.
Proof.
  intros signals context. cbv zeta.
  destruct (assess_cases signals)
    as [(_ & why & E & Hlen)
       | [(_ & _ & _ & why & E & _)
         | (_ & _ & _ & _ & E)]]; rewrite E.
  - unfold ProposeActionTool_run, withRisk.
    cbn [riskResult complianceResult mbind option_bind actionOf riskOf reasonsOf
         default from_option id].
    destruct why as [|r1 [|r2 [|r3 more]]]; cbn in Hlen; try lia; reflexivity.
  - reflexivity.
  - reflexivity.
Qed.

(** * More on the rate limiter *)

Section BucketInvariant.
Import RateLimiter.
Local Open Scope Q_scope.
Variable req : Request.
Let key := bucketKey req.

(** What is known of the client's bucket when [count] requests have been
    passed on since instant [t0]: either the store holds no live bucket
    and the refill rate alone accounts for those requests, or it holds a
    bucket written by the limiter whose tokens, added to the requests
    passed on, stay within the capacity plus what has been refilled. *)
Let tracked (t0 count : Z) (e : Env) : Prop :=
  storeUp key e
  /\ ((readBucket key e = None /\ (1000 * count <= 5 * (now e - t0))%Z)
      \/ exists b,
          redis e !! key = Some (b, (lastRefill b + 60 * 1000)%Z)
          /\ (t0 <= lastRefill b <= now e)%Z
          /\ 0 <= tokens b
          /\ inject_Z count + tokens b
             <= 5 + inject_Z (lastRefill b - t0) * (5 # 1000)).

Lemma readBucket_wait d e :
  (0 <= d)%Z -> readBucket key e = None -> readBucket key (wait d e) = None.
Proof.
  intros Hd. unfold readBucket, wait. cbn [redis now setNow].
  destruct (redis e !! key) as [[b x]|]; [|reflexivity].
  destruct (Z.ltb_spec (now e) x); [discriminate|].
  destruct (Z.ltb_spec (now e + d) x); [lia | reflexivity].
Qed.

Lemma ceiling_is_one (x : Q) : 0 < x -> x <= 1 -> Qceiling x = 1%Z.
Proof.
  intros Hpos Hle. apply Z.le_antisymm.
  - rewrite <- (Qceiling_Z 1). now apply Qceiling_resp_le.
  - assert (H : (0 < Qceiling x)%Z); [|lia].
    rewrite Zlt_Qlt. eapply Qlt_le_trans; [exact Hpos | apply Qle_ceiling].
Qed.

(** A fresh bucket after the first request let through at instant
    [now e]. *)
Lemma tracked_fresh t0 count e e' :
  storeUp key e' ->
  holds key 4 (now e) e' -> now e' = now e -> (t0 <= now e)%Z ->
  (1000 * count <= 5 * (now e - t0))%Z ->
  tracked t0 (count + 1) e'.
Proof.
  intros Hup (_ & _ & b & Hb & Hl & Ht) Hnow Ht0 Hcount.
  split; [exact Hup|]. right. exists b. rewrite Hl, Hnow.
  split; [exact Hb|]. split; [lia|].
  assert (Hc : inject_Z (1000 * count) <= inject_Z (5 * (now e - t0)))
    by now rewrite <- Zle_Qle.
  rewrite !inject_Z_mult in Hc. rewrite inject_Z_plus.
  change (inject_Z 1000) with 1000 in Hc. change (inject_Z 5) with 5 in Hc.
  change (inject_Z 1) with 1. change (inject_Z 4) with 4 in Ht.
  set (c := inject_Z count) in *. set (T := inject_Z (now e - t0)) in *.
  split; [rewrite Ht; discriminate|]. rewrite Ht. lra.
Qed.

(** One request, [d] ms after the state [e] was reached. *)
Lemma serve_step t0 count d e :
  tracked t0 count e -> (0 <= d)%Z -> (t0 <= now e)%Z ->
  exists h e2,
    rateLimiter req (wait d e) = (Ok tt, e2)
    /\ effects e2 = effects e ++ [h]
    /\ now e2 = (now e + d)%Z
    /\ ((h = Next /\ tracked t0 (count + 1) e2)
        \/ (h = Respond 429 (tooManyRequests 1)
            /\ tracked t0 count e2
            /\ redis e2 = redis e
            /\ (d < 200)%Z)).
Proof.
  intros ((Hget & Hset) & Hinv) Hd Ht0.
  set (e1 := wait d e).
  assert (Hnow1 : now e1 = (now e + d)%Z) by reflexivity.
  assert (Hredis1 : redis e1 = redis e) by reflexivity.
  assert (Heff1 : effects e1 = effects e) by reflexivity.
  assert (Hup1 : storeUp key e1) by (split; assumption).
  assert (Hfirst : readBucket key e1 = None ->
                   (1000 * count <= 5 * (now e1 - t0))%Z ->
                   exists h e2,
                     rateLimiter req e1 = (Ok tt, e2)
                     /\ effects e2 = effects e ++ [h]
                     /\ now e2 = (now e + d)%Z
                     /\ ((h = Next /\ tracked t0 (count + 1) e2)
                         \/ (h = Respond 429 (tooManyRequests 1)
                             /\ tracked t0 count e2
                             /\ redis e2 = redis e
                             /\ (d < 200)%Z))).
  { intros Hnone Hcount.
    destruct (allowed_first_request req e1 Hget Hset Hnone)
      as (e2 & R & F & N & H).
    exists Next, e2. split; [exact R|]. split; [exact F|].
    split; [now rewrite N|]. left. split; [reflexivity|].
    apply (tracked_fresh t0 count e1 e2); auto.
    - destruct H as (G & S & _). split; assumption.
    - lia. }
  destruct Hinv as [(Hnone & Hcount) | (b & Hb & (Hl0 & Hl1) & Htok & Hsum)].
  - apply Hfirst; [now apply readBucket_wait | lia].
  - destruct (Z.lt_ge_cases (now e1) (lastRefill b + 60 * 1000)) as [Hlive | Hdead].
    + (* the bucket is still there *)
      assert (Hread : readBucket key e1 = Some b).
      { unfold readBucket. rewrite Hredis1, Hb.
        destruct (Z.ltb_spec (now e1) (lastRefill b + 60 * 1000));
          [reflexivity | lia]. }
      set (gain := inject_Z (now e1 - lastRefill b) * (5 # 1000)).
      set (avail := fst (refill defaultLimiter (readBucket key e1) (now e1))).
      assert (Havail : avail == Qmin 5 (tokens b + gain)).
      { unfold avail, gain. rewrite Hread. unfold refill. cbn [fst].
        cbn [maxTokens refillRate refillInterval defaultLimiter].
        change (inject_Z 5) with 5. apply Q.min_compat; [reflexivity|].
        unfold Qdiv. change (/ inject_Z 1000) with (1 # 1000). ring. }
      assert (Hgain : 0 <= gain).
      { unfold gain.
        assert (0 <= inject_Z (now e1 - lastRefill b))
          by (change 0 with (inject_Z 0); rewrite <- Zle_Qle; lia).
        set (x := inject_Z (now e1 - lastRefill b)) in *. lra. }
      assert (Hbounds : 0 <= avail /\ avail <= 5 /\ avail <= tokens b + gain
                        /\ (1 <= tokens b + gain -> 1 <= avail)).
      { rewrite Havail.
        destruct (Q.min_spec 5 (tokens b + gain)) as [[H1 H2]|[H1 H2]];
          rewrite H2; repeat split; lra. }
      destruct Hbounds as (Ha0 & Ha5 & Hale & Hfull).
      destruct (Qle_bool 1 avail) eqn:Hle.
      * (* allowed *)
        apply Qle_bool_iff in Hle.
        assert (Hle' : Qle_bool 1 (fst (refill defaultLimiter
                                          (readBucket key e1) (now e1))) = true)
          by now apply Qle_bool_iff.
        unfold rateLimiter.
        rewrite (checkLimit_allowed defaultLimiter req e1 Hget Hset Hle').
        fold key. fold avail.
        eexists Next, _. split; [reflexivity|].
        split; [reflexivity|]. split; [reflexivity|]. left.
        split; [reflexivity|]. split; [split; assumption|]. right.
        exists (mkBucket (avail - 1) (now e1)).
        cbn [redis setEffects setRedis]. rewrite lookup_insert_eq.
        cbn [lastRefill tokens].
        split; [reflexivity|]. split; [cbn [now setEffects setRedis]; lia|].
        split; [lra|].
        assert (Htime : inject_Z (now e1 - t0)
                        == inject_Z (now e1 - lastRefill b)
                           + inject_Z (lastRefill b - t0)).
        { replace (now e1 - t0)%Z
            with ((now e1 - lastRefill b) + (lastRefill b - t0))%Z by lia.
          rewrite inject_Z_plus. reflexivity. }
        rewrite inject_Z_plus. change (inject_Z 1) with 1.
        unfold gain in *.
        set (x := inject_Z (now e1 - lastRefill b)) in *.
        set (y := inject_Z (lastRefill b - t0)) in *.
        set (z := inject_Z (now e1 - t0)) in *.
        set (c := inject_Z count) in *. lra.
      * (* rejected *)
        assert (Hlt : avail < 1).
        { apply Qnot_le_lt. intros H. apply Qle_bool_iff in H. congruence. }
        assert (Hle' : Qle_bool 1 (fst (refill defaultLimiter
                                          (readBucket key e1) (now e1))) = false)
          by exact Hle.
        unfold rateLimiter.
        rewrite (checkLimit_rejected defaultLimiter req e1 Hget Hle').
        fold key. fold avail.
        assert (Hretry : retryAfterFor defaultLimiter avail = 1%Z).
        { rewrite retryAfter_is_ceiling. apply ceiling_is_one.
          - cbn [refillRate defaultLimiter]. change (inject_Z 5) with 5.
            unfold Qdiv. change (/ 5) with (1 # 5). lra.
          - cbn [refillRate defaultLimiter]. change (inject_Z 5) with 5.
            unfold Qdiv. change (/ 5) with (1 # 5). lra. }
        rewrite Hretry.
        eexists _, _. split; [reflexivity|].
        split; [reflexivity|]. split; [reflexivity|]. right.
        split; [reflexivity|]. split; [|split; [reflexivity|]].
        -- split; [split; assumption|]. right. exists b.
           cbn [redis now setEffects setBlockTotal].
           rewrite Hredis1. split; [exact Hb|]. split; [lia|].
           split; assumption.
        -- (* a request 200 ms after the last one finds a token *)
           destruct (Z.lt_ge_cases d 200) as [|Hd200]; [assumption|].
           exfalso.
           assert (Hx : 200 <= inject_Z (now e1 - lastRefill b)).
           { change 200 with (inject_Z 200). rewrite <- Zle_Qle. lia. }
           unfold gain in *.
           set (x := inject_Z (now e1 - lastRefill b)) in *.
           assert (1 <= avail) by (apply Hfull; lra). lra.
    + (* the bucket has expired: the client starts afresh *)
      apply Hfirst.
      * unfold readBucket. rewrite Hredis1, Hb.
        destruct (Z.ltb_spec (now e1) (lastRefill b + 60 * 1000));
          [lia | reflexivity].
      * assert (Hc : inject_Z count
                     <= 5 + inject_Z (lastRefill b - t0) * (5 # 1000)) by lra.
        assert (Hz : inject_Z (1000 * count)
                     <= inject_Z (5000 + 5 * (lastRefill b - t0))).
        { rewrite inject_Z_plus, !inject_Z_mult.
          change (inject_Z 1000) with 1000. change (inject_Z 5000) with 5000.
          change (inject_Z 5) with 5.
          set (c := inject_Z count) in *.
          set (y := inject_Z (lastRefill b - t0)) in *. lra. }
        rewrite <- Zle_Qle in Hz. lia.
Qed.

(** The whole traffic: what is added to the effects, and what is known
    at the end. *)
Lemma traffic_tracked gaps :
  forall t0 count e,
    tracked t0 count e -> (t0 <= now e)%Z ->
    Forall (fun d => (0 <= d)%Z) gaps ->
    exists new e',
      traffic req gaps e = (Ok tt, e')
      /\ effects e' = effects e ++ new
      /\ length new = length gaps
      /\ now e' = (now e + total gaps)%Z
      /\ tracked t0 (count + passed new) e'
      /\ Forall (fun h => h = Next \/ h = Respond 429 (tooManyRequests 1)) new
      /\ (Forall (fun d => (200 <= d)%Z) gaps -> Forall (fun h => h = Next) new).
Proof.
  induction gaps as [|d rest IH]; intros t0 count e Hinv Ht0 Hgaps.
  - exists [], e. split; [reflexivity|]. split; [now rewrite app_nil_r|].
    split; [reflexivity|]. split; [unfold total; cbn [foldr]; lia|].
    split; [unfold passed; cbn; now rewrite Z.add_0_r|].
    split; [constructor|]. intros _. constructor.
  - apply Forall_cons in Hgaps as [Hd Hrest].
    destruct (serve_step t0 count d e Hinv Hd Ht0)
      as (h & e2 & R & F & N & Hcase).
    assert (Hinv2 : tracked t0 (count + passed [h]) e2
                    /\ (h = Next \/ h = Respond 429 (tooManyRequests 1))
                    /\ ((200 <= d)%Z -> h = Next)).
    { destruct Hcase as [(-> & H) | (-> & H & _ & Hlt)].
      - split; [exact H|]. split; auto.
      - split; [now rewrite Z.add_0_r|]. split; [auto | lia]. }
    destruct Hinv2 as (Hinv2 & Hshape & Hsteady).
    destruct (IH t0 (count + passed [h])%Z e2 Hinv2)
      as (new & e' & R' & F' & L' & N' & Hinv' & Hall & Hst); [lia | exact Hrest |].
    exists (h :: new), e'. split.
    { cbn [traffic]. erewrite bind_ok; [|reflexivity].
      rewrite (bind_ok _ _ _ _ _ R). exact R'. }
    split; [rewrite F', F, <- app_assoc; reflexivity|].
    split; [cbn; lia|].
    split; [rewrite N', N; unfold total; cbn [foldr]; lia|].
    split.
    { replace (count + passed (h :: new))%Z
        with (count + passed [h] + passed new)%Z; [exact Hinv'|].
      unfold passed. cbn [List.filter].
      destruct h; cbn [length]; lia. }
    split; [constructor; assumption|].
    intros Hfast. apply Forall_cons in Hfast as [Hd200 Hfast].
    constructor; auto.
Qed.


Lemma tracked_start e :
  storeUp key e -> readBucket key e = None -> tracked (now e) 0 e.
Proof. intros Hup Hnone. split; [exact Hup|]. left. split; [exact Hnone | lia]. Qed.
End BucketInvariant.



(** X14. A steady client is never blocked.  With the store up and no live
    bucket at the start, a client that leaves at least 200 ms between its
    requests (the time one token takes to refill) has every request passed
    on with [next()]. *)
Theorem steady_client_is_never_blocked :
  forall (req : RateLimiter.Request) (gaps : list Z) (e : RateLimiter.Env),
    storeUp (RateLimiter.bucketKey req) e ->
    RateLimiter.readBucket (RateLimiter.bucketKey req) e = None ->
    Forall (fun d => 200 <= d) gaps ->
    outcome (traffic req gaps) e = Ok tt
    /\ effectsSince e (after (traffic req gaps) e)
       = replicate (length gaps) RateLimiter.Next.
Proof.
  intros req gaps e Hup Hnone Hgaps.
  destruct (traffic_tracked req gaps (RateLimiter.now e) 0 e)
    as (new & e' & R & F & L & _ & _ & _ & Hsteady); auto using tracked_start.
  { lia. }
  { eapply Forall_impl; [exact Hgaps|]. cbn. intros; lia. }
  unfold outcome, after, effectsSince. rewrite R. cbn [fst snd].
  rewrite F, drop_app_length. split; [reflexivity|].
  rewrite <- L. specialize (Hsteady Hgaps). clear -Hsteady.
  induction Hsteady as [|h new -> _ IH]; [reflexivity|].
  cbn [length replicate]. f_equal. exact IH.
Qed.

Lemma steady_client_is_never_blocked_witness :
  effectsSince freshEnv
    (after (traffic sampleRequest [200; 200; 200; 200; 200; 200; 200; 200])
           freshEnv)
  = replicate 8 RateLimiter.Next.
Proof.
  destruct (steady_client_is_never_blocked sampleRequest
              [200; 200; 200; 200; 200; 200; 200; 200] freshEnv) as (_ & H).
  - split; reflexivity.
  - reflexivity.
  - repeat constructor; lia.
  - exact H.
Defined.



Section Clients.
Import RateLimiter.

Lemma key_prefix_inj a b : "key:" +:+ a = "key:" +:+ b -> a = b.
Proof. intros H. injection H as H. exact H. Qed.

Lemma bucketKey_inj req1 req2 :
  bucketKey req1 = bucketKey req2 -> getClientId req1 = getClientId req2.
Proof. unfold bucketKey. intros H. injection H as H. exact H. Qed.

Lemma getClientId_cases req :
  (exists k, xApiKey req = Some (Single k) /\ k <> ""
             /\ getClientId req = "key:" +:+ k)
  \/ ((forall k, xApiKey req = Some (Single k) -> k = "")
      /\ getClientId req
         = "ip:" +:+ orElse (ip req) (orElse (remoteAddress req) "unknown")).
Proof.
  unfold getClientId. destruct (xApiKey req) as [[k|l]|].
  - destruct (String.eqb_spec k "") as [->|Hne]; cbn [negb].
    + right. split; [|reflexivity]. now intros k [= <-].
    + left. exists k. auto.
  - right. split; [|reflexivity]. intros k [=].
  - right. split; [|reflexivity]. intros k [=].
Qed.
End Clients.

(** X16. Buckets are kept per client.  Whatever the limiter does with a
    request (pass it on, reject it, or fail open), it leaves the bucket of
    every other client in the store as it was. *)
Theorem buckets_are_kept_per_client :
  forall (self : RateLimiter.Limiter) (req other : RateLimiter.Request)
         (e : RateLimiter.Env),
    RateLimiter.getClientId req <> RateLimiter.getClientId other ->
    RateLimiter.redis (after (RateLimiter.checkLimit self req) e)
      !! RateLimiter.bucketKey other
    = RateLimiter.redis e !! RateLimiter.bucketKey other.
Proof.
  intros self req other e Hne.
  assert (Hkey : RateLimiter.bucketKey req <> RateLimiter.bucketKey other)
    by (intros H; apply Hne; now apply bucketKey_inj).
  unfold after.
  destruct (RateLimiter.redisFault e (RateLimiter.RedisGet (RateLimiter.bucketKey req)))
    as [err|] eqn:Hget.
  { now rewrite (checkLimit_read_throws self req e err Hget). }
  destruct (Qle_bool 1 (fst (RateLimiter.refill self
                               (RateLimiter.readBucket (RateLimiter.bucketKey req) e)
                               (RateLimiter.now e)))) eqn:Hle.
  - destruct (RateLimiter.redisFault e
                (RateLimiter.RedisSetEx (RateLimiter.bucketKey req)))
      as [err|] eqn:Hset.
    + now rewrite (checkLimit_write_throws self req e err Hget Hset Hle).
    + rewrite (checkLimit_allowed self req e Hget Hset Hle).
      cbn [snd RateLimiter.redis RateLimiter.setEffects RateLimiter.setRedis].
      now rewrite lookup_insert_ne.
  - now rewrite (checkLimit_rejected self req e Hget Hle).
Qed.

Lemma buckets_are_kept_per_client_witness :
  RateLimiter.redis
    (after (RateLimiter.burst 6 sampleRequest;;
            RateLimiter.checkLimit RateLimiter.defaultLimiter otherRequest) freshEnv)
    !! RateLimiter.bucketKey sampleRequest
  = RateLimiter.redis (after (RateLimiter.burst 6 sampleRequest) freshEnv)
      !! RateLimiter.bucketKey sampleRequest.
Proof.
  pose proof (buckets_are_kept_per_client RateLimiter.defaultLimiter
                otherRequest sampleRequest
                (after (RateLimiter.burst 6 sampleRequest) freshEnv)) as H.
  unfold after in *. unfold mbind at 1, M_bind at 1, bind at 1.
  destruct (RateLimiter.burst 6 sampleRequest freshEnv) as [[[]|err] e1] eqn:E;
    [|vm_compute in E; discriminate].
  cbn [snd] in *. apply H. vm_compute. discriminate.
Defined.

(** X17. Clients are told apart by their API key first.  A request that
    carries a non-empty [x-api-key] header is counted against that key
    whatever its address: another request is counted against the same
    bucket exactly when it carries the same key.  Requests without a usable
    key are counted by address and never share a bucket with a key. *)
Theorem api_key_identifies_the_client :
  forall (req other : RateLimiter.Request) (k : string),
    RateLimiter.xApiKey req = Some (RateLimiter.Single k) ->
    k <> "" ->
    (RateLimiter.bucketKey req = RateLimiter.bucketKey other
     <-> RateLimiter.xApiKey other = Some (RateLimiter.Single k)).
Proof.
  intros req other k Hk Hne.
  assert (Hid : RateLimiter.getClientId req = "key:" +:+ k).
  { destruct (getClientId_cases req) as [(k' & Hk' & _ & ->) | (Hnone & _)].
    - congruence.
    - specialize (Hnone k Hk). contradiction. }
  split.
  - intros H. apply bucketKey_inj in H. rewrite Hid in H.
    destruct (getClientId_cases other) as [(k' & Hk' & _ & E) | (_ & E)];
      rewrite E in H.
    + apply key_prefix_inj in H. now subst k'.
    + cbn in H. discriminate H.
  - intros Hother. unfold RateLimiter.bucketKey. f_equal. rewrite Hid.
    destruct (getClientId_cases other) as [(k' & Hk' & _ & ->) | (Hnone & _)].
    + congruence.
    + specialize (Hnone k Hother). contradiction.
Qed.

Lemma api_key_identifies_the_client_witness :
  RateLimiter.bucketKey sampleRequest = RateLimiter.bucketKey roamingRequest
  /\ RateLimiter.bucketKey sampleRequest <> RateLimiter.bucketKey otherRequest.
Proof.
  split.
  - apply (api_key_identifies_the_client sampleRequest roamingRequest "k-42");
      [reflexivity | discriminate | reflexivity].
  - intros H.
    apply (api_key_identifies_the_client sampleRequest otherRequest "k-42") in H;
      [discriminate H | reflexivity | discriminate].
Defined.

(** * More on the triage run *)

Section StepEffect.
Import Orchestrator.
Variables (streaming : bool) (run : string).

Lemma stored_context stepName result f2 :
  riskResult (vContext (vars (after (storeResult stepName result) f2)))
  = (if String.eqb stepName "riskSignals" && ok result
     then data result else riskResult (vContext (vars f2))).
Proof.
  unfold after, storeResult.
  destruct (ok result); rewrite ?andb_true_r, ?andb_false_r.
  2: { reflexivity. }
  destruct (String.eqb_spec stepName "dataAccess") as [->|_].
  { destruct (data result) as [[]|]; reflexivity. }
  destruct (String.eqb_spec stepName "insights") as [->|_]; [reflexivity|].
  destruct (String.eqb_spec stepName "riskSignals") as [->|_]; [reflexivity|].
  destruct (String.eqb_spec stepName "kbLookup") as [->|_]; [reflexivity|].
  destruct (String.eqb_spec stepName "compliance") as [->|_]; [reflexivity|].
  destruct (String.eqb_spec stepName "redactor") as [->|_]; [reflexivity|].
  destruct (String.eqb_spec stepName "proposeAction") as [->|_]; reflexivity.
Qed.

(** Everything one executed step does to the locals and to the metrics;
    [traced] tells whether the trace row was written. *)
Lemma step_effect s tool f result w2 :
  BaseTool.execute tool (vContext (vars f))
    (emit streaming (ToolUpdate s Running None run) (world f))
  = (Ok result, w2) ->
  let F := settled streaming run s (clock (world f)) result
                   (mkFrame w2 (vars f)) in
  exists (traced : bool) (recorded : list AgentStep),
    oracle (world F) = oracle (world f)
    /\ metricLog (world F)
       = metricLog (world f)
         ++ (if ok result
             then [ToolCallTotal (className tool) true;
                   AgentLatency (className tool) "execute" (duration result)]
             else [ToolCallTotal (className tool) false])
         ++ (if traced && negb (ok result) then [AgentFallbackTotal s] else [])
    /\ vSteps (vars F) = vSteps (vars f) ++ recorded
    /\ anyFailed recorded = negb (ok result) || negb traced
    /\ map step recorded = s :: (if traced then [] else [s])
    /\ vFallbackUsed (vars F)
       = vFallbackUsed (vars f) || negb (ok result) || negb traced
    /\ riskResult (vContext (vars F))
       = (if String.eqb s "riskSignals" && ok result
          then data result else riskResult (vContext (vars f)))
    /\ vProposalResult (vars F)
       = (if String.eqb s "proposeAction" && ok result
          then data result else vProposalResult (vars f))
    /\ vRiskResult (vars F)
       = (if String.eqb s "riskSignals"
          then (if ok result then data result
                else if traced then Some getFallbackRisk
                     else vRiskResult (vars f))
          else vRiskResult (vars f))
    /\ (forall g, body tool = Pure g -> ok result = true ->
        data result = Some (g (vContext (vars f)))).
Proof.
  intros Hexec F.
  destruct (execute_spec tool (vContext (vars f))
              (emit streaming (ToolUpdate s Running None run) (world f)))
    as (r' & w2' & E & _ & (_ & _ & _ & _ & _ & _ & _ & Horacle)
        & Hmetrics & Hpure).
  rewrite Hexec in E. injection E as <- <-.
  destruct (emit_frame streaming (ToolUpdate s Running None run) (world f))
    as (Em & Eo & _).
  rewrite Em in Hmetrics. rewrite Eo in Horacle.
  destruct (stored_facts s result (mkFrame w2 (vars f)))
    as (Sfb & Ssteps & Srisk & Sprop).
  pose proof (stored_context s result (mkFrame w2 (vars f))) as Sctx.
  cbn [vars] in Sfb, Ssteps, Srisk, Sprop, Sctx.
  set (v1 := vars (after (storeResult s result) (mkFrame w2 (vars f)))) in *.
  destruct (settled_cases streaming run s (clock (world f)) result
              (mkFrame w2 (vars f)))
    as [(e & _ & HW & HV) | [(_ & Hok & HW & HV) | (_ & Hok & HW & HV)]];
    fold F in HW, HV; fold v1 in HV; cbn [world vars] in HW.
  - exists false. eexists [_; _]. rewrite HW, HV.
    cbn [oracle metricLog setClock vSteps vFallbackUsed vContext
         vProposalResult vRiskResult pushStep setFallbackUsed].
    rewrite Hmetrics, Ssteps, Sctx, Sprop, Srisk, <- !app_assoc.
    cbn [andb app]. rewrite ?app_nil_r.
    split; [exact Horacle|]. split; [reflexivity|].
    split; [reflexivity|].
    split; [unfold anyFailed; cbn; now rewrite !orb_true_r|].
    split; [reflexivity|]. split; [now rewrite !orb_true_r|].
    split; [reflexivity|]. split; [reflexivity|].
    split; [|exact Hpure].
    destruct (String.eqb s "riskSignals"), (ok result); reflexivity.
  - exists true. eexists [_]. rewrite HW, HV.
    match goal with
    | |- context [emit streaming ?ev ?w] =>
        destruct (emit_frame streaming ev w) as (-> & -> & _)
    end.
    cbn [oracle metricLog setAgentTraces setClock vSteps vFallbackUsed
         vContext vProposalResult vRiskResult pushStep].
    rewrite Hmetrics, Ssteps, Sctx, Sprop, Srisk, Sfb, Hok.
    cbn [andb negb app]. rewrite ?app_nil_r, ?orb_false_r.
    split; [exact Horacle|]. split; [reflexivity|].
    split; [reflexivity|].
    split; [reflexivity|].
    split; [reflexivity|]. split; [reflexivity|].
    split; [reflexivity|]. split; [reflexivity|].
    split; [|intros g Hg _; now apply Hpure].
    rewrite andb_true_r. now destruct (String.eqb s "riskSignals").
  - exists true. eexists [_]. rewrite HW, HV.
    match goal with
    | |- context [emit streaming ?ev ?w] =>
        destruct (emit_frame streaming ev w) as (-> & -> & _)
    end.
    cbn [oracle metricLog setMetricLog setAgentTraces setClock].
    rewrite Hmetrics, Hok, <- !app_assoc. cbn [andb negb app].
    split; [exact Horacle|]. split; [reflexivity|].
    destruct (String.eqb s "riskSignals") eqn:Hs;
      cbn [id vSteps vFallbackUsed vContext vProposalResult vRiskResult
           pushStep setFallbackUsed setRiskResult];
      rewrite Ssteps, ?Sctx, ?Sprop, ?Srisk, ?Hok, ?Hs, ?andb_false_r;
      (split; [reflexivity|]);
      (split; [reflexivity|]);
      (split; [reflexivity|]); (split; [now rewrite orb_true_r|]);
      (split; [reflexivity|]); (split; [reflexivity|]);
      (split; [reflexivity | intros g Hg Ht; discriminate Ht]).
Qed.
End StepEffect.

(** X18. An unknown alert ends the stream with an error and leaves no
    trace.  When the store answers the lookup and holds no alert with the
    requested id, the SSE route writes its greeting and one error event
    with the message 'Alert not found' and closes the stream; no run
    record is created, no tool is executed, no trace or update is written,
    and no plan is announced. *)
Theorem unknown_alert_ends_the_stream_with_an_error :
  forall (runIdParam alertIdArg : string) (w : World),
    alertIdArg <> "" ->
    alerts w !! alertIdArg = None ->
    dbFault (oracle w) (AlertFindUnique alertIdArg) = None ->
    let w' := after (TriageRoute.stream runIdParam (Some alertIdArg)) w in
    outcome (TriageRoute.stream runIdParam (Some alertIdArg)) w = Ok tt
    /\ wire w' = wire w ++ [Connected runIdParam; ErrorEvent "Alert not found"]
    /\ wireEnded w' = true
    /\ triageRuns w' = triageRuns w
    /\ agentTraces w' = agentTraces w
    /\ runUpdates w' = runUpdates w
    /\ metricLog w' = metricLog w
    /\ calls w' = calls w.
Proof.
  intros runIdParam alertIdArg w Hne Hnone Hfault w'. subst w'.
  unfold outcome, after, TriageRoute.stream.
  set (wc := setWire (wire w ++ [Connected runIdParam]) w).
  assert (Hc : TriageRoute.resWrite (Connected runIdParam) w = (Ok tt, wc))
    by reflexivity.
  rewrite (bind_ok _ _ _ _ _ Hc).
  assert (Htruthy : truthyStr (Some alertIdArg) = true).
  { cbn. now destruct (String.eqb_spec alertIdArg ""). }
  rewrite Htruthy. cbn [negb default from_option id].
  set (wa := setIdsDrawn (S (idsDrawn wc)) wc).
  set (wb := setClock (clock wa + dbLatency (oracle wa) (AlertFindUnique alertIdArg)) wa).
  assert (Hrun : Orchestrator.executeTriage alertIdArg (Some TriageRoute.resWrite) wc
                 = (Throw (Error "Alert not found"), wb)).
  { unfold Orchestrator.executeTriage.
    erewrite bind_ok; [|reflexivity].
    erewrite bind_ok; [|reflexivity].
    assert (Hfind : Orchestrator.alertFindUnique alertIdArg wa = (Ok None, wb)).
    { unfold Orchestrator.alertFindUnique.
      erewrite bind_ok; [|rewrite dbCall_eq; cbn [oracle wa wc setIdsDrawn setWire];
                          rewrite Hfault; reflexivity].
      unfold gets. cbn [alerts setClock wa wc setIdsDrawn setWire].
      now rewrite Hnone. }
    rewrite (bind_ok _ _ _ _ _ Hfind). reflexivity. }
  erewrite tryCatch_throw; [|erewrite bind_throw; [reflexivity | exact Hrun]].
  route_compute. cbn [message].
  split; [reflexivity|]. split.
  { change (wire wb) with (wire w ++ [Connected runIdParam]).
    now rewrite <- app_assoc. }
  repeat split.
Qed.

Lemma unknown_alert_ends_the_stream_with_an_error_witness :
  wire (after (TriageRoute.stream "run_1_A9" (Some "A9")) happyWorld)
  = [Connected "run_1_A9"; ErrorEvent "Alert not found"].
Proof.
  destruct (unknown_alert_ends_the_stream_with_an_error "run_1_A9" "A9" happyWorld)
    as (_ & H & _).
  - discriminate.
  - reflexivity.
  - reflexivity.
  - exact H.
Defined.

Lemma anyFailed_app a b : anyFailed (a ++ b) = anyFailed a || anyFailed b.
Proof. apply existsb_app. Qed.

Lemma anyFailed_alter (g : AgentStep -> AgentStep) i l :
  (forall s, stepOk (g s) = stepOk s) -> anyFailed (alter g i l) = anyFailed l.
Proof.
  intros Hg. revert i. induction l as [|s l IH]; intros [|i]; cbn; try reflexivity.
  - now rewrite Hg.
  - f_equal. apply IH.
Qed.

Lemma anyFailed_finalSteps v :
  anyFailed (Orchestrator.finalSteps v) = anyFailed (Orchestrator.vSteps v).
Proof.
  unfold Orchestrator.finalSteps.
  destruct (Orchestrator.vRiskStep v) as [i|]; [|reflexivity].
  destruct (Orchestrator.vRiskResult v) as [[]|]; try reflexivity.
  now apply anyFailed_alter.
Qed.

Lemma toolsCalled_app a b : toolsCalled (a ++ b) = toolsCalled a ++ toolsCalled b.
Proof. apply omap_app. Qed.

Lemma classesOf_cons s rest :
  classesOf (s :: rest)
  = match Orchestrator.tools !! s with
    | Some tool => className tool :: classesOf rest
    | None => classesOf rest
    end.
Proof.
  unfold classesOf.
  change (omap ?f (s :: rest))
    with (match f s with Some y => y :: omap f rest | None => omap f rest end).
  cbv beta. now destruct (Orchestrator.tools !! s).
Qed.

Section RunInvariants.
Import Orchestrator.
Variables (streaming : bool) (startTime : Z) (run : string).

Lemma flag_loop remaining f :
  vFallbackUsed (vars f) = anyFailed (vSteps (vars f)) ->
  exists f', forEachStep startTime run (callbackOf streaming) remaining f
             = (Ok tt, f')
             /\ vFallbackUsed (vars f') = anyFailed (vSteps (vars f')).
Proof.
  apply (forEachStep_rule startTime run streaming
           (fun _ f => vFallbackUsed (vars f) = anyFailed (vSteps (vars f)))
           (fun f => vFallbackUsed (vars f) = anyFailed (vSteps (vars f))));
    auto.
  intros s rest f0 tool result w2 Hflag _ _ Hexec.
  destruct (step_effect streaming run s tool f0 result w2 Hexec)
    as (traced & recorded & _ & _ & Hsteps & Hfailed & _ & Hfb & _).
  rewrite Hfb, Hsteps, anyFailed_app, Hfailed, Hflag.
  now rewrite orb_assoc.
Qed.

Variables (base : list Metric) (planned : list string).

Let called (remaining : list string) (f : Frame) : Prop :=
  exists ms,
    metricLog (world f) = base ++ ms
    /\ toolsCalled ms ++ classesOf remaining = classesOf planned.

Lemma order_loop remaining f :
  called remaining f ->
  exists f', forEachStep startTime run (callbackOf streaming) remaining f
             = (Ok tt, f')
             /\ exists ms rest,
                 metricLog (world f') = base ++ ms
                 /\ toolsCalled ms ++ rest = classesOf planned.
Proof.
  apply (forEachStep_rule startTime run streaming called
           (fun f => exists ms rest,
                metricLog (world f) = base ++ ms
                /\ toolsCalled ms ++ rest = classesOf planned)).
  - intros f0 (ms & Hm & Hc). eauto.
  - intros s rest f0 (ms & Hm & Hc) Hnone. exists ms. split; [exact Hm|].
    now rewrite classesOf_cons, Hnone in Hc.
  - intros s rest f0 tool (ms & Hm & Hc) _ _. eauto.
  - intros s rest f0 tool result w2 (ms & Hm & Hc) Htool _ Hexec.
    destruct (step_effect streaming run s tool f0 result w2 Hexec)
      as (traced & recorded & _ & Hmetrics & _).
    eexists. split; [rewrite Hmetrics, Hm, <- app_assoc; reflexivity|].
    rewrite <- Hc, classesOf_cons, Htool.
    rewrite !toolsCalled_app, <- !app_assoc. f_equal.
    destruct (ok result), (traced && negb _); reflexivity.
Qed.
End RunInvariants.

(** X19. The fallback flag marks a failed step.  In every decision that
    [executeTriage] returns, [fallbackUsed] is true exactly when one of
    the recorded steps has [ok = false], be it a tool that failed or a
    step whose trace could not be written. *)
Theorem fallback_flag_marks_a_failed_step :
  forall (alertIdArg : string) (streaming : bool) (w w' : World)
         (decision : TriageResult),
    Orchestrator.executeTriage alertIdArg (callbackOf streaming) w
    = (Ok decision, w') ->
    fallbackUsed decision = anyFailed (steps decision).
Proof.
  intros alertIdArg streaming w w' decision Hrun.
  destruct (executeTriage_cases streaming alertIdArg w)
    as [(e & w1 & E & _) | (runId & alertRow & w1 & f' & _ & Hloop & E)];
    rewrite E in Hrun; [discriminate|].
  destruct (flag_loop streaming (clock w) runId Orchestrator.defaultPlan
              (Orchestrator.mkFrame
                 (emit streaming (PlanBuilt Orchestrator.defaultPlan runId) w1)
                 (Orchestrator.initialLocals (contextFor alertIdArg runId alertRow))))
    as (f'' & Hloop' & Hflag); [reflexivity|].
  rewrite Hloop in Hloop'. injection Hloop' as <-.
  rewrite finalize_eq in Hrun. cbv zeta in Hrun.
  destruct (dbFault _ _); [discriminate|].
  injection Hrun as <- _. unfold decisionOf. cbn [fallbackUsed steps].
  now rewrite anyFailed_finalSteps.
Qed.

Lemma fallback_flag_marks_a_failed_step_witness :
  exists decision w',
    Orchestrator.executeTriage "A1" (callbackOf true) riskDownWorld
    = (Ok decision, w')
    /\ fallbackUsed decision = true
    /\ anyFailed (steps decision) = true.
Proof.
  assert (E : exists decision w',
             Orchestrator.executeTriage "A1" (callbackOf true) riskDownWorld
             = (Ok decision, w')
             /\ fallbackUsed decision = true).
  { vm_compute. eexists _, _. split; reflexivity. }
  destruct E as (decision & w' & E & Hflag).
  exists decision, w'. split; [exact E|]. split; [exact Hflag|].
  rewrite <- (fallback_flag_marks_a_failed_step "A1" true riskDownWorld w'
                decision E).
  exact Hflag.
Defined.

Lemma classesOf_defaultPlan :
  classesOf Orchestrator.defaultPlan
  = ["DataAccessAgent"; "FraudAgent"; "KnowledgeBaseAgent";
     "DecisionTool"; "ProposeActionTool"].
Proof. vm_compute. reflexivity. Qed.

(** X20. The tools of a run are those of the plan, in its order.  Whatever
    happens during a run of [executeTriage], the tools executed are an
    initial part of DataAccessAgent, FraudAgent, KnowledgeBaseAgent,
    DecisionTool, ProposeActionTool, each executed once: no step is
    repeated or taken out of order, and the four other registered agents
    (insights, compliance, redactor, summarizer) are never executed. *)
Theorem tools_run_in_plan_order :
  forall (alertIdArg : string) (streaming : bool) (w : World),
    let w' := after (Orchestrator.executeTriage alertIdArg (callbackOf streaming)) w in
    exists n : nat,
      toolsCalled (metricsSince w w')
      = take n ["DataAccessAgent"; "FraudAgent"; "KnowledgeBaseAgent";
                "DecisionTool"; "ProposeActionTool"].
Proof.
  intros alertIdArg streaming w w'. subst w'. unfold after, metricsSince.
  destruct (executeTriage_cases streaming alertIdArg w)
    as [(e & w1 & E & (Hm & _)) | (runId & alertRow & w1 & f' & Hframe & Hloop & E)];
    rewrite E; cbn [snd].
  - exists 0%nat. now rewrite Hm, drop_all.
  - destruct Hframe as (Hm & _).
    destruct (order_loop streaming (clock w) runId (metricLog w)
                Orchestrator.defaultPlan Orchestrator.defaultPlan
                (Orchestrator.mkFrame
                   (emit streaming (PlanBuilt Orchestrator.defaultPlan runId) w1)
                   (Orchestrator.initialLocals (contextFor alertIdArg runId alertRow))))
      as (f'' & Hloop' & ms & rest & Hms & Hcalled).
    { exists []. cbn [Orchestrator.world].
      destruct (emit_frame streaming (PlanBuilt Orchestrator.defaultPlan runId) w1)
        as (-> & _). rewrite app_nil_r. split; [exact Hm | reflexivity]. }
    rewrite Hloop in Hloop'. injection Hloop' as <-.
    exists (length (toolsCalled ms)).
    assert (Hlog : metricLog (snd (Orchestrator.finalize (clock w) runId
                                     (callbackOf streaming) Orchestrator.defaultPlan
                                     (Orchestrator.vars f') (Orchestrator.world f')))
                   = metricLog w ++ ms).
    { rewrite finalize_eq. cbv zeta. destruct (dbFault _ _); cbn [snd].
      - exact Hms.
      - match goal with
        | |- context [emit streaming ?ev ?w0] =>
            destruct (emit_frame streaming ev w0) as (-> & _)
        end.
        exact Hms. }
    rewrite Hlog, drop_app_length, <- classesOf_defaultPlan, <- Hcalled.
    now rewrite take_app_length.
Qed.

(** X21. The decision is stored and streamed as it is returned.  Whenever
    [executeTriage] returns a decision, the last update written to the run
    record carries the decision's risk, reasons, fallback flag and latency,
    the latency is the time from the start of the call to that update, the
    plan reported is the default plan, and with a stream callback the last
    event handed over is [decision_finalized] with the same risk, reasons,
    action and latency. *)
Theorem decision_is_stored_and_streamed_as_returned :
  forall (alertIdArg : string) (streaming : bool) (w w' : World)
         (decision : TriageResult),
    Orchestrator.executeTriage alertIdArg (callbackOf streaming) w
    = (Ok decision, w') ->
    exists (runId : string) (ended : Z),
      last (runUpdates w')
      = Some (mkRunUpdate runId ended (risk decision) (reasons decision)
                          (fallbackUsed decision) (latencyMs decision))
      /\ latencyMs decision = ended - clock w
      /\ plan decision = Orchestrator.defaultPlan
      /\ (streaming = true ->
          last (wire w')
          = Some (DecisionFinalized (risk decision) (reasons decision)
                    (recommendedAction decision) (latencyMs decision) runId)).
Proof.
  intros alertIdArg streaming w w' decision Hrun.
  destruct (executeTriage_cases streaming alertIdArg w)
    as [(e & w1 & E & _) | (runId & alertRow & w1 & f' & _ & _ & E)];
    rewrite E in Hrun; [discriminate|].
  rewrite finalize_eq in Hrun. cbv zeta in Hrun.
  destruct (dbFault _ _); [discriminate|].
  injection Hrun as <- <-.
  exists runId, (clock (Orchestrator.world f')).
  split; [|split; [reflexivity|split; [reflexivity|]]].
  - destruct streaming; cbn [emit runUpdates setWire setRunUpdates];
      now rewrite last_snoc.
  - intros ->. cbn [emit wire setWire]. now rewrite last_snoc.
Qed.

Lemma decision_is_stored_and_streamed_as_returned_witness :
  exists decision w',
    Orchestrator.executeTriage "A1" (callbackOf true) happyWorld
    = (Ok decision, w')
    /\ latencyMs decision = 67
    /\ last (wire w')
       = Some (DecisionFinalized (risk decision) (reasons decision)
                 (recommendedAction decision) 67 "run-0").
Proof.
  assert (E : exists decision w',
             Orchestrator.executeTriage "A1" (callbackOf true) happyWorld
             = (Ok decision, w')
             /\ latencyMs decision = 67
             /\ exists r rs a l,
                  last (wire w') = Some (DecisionFinalized r rs a l "run-0")).
  { vm_compute. eexists _, _. split; [reflexivity|]. split; [reflexivity|].
    eexists _, _, _, _. reflexivity. }
  destruct E as (decision & w' & E & Hlatency & r & rs & a & l & Hlast).
  exists decision, w'. split; [exact E|]. split; [exact Hlatency|].
  destruct (decision_is_stored_and_streamed_as_returned "A1" true happyWorld w'
              decision E) as (runId & ended & _ & _ & _ & Hwire).
  rewrite (Hwire eq_refl) in Hlast. injection Hlast as _ _ _ _ ->.
  rewrite (Hwire eq_refl), Hlatency. reflexivity.
Defined.

